(** * Milano agent: the ReAct control loop

    A shallow embedding of the agentic control loop of the repository:

    - [src/agent/domain/agents/react_agent.py]
      ([StockReActAgent.reason], [parse_tool_usage], [format_tool_result]),
    - [src/agent/domain/tools/base.py] ([CustomBaseTool._arun]),
    - [src/agent/domain/entities/context.py] ([AgentState], [ToolResult]),
    - [src/agent/infra/agents/langgraph_workflow.py] ([ReActWorkflow]: the
      four nodes, the conditional edge, the tool dispatcher and [run]),
    - [src/agent/application/services/stock_analysis_service.py]
      ([StockAnalysisService]: [analyze], [_ensure_session],
      [_serialize_intermediate_results]),
    - [src/agent/shared/session/redis_session_manager.py]
      ([LangChainRedisSessionManager]: sessions and the cache of answers),
    - [src/agent/domain/tools/] (the seven tools of the registry: their
      [_execute_impl] and what it calls) and
      [src/agent/infra/utils/query_enhancer.py] ([enhance_query]).

    Python [str] values are modelled by [string], read as the UTF-8 encoding
    of the text; Python objects that travel through the loop as JSON-like
    data are modelled by [value]; raised exceptions by the [Result] monad.
    The chat collaborator, the tools' [_execute_impl] and the clock are
    external: every superstep of the graph draws their outcomes from an
    [Event] of an arbitrary [World].  The providers behind the tools are
    a record [Providers] of arbitrary functions; Redis, the clock and the
    generator of session ids seen by the service are an arbitrary state
    [Outside].

    The runtime of the graph (LangGraph) is modelled by [supersteps] and
    [ainvoke]: the recursion limit, of which a run of [n] nodes needs
    [n + 1] and which [run] leaves at the default of 25; the validation
    of the state against [AgentState] where a node or the conditional
    edge reads it; and the thread of the checkpointer ([MemorySaver]),
    from which a run inherits the [final_answer], [tool_output] and
    [tool_error] of an earlier run on the same thread. *)

From Stdlib Require Import String Ascii List ZArith Bool Lia Arith.
From Stdlib Require Import DecimalString.
Import ListNotations.
Open Scope list_scope.
Open Scope string_scope.

Set Implicit Arguments.
Set Warnings "-register-all".

(* ================================================================== *)
(** * Python values, exceptions and strings                             *)
(* ================================================================== *)

Module Py.

(** JSON-like Python objects: what [json.loads] produces, what a pydantic
    [model_dump] returns, what the nodes store in dictionaries.  A [dict] is
    an association list in insertion order; a float is kept as its [repr]. *)
Inductive value : Type :=
| VNone
| VBool (b : bool)
| VInt (z : Z)
| VFloat (repr : string)
| VStr (s : string)
| VList (items : list value)
| VDict (entries : list (string * value)).

Definition dict := list (string * value).

(** [d.get(k)]: the value stored under [k], if any. *)
Fixpoint dict_get (k : string) (d : dict) : option value :=
  match d with
  | [] => None
  | (k', v) :: rest => if String.eqb k k' then Some v else dict_get k rest
  end.

(** [d.get(k, default)]. *)
Definition dict_get_default (k : string) (default : value) (d : dict) : value :=
  match dict_get k d with
  | Some v => v
  | None => default
  end.

(** [k in d]. *)
Definition dict_has (k : string) (d : dict) : bool :=
  match dict_get k d with
  | Some _ => true
  | None => false
  end.

(** [list(d.keys())]. *)
Definition dict_keys (d : dict) : list string := map fst d.

(** The exception classes the loop distinguishes.  [JSONDecodeError] and
    pydantic's [ValidationError] derive from [ValueError]; [RuntimeError]
    stands for any other subclass of [Exception]. *)
Inductive exn_class : Type :=
| JSONDecodeError
| ValidationError
| ValueError
| KeyError
| TypeError
| AttributeError
| GraphRecursionError
| RuntimeError.

(** A raised exception: its class and [str(e)]. *)
Record exn : Type := Raise_ { exn_cls : exn_class; exn_str : string }.

(** [isinstance(e, ValueError)]. *)
Definition is_ValueError (c : exn_class) : bool :=
  match c with
  | JSONDecodeError | ValidationError | ValueError => true
  | _ => false
  end.

(** [isinstance(e, json.JSONDecodeError)]. *)
Definition is_JSONDecodeError (c : exn_class) : bool :=
  match c with
  | JSONDecodeError => true
  | _ => false
  end.

(** [isinstance(e, Exception)]: every modelled class. *)
Definition is_Exception (c : exn_class) : bool := true.

(** A computation that returns a value or raises. *)
Definition Result (A : Type) : Type := (A + exn)%type.

Definition Ok {A : Type} (a : A) : Result A := inl a.
Definition Raise {A : Type} (c : exn_class) (msg : string) : Result A :=
  inr (Raise_ c msg).

Definition bind {A B : Type} (m : Result A) (k : A -> Result B) : Result B :=
  match m with
  | inl a => k a
  | inr e => inr e
  end.

(** [except C as e: h e] clauses of one [try], tried in order. *)
Definition handler (A : Type) : Type :=
  ((exn_class -> bool) * (exn -> Result A))%type.

Fixpoint select_handler {A : Type} (hs : list (handler A)) (e : exn)
  : Result A :=
  match hs with
  | [] => inr e
  | (matches, h) :: rest =>
      if matches (exn_cls e) then h e else select_handler rest e
  end.

(** [try: body  except ...]. *)
Definition try_ {A : Type} (body : Result A) (hs : list (handler A))
  : Result A :=
  match body with
  | inl a => inl a
  | inr e => select_handler hs e
  end.

(** Truthiness of a [str] and of an [Optional[str]]. *)
Definition str_truthy (s : string) : bool := negb (String.eqb s "").

Definition opt_truthy (o : option string) : bool :=
  match o with
  | Some s => str_truthy s
  | None => false
  end.

(** Truthiness of a JSON-like object ([bool(v)]). *)
Definition truthy (v : value) : bool :=
  match v with
  | VNone => false
  | VBool b => b
  | VInt z => negb (Z.eqb z 0)
  | VFloat r => negb (existsb (String.eqb r) ["0.0"; "-0.0"])
  | VStr s => str_truthy s
  | VList l => match l with [] => false | _ => true end
  | VDict d => match d with [] => false | _ => true end
  end.

(** [type(v).__name__]. *)
Definition type_name (v : value) : string :=
  match v with
  | VNone => "NoneType"
  | VBool _ => "bool"
  | VInt _ => "int"
  | VFloat _ => "float"
  | VStr _ => "str"
  | VList _ => "list"
  | VDict _ => "dict"
  end.

(** [l.append(x)] and [l + [x]]. *)
Definition append {A : Type} (l : list A) (x : A) : list A := (l ++ [x])%list.

(** ** Strings *)

Definition nl : string := String (ascii_of_nat 10) "".

(** The double quote, and a text in which every apostrophe stands for
    one (JSON texts are written that way below). *)
Definition dquote : ascii := ascii_of_nat 34.

Fixpoint requote (s : string) : string :=
  match s with
  | EmptyString => EmptyString
  | String c r =>
      String (if Ascii.eqb c (ascii_of_nat 39) then dquote else c) (requote r)
  end.

(** [sep.join(parts)]. *)
Fixpoint join (sep : string) (parts : list string) : string :=
  match parts with
  | [] => ""
  | [p] => p
  | p :: rest => p ++ sep ++ join sep rest
  end.

(** [s] without the prefix [p], when [s.startswith(p)]. *)
Fixpoint strip_prefix (p s : string) : option string :=
  match p with
  | EmptyString => Some s
  | String a p' =>
      match s with
      | EmptyString => None
      | String b s' => if Ascii.eqb a b then strip_prefix p' s' else None
      end
  end.

(** [s.partition(needle)] at the leftmost occurrence: the text before and
    the text after it; [None] when [needle] does not occur. *)
Fixpoint cut (needle s : string) : option (string * string) :=
  match strip_prefix needle s with
  | Some rest => Some ("", rest)
  | None =>
      match s with
      | EmptyString => None
      | String c s' =>
          match cut needle s' with
          | Some (before, after) => Some (String c before, after)
          | None => None
          end
      end
  end.

(** [needle in s]. *)
Definition contains (needle s : string) : bool :=
  match cut needle s with
  | Some _ => true
  | None => false
  end.

(** The prefix of [s] up to (not including) its first newline. *)
Fixpoint take_line (s : string) : string :=
  match s with
  | EmptyString => ""
  | String c s' => if Ascii.eqb c (ascii_of_nat 10) then "" else String c (take_line s')
  end.

Fixpoint string_rev (s : string) : string :=
  match s with
  | EmptyString => ""
  | String c s' => string_rev s' ++ String c ""
  end.

(** *** Whitespace

    [str.isspace], [str.strip], [str.split] and the regular expression
    class [\s] agree on the white-space characters: U+0009..U+000D,
    U+001C..U+0020, U+0085, U+00A0, U+1680, U+2000..U+200A, U+2028, U+2029,
    U+202F, U+205F and U+3000.  On UTF-8 text they are one, two or three
    bytes long. *)

Definition is_space1 (a : ascii) : bool :=
  let n := nat_of_ascii a in
  (((9 <=? n) && (n <=? 13)) || ((28 <=? n) && (n <=? 32)))%nat.

Definition is_space2 (a b : ascii) : bool :=
  ((nat_of_ascii a =? 194)
   && ((nat_of_ascii b =? 133) || (nat_of_ascii b =? 160)))%nat.

Definition is_space3 (a b c : ascii) : bool :=
  let x := nat_of_ascii a in
  let y := nat_of_ascii b in
  let z := nat_of_ascii c in
  (((x =? 225) && (y =? 154) && (z =? 128))
   || ((x =? 226) && (y =? 128)
       && (((128 <=? z) && (z <=? 138))
           || (z =? 168) || (z =? 169) || (z =? 175)))
   || ((x =? 226) && (y =? 129) && (z =? 159))
   || ((x =? 227) && (y =? 128) && (z =? 128)))%nat.

(** Number of bytes of the white-space character at the head of [s]
    ([0] when [s] does not start with one); [backwards] reads a reversed
    string, whose characters have their bytes reversed. *)
Definition space_len (backwards : bool) (s : string) : nat :=
  match s with
  | EmptyString => 0
  | String a r =>
      if is_space1 a then 1
      else
        match r with
        | EmptyString => 0
        | String b r' =>
            if (if backwards then is_space2 b a else is_space2 a b) then 2
            else
              match r' with
              | EmptyString => 0
              | String c _ =>
                  if (if backwards then is_space3 c b a else is_space3 a b c)
                  then 3 else 0
              end
        end
  end.

(** Drops the maximal run of white space at the head of [s]; [skip] is
    the number of bytes of the current character still to drop. *)
Fixpoint drop_spaces (backwards : bool) (skip : nat) (s : string) : string :=
  match skip with
  | S k =>
      match s with
      | EmptyString => ""
      | String _ r => drop_spaces backwards k r
      end
  | 0 =>
      match space_len backwards s with
      | 0 => s
      | S k =>
          match s with
          | EmptyString => ""
          | String _ r => drop_spaces backwards k r
          end
      end
  end.

(** [s.lstrip()], [s.rstrip()], [s.strip()]. *)
Definition lstrip (s : string) : string := drop_spaces false 0 s.
Definition rstrip (s : string) : string :=
  string_rev (drop_spaces true 0 (string_rev s)).
Definition strip (s : string) : string := rstrip (lstrip s).

(** Number of bytes of the maximal run of white space at the head of [s]
    (what a greedy [\s*] consumes). *)
Definition space_run (s : string) : nat :=
  String.length s - String.length (lstrip s).

Definition flush (word : string) : list string :=
  if String.eqb word "" then [] else [word].

(** [s.split()]: the maximal runs of non-white-space characters. *)
Fixpoint split_words (skip : nat) (word : string) (s : string) : list string :=
  match s with
  | EmptyString => flush word
  | String c r =>
      match skip with
      | S k => split_words k word r
      | 0 =>
          match space_len false s with
          | S k => (flush word ++ split_words k "" r)%list
          | 0 => split_words 0 (word ++ String c "") r
          end
      end
  end.

Definition split (s : string) : list string := split_words 0 "" s.

(** [s.split(sep)] for a separator [sep] of one byte: the parts between
    the occurrences of [sep], one more than there are occurrences. *)
Fixpoint split_on (sep : ascii) (s : string) : list string :=
  match s with
  | EmptyString => [""]
  | String c r =>
      if Ascii.eqb c sep then "" :: split_on sep r
      else
        match split_on sep r with
        | part :: parts => String c part :: parts
        | [] => [String c ""]
        end
  end.

(** [str(n)] for an [int]. *)
Definition str_int (z : Z) : string :=
  NilZero.string_of_int (Z.to_int z).

(** A comprehension [[f(x) for x in l]] whose body may raise. *)
Fixpoint traverse {A B : Type} (f : A -> Result B) (l : list A)
  : Result (list B) :=
  match l with
  | [] => Ok []
  | x :: rest =>
      bind (f x) (fun y =>
      bind (traverse f rest) (fun ys => Ok (y :: ys)))
  end.

End Py.

(* ================================================================== *)
(** * The regular expressions of the loop                               *)
(* ================================================================== *)

Module Re.
Import Py.

(** [re.search(r"```json\n(.*?)\n```", message, re.DOTALL)], group 1: the
    search succeeds at the leftmost opening fence that is followed by a
    closing one, and the lazy group stops at the first closing fence. *)
Definition search_json_block (message : string) : option string :=
  match cut ("```json" ++ nl) message with
  | None => None
  | Some (_, rest) =>
      match cut (nl ++ "```") rest with
      | None => None
      | Some (body, _) => Some body
      end
  end.

(** [re.search(r"\*\*FINAL ANSWER\*\*:\s*(.*?)(?=\n|$)", content, re.DOTALL)],
    group 1: after the leftmost marker the greedy [\s*] takes the whole run
    of white space, and the lazy group then runs to the next newline or to
    the end of the text. *)
Definition search_final_answer (content : string) : option string :=
  match cut "**FINAL ANSWER**:" content with
  | None => None
  | Some (_, rest) => Some (take_line (lstrip rest))
  end.

Definition is_nl (c : ascii) : bool := Ascii.eqb c (ascii_of_nat 10).

(** [re.sub(pattern, "", s, flags=re.MULTILINE)] for a pattern whose
    matches are never empty: [match_len at_bol s] is the length of the
    match of the pattern at the head of [s] ([0] when there is none),
    [at_bol] telling whether [s] starts a line; [skip] is the number of
    bytes of the current match still to delete. *)
Fixpoint sub_empty (match_len : bool -> string -> nat)
  (at_bol : bool) (skip : nat) (s : string) : string :=
  match s with
  | EmptyString => ""
  | String c r =>
      match skip with
      | S k => sub_empty match_len (is_nl c) k r
      | 0 =>
          match match_len at_bol s with
          | S k => sub_empty match_len (is_nl c) k r
          | 0 => String c (sub_empty match_len (is_nl c) 0 r)
          end
      end
  end.

(** End of line ([$] under [re.MULTILINE]): end of text or before a newline. *)
Definition at_eol (s : string) : bool :=
  match s with
  | EmptyString => true
  | String c _ => is_nl c
  end.

Fixpoint drop (n : nat) (s : string) : string :=
  match n, s with
  | S k, String _ r => drop k r
  | _, _ => s
  end.

(** The pattern [^```json\s*|\s*```$]. *)
Definition json_fence_len (at_bol : bool) (s : string) : nat :=
  match (if at_bol then strip_prefix "```json" s else None) with
  | Some r => 7 + space_run r
  | None =>
      let k := space_run s in
      match strip_prefix "```" (drop k s) with
      | Some r => if at_eol r then k + 3 else 0
      | None => 0
      end
  end.

(** Length of the first line of [s] with its newline, when it has one. *)
Fixpoint line_len (s : string) : option nat :=
  match s with
  | EmptyString => None
  | String c r =>
      if is_nl c then Some 1
      else match line_len r with Some n => Some (S n) | None => None end
  end.

(** The pattern [^```.*?\n|\n```$]. *)
Definition any_fence_len (at_bol : bool) (s : string) : nat :=
  match (if at_bol then strip_prefix "```" s else None) with
  | Some r => match line_len r with Some n => 3 + n | None => 0 end
  | None =>
      match strip_prefix (nl ++ "```") s with
      | Some r => if at_eol r then 4 else 0
      | None => 0
      end
  end.

End Re.

(* ================================================================== *)
(** * Library functions on a fragment, for running the model            *)
(* ================================================================== *)

(** The model takes [json.loads], [json.dumps], [repr] of a [str] and the
    pydantic constructors as parameters.  This module gives executable
    instances of them on a fragment (JSON without floats and without
    [\u] escapes, printable ASCII for [repr]), used to run the model on
    concrete texts. *)
Module Lite.
Import Py.

Definition is_json_space (c : ascii) : bool :=
  let n := nat_of_ascii c in
  ((n =? 32) || (n =? 9) || (n =? 10) || (n =? 13))%nat.

Fixpoint skip_ws (s : string) : string :=
  match s with
  | String c r => if is_json_space c then skip_ws r else s
  | EmptyString => s
  end.

Definition unescape (c : ascii) : option ascii :=
  if Ascii.eqb c dquote then Some dquote
  else
    match c with
    | "\"%char => Some "\"%char
    | "/"%char => Some "/"%char
    | "n"%char => Some (ascii_of_nat 10)
    | "t"%char => Some (ascii_of_nat 9)
    | "r"%char => Some (ascii_of_nat 13)
    | "b"%char => Some (ascii_of_nat 8)
    | "f"%char => Some (ascii_of_nat 12)
    | _ => None
    end.

(** The characters of a string literal after its opening quote. *)
Fixpoint read_string (acc : string) (s : string) : option (string * string) :=
  match s with
  | EmptyString => None
  | String c r =>
      if Ascii.eqb c dquote then Some (acc, r)
      else if Ascii.eqb c "\"%char then
        match r with
        | String e r' =>
            match unescape e with
            | Some x => read_string (acc ++ String x "") r'
            | None => None
            end
        | EmptyString => None
        end
      else if (nat_of_ascii c <? 32)%nat then None
      else read_string (acc ++ String c "") r
  end.

Definition is_digit (c : ascii) : bool :=
  let n := nat_of_ascii c in ((48 <=? n) && (n <=? 57))%nat.

Fixpoint read_digits (acc : Z) (s : string) : Z * string :=
  match s with
  | String c r =>
      if is_digit c
      then read_digits (10 * acc + Z.of_nat (nat_of_ascii c - 48)) r
      else (acc, s)
  | EmptyString => (acc, s)
  end.

(** An integer literal: digits without a leading zero, not continued as a
    float. *)
Definition read_number (s : string) : option (Z * string) :=
  match s with
  | String c r =>
      if is_digit c then
        let '(n, rest) := read_digits 0 s in
        let leading_zero :=
          Ascii.eqb c "0"%char
          && match r with String d _ => is_digit d | EmptyString => false end in
        let float_tail :=
          match rest with
          | String d _ => existsb (Ascii.eqb d) ["."; "e"; "E"]%char
          | EmptyString => false
          end in
        if leading_zero || float_tail then None else Some (n, rest)
      else None
  | EmptyString => None
  end.

(** [d[k] = v] on a [dict]: replaces in place or appends. *)
Fixpoint dict_set (k : string) (v : value) (d : dict) : dict :=
  match d with
  | [] => [(k, v)]
  | (k', v') :: rest =>
      if String.eqb k k' then (k, v) :: rest else (k', v') :: dict_set k v rest
  end.

Fixpoint read_value (fuel : nat) (s : string) : option (value * string) :=
  match fuel with
  | 0 => None
  | S f =>
      match skip_ws s with
      | EmptyString => None
      | String c r as s' =>
          if Ascii.eqb c dquote then
            match read_string "" r with
            | Some (str, rest) => Some (VStr str, rest)
            | None => None
            end
          else if Ascii.eqb c "["%char then
            match skip_ws r with
            | String "]"%char rest => Some (VList [], rest)
            | _ =>
                match read_items f r with
                | Some (l, rest) => Some (VList l, rest)
                | None => None
                end
            end
          else if Ascii.eqb c "{"%char then
            match skip_ws r with
            | String "}"%char rest => Some (VDict [], rest)
            | _ =>
                match read_members f [] r with
                | Some (d, rest) => Some (VDict d, rest)
                | None => None
                end
            end
          else if Ascii.eqb c "-"%char then
            match read_number r with
            | Some (n, rest) => Some (VInt (- n), rest)
            | None => None
            end
          else
            match strip_prefix "null" s', strip_prefix "true" s',
                  strip_prefix "false" s' with
            | Some rest, _, _ => Some (VNone, rest)
            | _, Some rest, _ => Some (VBool true, rest)
            | _, _, Some rest => Some (VBool false, rest)
            | _, _, _ =>
                match read_number s' with
                | Some (n, rest) => Some (VInt n, rest)
                | None => None
                end
            end
      end
  end

with read_items (fuel : nat) (s : string) : option (list value * string) :=
  match fuel with
  | 0 => None
  | S f =>
      match read_value f s with
      | None => None
      | Some (v, rest) =>
          match skip_ws rest with
          | String "]"%char rest' => Some ([v], rest')
          | String ","%char rest' =>
              match read_items f rest' with
              | Some (l, rest'') => Some (v :: l, rest'')
              | None => None
              end
          | _ => None
          end
      end
  end

with read_members (fuel : nat) (acc : dict) (s : string)
  : option (dict * string) :=
  match fuel with
  | 0 => None
  | S f =>
      match skip_ws s with
      | String c r =>
          if negb (Ascii.eqb c dquote) then None
          else
            match read_string "" r with
            | None => None
            | Some (k, rest) =>
                match skip_ws rest with
                | String ":"%char rest' =>
                    match read_value f rest' with
                    | None => None
                    | Some (v, rest'') =>
                        match skip_ws rest'' with
                        | String "}"%char out => Some (dict_set k v acc, out)
                        | String ","%char more =>
                            read_members f (dict_set k v acc) more
                        | _ => None
                        end
                    end
                | _ => None
                end
            end
      | EmptyString => None
      end
  end.

(** [json.loads] on the fragment. *)
Definition loads (s : string) : Result value :=
  match read_value (2 * String.length s + 4) s with
  | Some (v, rest) =>
      match skip_ws rest with
      | EmptyString => Ok v
      | _ => Raise JSONDecodeError "Extra data"
      end
  | None =>
      Raise JSONDecodeError "Expecting value: line 1 column 1 (char 0)"
  end.

Definition Z_to_string (z : Z) : string :=
  NilZero.string_of_int (Z.to_int z).

Definition hex_digit (n : nat) : ascii :=
  if (n <? 10)%nat then ascii_of_nat (48 + n) else ascii_of_nat (87 + n).

Definition escape_char (c : ascii) : string :=
  let n := nat_of_ascii c in
  if Ascii.eqb c dquote then String "\"%char (String dquote "")
  else if Ascii.eqb c "\"%char then "\\"
  else if (n =? 10)%nat then "\n"
  else if (n =? 13)%nat then "\r"
  else if (n =? 9)%nat then "\t"
  else if (n =? 8)%nat then "\b"
  else if (n =? 12)%nat then "\f"
  else if (n <? 32)%nat
       then "\u00" ++ String (hex_digit (n / 16)) (String (hex_digit (n mod 16)) "")
  else String c "".

Fixpoint escape (s : string) : string :=
  match s with
  | EmptyString => ""
  | String c r => escape_char c ++ escape r
  end.

Definition quote (s : string) : string :=
  String dquote (escape s ++ String dquote "").

(** [json.dumps(v, ensure_ascii=False)]. *)
Fixpoint dumps (v : value) : string :=
  match v with
  | VNone => "null"
  | VBool true => "true"
  | VBool false => "false"
  | VInt z => Z_to_string z
  | VFloat r => r
  | VStr s => quote s
  | VList l => "[" ++ join ", " (map dumps l) ++ "]"
  | VDict d =>
      "{" ++ join ", " (map (fun kv => match kv with
                                      | (k, x) => quote k ++ ": " ++ dumps x
                                      end) d) ++ "}"
  end.

(** [repr(s)] for a [str] of printable ASCII characters. *)
Definition repr_str (s : string) : string :=
  if contains "'" s && negb (contains (String dquote "") s)
  then String dquote (s ++ String dquote "")
  else
    "'" ++ (fix esc (t : string) : string :=
              match t with
              | EmptyString => ""
              | String c r =>
                  (if Ascii.eqb c "'"%char then "\'"
                   else if Ascii.eqb c "\"%char then "\\"
                   else String c "") ++ esc r
              end) s ++ "'".

End Lite.


(* ================================================================== *)
(** * Data model ([domain/entities/context.py], [domain/tools/base.py]) *)
(* ================================================================== *)

Import Py Re.

(** [langchain_core.messages]: a role and a text. *)
Inductive Message : Type :=
| SystemMessage (content : string)
| HumanMessage (content : string)
| AIMessage (content : string).

Definition content (m : Message) : string :=
  match m with
  | SystemMessage c | HumanMessage c | AIMessage c => c
  end.

(** [ToolResult]. *)
Record ToolResult : Type := {
  status : string;
  data : value;
  metadata : dict
}.

(** [ToolResult.model_dump()]. *)
Definition ToolResult_model_dump (r : ToolResult) : dict :=
  [("status", VStr (status r)); ("data", data r); ("metadata", VDict (metadata r))].

(** [ToolResult] built from the keywords of [d]: [status] is required and must be a [str], [data]
    defaults to [None], [metadata] to an empty [dict] and must be a [dict];
    other keys are ignored. *)
Definition ToolResult_of_dict (error_text : exn_class -> value -> string)
  (d : dict) : Result ToolResult :=
  match dict_get "status" d with
  | Some (VStr st) =>
      match dict_get_default "metadata" (VDict []) d with
      | VDict md =>
          Ok {| status := st; data := dict_get_default "data" VNone d; metadata := md |}
      | v => Raise ValidationError (error_text ValidationError v)
      end
  | Some v => Raise ValidationError (error_text ValidationError v)
  | None => Raise ValidationError (error_text ValidationError (VDict d))
  end.

(** [ToolState]: the fields it declares. *)
Record ToolState : Type := {
  tool_name : string;
  execution_time : string;
  context : dict
}.

Definition ToolState_model_dump (t : ToolState) : dict :=
  [("tool_name", VStr (tool_name t));
   ("execution_time", VFloat (execution_time t));
   ("context", VDict (context t))].

(** A registered tool ([CustomBaseTool]): its [name] attribute.  What its
    [_execute_impl] does is drawn from the [Event]. *)
Record Tool : Type := { name : string }.

(** [AgentState].  [plan] is declared [str], but the reflection node
    assigns it whatever object the collaborator put under [updated_plan]. *)
Record AgentState : Type := {
  messages : list Message;
  tools_used : list string;
  intermediate_results : list dict;
  plan : value;
  sub_goals : list string;
  reflection_notes : list string;
  tool_output : option ToolResult;
  tool_error : option dict;
  action_history : list dict;
  final_answer : option string;
  reflection_decision : string;
  current_step : Z;
  max_steps : Z
}.

(** Attribute assignments on a [model_copy()] of a state. *)
Definition set_messages (x : list Message) (s : AgentState) : AgentState :=
  {| messages := x; tools_used := tools_used s;
     intermediate_results := intermediate_results s; plan := plan s;
     sub_goals := sub_goals s; reflection_notes := reflection_notes s;
     tool_output := tool_output s; tool_error := tool_error s;
     action_history := action_history s; final_answer := final_answer s;
     reflection_decision := reflection_decision s;
     current_step := current_step s; max_steps := max_steps s |}.

Definition set_tools_used (x : list string) (s : AgentState) : AgentState :=
  {| messages := messages s; tools_used := x;
     intermediate_results := intermediate_results s; plan := plan s;
     sub_goals := sub_goals s; reflection_notes := reflection_notes s;
     tool_output := tool_output s; tool_error := tool_error s;
     action_history := action_history s; final_answer := final_answer s;
     reflection_decision := reflection_decision s;
     current_step := current_step s; max_steps := max_steps s |}.

Definition set_intermediate_results (x : list dict) (s : AgentState)
  : AgentState :=
  {| messages := messages s; tools_used := tools_used s;
     intermediate_results := x; plan := plan s;
     sub_goals := sub_goals s; reflection_notes := reflection_notes s;
     tool_output := tool_output s; tool_error := tool_error s;
     action_history := action_history s; final_answer := final_answer s;
     reflection_decision := reflection_decision s;
     current_step := current_step s; max_steps := max_steps s |}.

Definition set_plan (x : value) (s : AgentState) : AgentState :=
  {| messages := messages s; tools_used := tools_used s;
     intermediate_results := intermediate_results s; plan := x;
     sub_goals := sub_goals s; reflection_notes := reflection_notes s;
     tool_output := tool_output s; tool_error := tool_error s;
     action_history := action_history s; final_answer := final_answer s;
     reflection_decision := reflection_decision s;
     current_step := current_step s; max_steps := max_steps s |}.

Definition set_sub_goals (x : list string) (s : AgentState) : AgentState :=
  {| messages := messages s; tools_used := tools_used s;
     intermediate_results := intermediate_results s; plan := plan s;
     sub_goals := x; reflection_notes := reflection_notes s;
     tool_output := tool_output s; tool_error := tool_error s;
     action_history := action_history s; final_answer := final_answer s;
     reflection_decision := reflection_decision s;
     current_step := current_step s; max_steps := max_steps s |}.

Definition set_reflection_notes (x : list string) (s : AgentState)
  : AgentState :=
  {| messages := messages s; tools_used := tools_used s;
     intermediate_results := intermediate_results s; plan := plan s;
     sub_goals := sub_goals s; reflection_notes := x;
     tool_output := tool_output s; tool_error := tool_error s;
     action_history := action_history s; final_answer := final_answer s;
     reflection_decision := reflection_decision s;
     current_step := current_step s; max_steps := max_steps s |}.

Definition set_tool_output (x : option ToolResult) (s : AgentState)
  : AgentState :=
  {| messages := messages s; tools_used := tools_used s;
     intermediate_results := intermediate_results s; plan := plan s;
     sub_goals := sub_goals s; reflection_notes := reflection_notes s;
     tool_output := x; tool_error := tool_error s;
     action_history := action_history s; final_answer := final_answer s;
     reflection_decision := reflection_decision s;
     current_step := current_step s; max_steps := max_steps s |}.

Definition set_final_answer (x : option string) (s : AgentState)
  : AgentState :=
  {| messages := messages s; tools_used := tools_used s;
     intermediate_results := intermediate_results s; plan := plan s;
     sub_goals := sub_goals s; reflection_notes := reflection_notes s;
     tool_output := tool_output s; tool_error := tool_error s;
     action_history := action_history s; final_answer := x;
     reflection_decision := reflection_decision s;
     current_step := current_step s; max_steps := max_steps s |}.

Definition set_reflection_decision (x : string) (s : AgentState)
  : AgentState :=
  {| messages := messages s; tools_used := tools_used s;
     intermediate_results := intermediate_results s; plan := plan s;
     sub_goals := sub_goals s; reflection_notes := reflection_notes s;
     tool_output := tool_output s; tool_error := tool_error s;
     action_history := action_history s; final_answer := final_answer s;
     reflection_decision := x;
     current_step := current_step s; max_steps := max_steps s |}.

Definition set_current_step (x : Z) (s : AgentState) : AgentState :=
  {| messages := messages s; tools_used := tools_used s;
     intermediate_results := intermediate_results s; plan := plan s;
     sub_goals := sub_goals s; reflection_notes := reflection_notes s;
     tool_output := tool_output s; tool_error := tool_error s;
     action_history := action_history s; final_answer := final_answer s;
     reflection_decision := reflection_decision s;
     current_step := x; max_steps := max_steps s |}.

(** [messages.append(m)]. *)
Definition append_message (m : Message) (s : AgentState) : AgentState :=
  set_messages (append (messages s) m) s.

(** ** The outside world *)

(** The providers injected into the tools ([domain/interfaces]): what a
    call of each of their methods returns or raises. *)
Record Providers : Type := {
  get_realtime_data : list string -> Result value;
  get_historical_data : list string -> value -> value -> Result value;
  get_fundamental_ratios : list string -> Result value;
  get_industry_analysis : string -> Result value;
  get_peers_comparison : list string -> Result value;
  retrieve : value -> Result value;
  search : string -> Result value;
  chat : value -> Result value
}.

(** What the collaborators do during one superstep of the graph: the
    outcome of the call to [chat_provider.chat] made by the node (its
    [response] text, or the exception it raises), the outcome of a tool's
    [_execute_impl] on validated arguments, and the duration [_arun]
    measures. *)
Record Event : Type := {
  ev_chat : Result string;
  ev_execute : Tool -> dict -> Result value;
  ev_elapsed : string
}.

(** The collaborators over a whole run: an event for every superstep. *)
Definition World : Type := nat -> Event.

(** The pydantic input models of [ReActWorkflow.TOOL_INPUT_MODELS]. *)
Inductive InputModel : Type :=
| ChatToolInput
| FundamentalAnalysisToolInput
| IndustryAnalysisToolInput
| PeersComparisonToolInput
| RAGToolInput
| StockPriceToolInput
| TavilySearchToolInput.

Definition TOOL_INPUT_MODELS : list (string * InputModel) :=
  [("chat_llm", ChatToolInput);
   ("fundamental_analysis", FundamentalAnalysisToolInput);
   ("industry_analysis", IndustryAnalysisToolInput);
   ("peers_comparison", PeersComparisonToolInput);
   ("rag_knowledge", RAGToolInput);
   ("stock_price", StockPriceToolInput);
   ("tavily_search", TavilySearchToolInput)].

(** [d.get(k)] on a table. *)
Fixpoint lookup {A : Type} (k : string) (d : list (string * A)) : option A :=
  match d with
  | [] => None
  | (k', v) :: rest => if String.eqb k k' then Some v else lookup k rest
  end.

(** The registry built by [get_tools] ([api/dependencies/service.py]):
    every tool under its own [name]. *)
Definition get_tools : list (string * Tool) :=
  [("rag_knowledge", {| name := "rag_knowledge" |});
   ("tavily_search", {| name := "tavily_search" |});
   ("stock_price", {| name := "stock_price" |});
   ("fundamental_analysis", {| name := "fundamental_analysis" |});
   ("industry_analysis", {| name := "industry_analysis" |});
   ("peers_comparison", {| name := "peers_comparison" |});
   ("chat_llm", {| name := "chat_llm" |})].

(** The nodes of the graph. *)
Inductive Node : Type :=
| reasoning
| action
| reflection
| final_output
| END.

(** The record [run] returns ([execution_time], a wall-clock reading, is
    left out). *)
Record Metadata : Type := {
  md_success : bool;
  md_steps : Z;
  md_tools_used : list string;
  md_intermediate_results : list dict;
  md_error : option string;
  md_session_id : option string;
  md_plan : string;
  md_sub_goals : list string;
  md_reflection_notes : list string
}.

Record RunResult : Type := {
  answer : string;
  run_metadata : Metadata
}.

(** Executable stand-ins for the remaining library behaviour, on the
    fragment of [Lite]: [str] of an object, the text of an interpreter or
    pydantic exception, and the construction of the input models (required
    fields and their types, declared defaults, undeclared keys dropped). *)
Module LiteModels.
Import Lite.

Fixpoint repr (v : value) : string :=
  match v with
  | VNone => "None"
  | VBool true => "True"
  | VBool false => "False"
  | VInt z => Z_to_string z
  | VFloat r => r
  | VStr s => repr_str s
  | VList l => "[" ++ join ", " (map repr l) ++ "]"
  | VDict d =>
      "{" ++ join ", " (map (fun kv => match kv with
                                      | (k, x) => repr_str k ++ ": " ++ repr x
                                      end) d) ++ "}"
  end.

Definition str_of (v : value) : string := repr v.

Definition error_text (c : exn_class) (v : value) : string :=
  match c, v with
  | KeyError, VStr k => repr_str k
  | TypeError, _ => "unsupported operation on '" ++ type_name v ++ "' object"
  | AttributeError, _ => "'" ++ type_name v ++ "' object has no attribute 'get'"
  | GraphRecursionError, VInt recursion_limit =>
      "Recursion limit of " ++ Z_to_string recursion_limit
      ++ " reached without hitting a stop condition."
  | _, _ => "1 validation error (input_type=" ++ type_name v ++ ")"
  end.

Definition is_str (v : value) : bool :=
  match v with VStr _ => true | _ => false end.

Definition is_str_list (v : value) : bool :=
  match v with VList l => forallb is_str l | _ => false end.

Definition is_optional_str (v : value) : bool :=
  match v with VNone | VStr _ => true | _ => false end.

(** One declared field: its name, whether the object found is accepted,
    and its default ([None] when the field is required). *)
Definition field : Type := (string * (value -> bool) * option value)%type.

Definition fields_of (m : InputModel) : list field :=
  match m with
  | ChatToolInput =>
      [("messages", fun v => match v with VList _ => true | _ => false end, None)]
  | FundamentalAnalysisToolInput | PeersComparisonToolInput =>
      [("symbols", fun v => is_str v || is_str_list v, None)]
  | IndustryAnalysisToolInput => [("symbol", is_str, None)]
  | RAGToolInput | TavilySearchToolInput => [("query", is_str, None)]
  | StockPriceToolInput =>
      [("symbols", fun v => is_str v || is_str_list v, None);
       ("data_type", is_str, Some (VStr "realtime"));
       ("start_date", is_optional_str, Some VNone);
       ("end_date", is_optional_str, Some VNone)]
  end.

Fixpoint bind_fields (fs : list field) (d : dict) : option dict :=
  match fs with
  | [] => Some []
  | (k, accepts, default) :: rest =>
      match (match dict_get k d with
             | Some v => if accepts v then Some v else None
             | None => default
             end), bind_fields rest d with
      | Some v, Some out => Some ((k, v) :: out)
      | _, _ => None
      end
  end.

Definition construct_input (m : InputModel) (d : dict) : Result dict :=
  match bind_fields (fields_of m) d with
  | Some kwargs => Ok kwargs
  | None => Raise ValidationError (error_text ValidationError (VDict d))
  end.

(** ** The library behaviour behind the tools

    On a fragment again: ASCII letters for [str.upper] and [str.lower];
    zero-padded dates for [strptime]; for the ticker pattern, text whose
    bytes above 127 belong to letters; for the mean, integers whose sum
    is a multiple of their number; for a [float] field, numbers and
    booleans. *)

Fixpoint map_string (f : ascii -> ascii) (s : string) : string :=
  match s with
  | EmptyString => EmptyString
  | String c r => String (f c) (map_string f r)
  end.

Definition between (lo hi : nat) (c : ascii) : bool :=
  ((lo <=? nat_of_ascii c) && (nat_of_ascii c <=? hi))%nat.

Definition str_upper : string -> string :=
  map_string (fun c => if between 97 122 c
                       then ascii_of_nat (nat_of_ascii c - 32) else c).

Definition str_lower : string -> string :=
  map_string (fun c => if between 65 90 c
                       then ascii_of_nat (nat_of_ascii c + 32) else c).

Definition digit (c : ascii) : option nat :=
  if between 48 57 c then Some (nat_of_ascii c - 48)%nat else None.

Definition number (cs : list ascii) : option nat :=
  fold_left (fun acc c =>
               match acc, digit c with
               | Some n, Some d => Some (10 * n + d)%nat
               | _, _ => None
               end) cs (Some 0%nat).

Definition days_in_month (year month : nat) : nat :=
  if existsb (Nat.eqb month) [4; 6; 9; 11]%nat then 30%nat
  else if Nat.eqb month 2
       then if ((year mod 4 =? 0) && negb (year mod 100 =? 0)
                || (year mod 400 =? 0))%nat
            then 29%nat else 28%nat
       else 31%nat.

(** [datetime.strptime(s, "%Y-%m-%d")] accepts [s]. *)
Definition valid_date (s : string) : bool :=
  match list_ascii_of_string s with
  | [y1; y2; y3; y4; dash1; m1; m2; dash2; d1; d2] =>
      match number [y1; y2; y3; y4], number [m1; m2], number [d1; d2] with
      | Some year, Some month, Some day =>
          (Ascii.eqb dash1 "-" && Ascii.eqb dash2 "-"
           && (1 <=? year) && (1 <=? month) && (month <=? 12)
           && (1 <=? day) && (day <=? days_in_month year month))%nat
      | _, _, _ => false
      end
  | _ => false
  end.

Definition is_word (c : ascii) : bool :=
  between 48 57 c || between 65 90 c || between 97 122 c
  || Ascii.eqb c "_" || (128 <=? nat_of_ascii c)%nat.

(** The number of capital letters at the head of [s], and what follows
    them. *)
Fixpoint capitals (s : string) : nat * string :=
  match s with
  | String c r =>
      if between 65 90 c
      then (S (fst (capitals r)), snd (capitals r))
      else (0%nat, s)
  | EmptyString => (0%nat, s)
  end.

(** A word of two to four capital letters starts at the head of [s]. *)
Definition ticker_here (s : string) : bool :=
  let (n, rest) := capitals s in
  ((2 <=? n) && (n <=? 4))%nat
  && match rest with
     | String c _ => negb (is_word c)
     | EmptyString => true
     end.

Fixpoint ticker_from (at_boundary : bool) (s : string) : bool :=
  match s with
  | EmptyString => false
  | String c r =>
      (at_boundary && ticker_here s) || ticker_from (negb (is_word c)) r
  end.

(** [re.search(r"\b[A-Z]{2,4}\b", s)] finds a match. *)
Definition has_ticker (s : string) : bool := ticker_from true s.

Fixpoint int_sum (l : list value) : option Z :=
  match l with
  | [] => Some 0%Z
  | VInt z :: rest =>
      match int_sum rest with
      | Some total => Some (z + total)%Z
      | None => None
      end
  | _ :: _ => None
  end.

(** [sum(l) / len(l)]. *)
Definition py_mean (l : list value) : Result value :=
  match int_sum l with
  | Some total =>
      let n := Z.of_nat (List.length l) in
      if (total mod n =? 0)%Z
      then Ok (VFloat (Z_to_string (total / n) ++ ".0"))
      else Raise TypeError (error_text TypeError (VList l))
  | None => Raise TypeError (error_text TypeError (VList l))
  end.

(** The validation of a [float] field. *)
Definition as_float (v : value) : Result value :=
  match v with
  | VInt z => Ok (VFloat (Z_to_string z ++ ".0"))
  | VFloat _ => Ok v
  | VBool b => Ok (VFloat (if b then "1.0" else "0.0"))
  | _ => Raise ValidationError (error_text ValidationError v)
  end.

End LiteModels.

(** An outside to run the session store on: a Redis that keeps what it
    is given and never faults (nothing expires), a clock that advances
    by one second at every reading (readings are whole seconds, written
    as integers), session ids numbered in the order they are issued, and
    a digest that is the text in hexadecimal (a key that tells queries
    apart, not MD5). *)
Module Memory.
Import Py Lite.

Record Outside : Type := {
  redis : list (string * string);
  histories : list (string * Message);
  clock : Z;
  issued : Z
}.

Definition start : Outside :=
  {| redis := []; histories := []; clock := 0; issued := 0 |}.

Fixpoint find (k : string) (l : list (string * string)) : option string :=
  match l with
  | [] => None
  | (k', v) :: rest => if String.eqb k k' then Some v else find k rest
  end.

Definition redis_get (k : string) (o : Outside)
  : Result (option string) * Outside :=
  (Ok (find k (redis o)), o).

Definition redis_setex (k : string) (ttl : Z) (v : string) (o : Outside)
  : Result unit * Outside :=
  (Ok tt,
   {| redis :=
        (k, v) :: filter (fun entry => negb (String.eqb (fst entry) k))
                         (redis o);
      histories := histories o;
      clock := clock o;
      issued := issued o |}).

Definition redis_exists (k : string) (o : Outside) : Result Z * Outside :=
  (Ok (match find k (redis o) with Some _ => 1 | None => 0 end)%Z, o).

Definition history_add (session_id : string) (m : Message) (o : Outside)
  : Result unit * Outside :=
  (Ok tt,
   {| redis := redis o;
      histories := (histories o ++ [(session_id, m)])%list;
      clock := clock o;
      issued := issued o |}).

Definition history_messages (session_id : string) (o : Outside)
  : Result (list Message) * Outside :=
  (Ok (map snd (filter (fun entry => String.eqb (fst entry) session_id)
                       (histories o))), o).

Definition time_time (o : Outside) : value * Outside :=
  (VInt (clock o),
   {| redis := redis o;
      histories := histories o;
      clock := clock o + 1;
      issued := issued o |}).

Definition uuid4 (o : Outside) : string * Outside :=
  ("session-" ++ Z_to_string (issued o),
   {| redis := redis o;
      histories := histories o;
      clock := clock o;
      issued := issued o + 1 |}).

Definition default_ttl : Z := 3600.

Definition float_sub (a b : value) : value :=
  match a, b with
  | VInt x, VInt y => VInt (x - y)
  | _, _ => VNone
  end.

Definition hex_digit (n : nat) : ascii :=
  ascii_of_nat (if (n <? 10)%nat then 48 + n else 87 + n).

Fixpoint md5_hexdigest (s : string) : string :=
  match s with
  | EmptyString => EmptyString
  | String c r =>
      String (hex_digit (nat_of_ascii c / 16))
             (String (hex_digit (nat_of_ascii c mod 16)) (md5_hexdigest r))
  end.

End Memory.

(** Concrete collaborators and texts on which the model is run. *)
Module Scenario.

(** A fenced json block. *)
Definition fence (body : string) : string :=
  "```json" ++ nl ++ body ++ nl ++ "```".

(** A superstep in which the chat collaborator answers [text]; the tools
    are unavailable. *)
Definition chat_says (text : string) : Event :=
  {| ev_chat := Ok text;
     ev_execute := fun _ _ => Raise RuntimeError "unavailable";
     ev_elapsed := "0.5" |}.

(** A superstep in which every tool returns [result_data]. *)
Definition tool_returns (result_data : value) : Event :=
  {| ev_chat := Raise RuntimeError "not called";
     ev_execute := fun _ _ => Ok result_data;
     ev_elapsed := "0.5" |}.

Definition price_query : string := "Giá cổ phiếu FPT hiện tại là bao nhiêu?".

Definition price_action : string :=
  "**THOUGHT**: price" ++ nl
  ++ fence (requote "{'action': 'stock_price', 'input': {'symbols': ['FPT'], 'data_type': 'realtime'}}").

(** The reasoner asks for [stock_price] once, the tool returns a price,
    the reflector says [end], the finalizer answers. *)
Definition world_price : World := fun t =>
  match t with
  | 0 => chat_says price_action
  | 1 => tool_returns (VDict [("price", VInt 115000); ("volume", VInt 1200000)])
  | 2 => chat_says
           (fence (requote "{'decision': 'end', 'reason': 'enough', 'updated_plan': ''}"))
  | _ => chat_says "FPT: 115000"
  end.

Definition greeting_reply : string :=
  "**FINAL ANSWER**: Xin chào! Tôi là Milano Agent.".

(** The reasoner answers a greeting at once. *)
Definition world_greeting : World := fun _ => chat_says greeting_reply.

(** The reasoner first writes the marker with nothing after it, the
    reflector says [continue], and the reasoner then answers. *)
Definition world_empty_answer : World := fun t =>
  match t with
  | 0 => chat_says "**FINAL ANSWER**:"
  | 2 => chat_says
           (requote "{'decision': 'continue', 'reason': 'more', 'updated_plan': ''}")
  | _ => chat_says "**FINAL ANSWER**: Xin chào"
  end.


(** The reasoner never writes an action nor an answer and the reflector
    says [continue], until the chat collaborator goes down at the
    reflection of the tenth cycle. *)
Definition world_ceiling : World := fun t =>
  match Nat.modulo t 3 with
  | 2 =>
      if Nat.ltb t 29
      then chat_says
             (requote "{'decision': 'continue', 'reason': 'more', 'updated_plan': ''}")
      else {| ev_chat := Raise RuntimeError "connection refused";
              ev_execute := fun _ _ => Raise RuntimeError "unavailable";
              ev_elapsed := "0.5" |}
  | _ => chat_says "Tôi chưa rõ câu hỏi."
  end.

(** The chat collaborator is down for the whole run. *)
Definition world_outage : World := fun _ =>
  {| ev_chat := Raise RuntimeError "connection refused";
     ev_execute := fun _ _ => Raise RuntimeError "unavailable";
     ev_elapsed := "0.5" |}.

(** Providers of which only the price feed answers. *)
Definition price_feed : Providers :=
  {| get_realtime_data := fun symbols =>
       Ok (VDict (map (fun symbol => (symbol, VDict [("price", VInt 115000)]))
                      symbols));
     get_historical_data := fun _ _ _ => Raise RuntimeError "unavailable";
     get_fundamental_ratios := fun _ => Raise RuntimeError "unavailable";
     get_industry_analysis := fun _ => Raise RuntimeError "unavailable";
     get_peers_comparison := fun _ => Raise RuntimeError "unavailable";
     retrieve := fun _ => Raise RuntimeError "unavailable";
     search := fun _ => Raise RuntimeError "unavailable";
     chat := fun _ => Raise RuntimeError "unavailable" |}.

(** Two hits of a web search, and the source of the first only. *)
Definition two_hits : list value :=
  [VDict [("title", VStr "FPT"); ("content", VStr "up")];
   VDict [("title", VStr "VNM"); ("content", VStr "down")]].

Definition one_source : list value :=
  [VDict [("url", VStr "https://cafef.vn")]].

Definition search_result : dict :=
  [("status", VStr "success");
   ("data", VDict [("search_results", VList two_hits);
                   ("sources", VList one_source)])].

(** A Redis that holds the session [s1] and a cached answer to the
    greeting in that session. *)
Definition greeting : string := "Xin chào".

(** What the thread of a session holds after a request that was
    answered. *)
Definition answered_thread : AgentState :=
  {| messages := [HumanMessage price_query;
                  AIMessage "**FINAL ANSWER**: VNM đóng cửa ở mức 68.5";
                  AIMessage "VNM đóng cửa ở mức 68.5"];
     tools_used := [];
     intermediate_results := [];
     plan := VStr "Generate plan to answer user query using available tools.";
     sub_goals := ["Identify relevant tools"; "Execute tools";
                   "Synthesize results"];
     reflection_notes := ["Skipped reflection due to existing final answer"];
     tool_output := None;
     tool_error := None;
     action_history := [];
     final_answer := Some "VNM đóng cửa ở mức 68.5";
     reflection_decision := "end";
     current_step := 0;
     max_steps := 10 |}.

Definition stored_session : string :=
  requote "{'session_id': 's1', 'created_at': 1, 'last_accessed': 2, 'analysis_cache': {}, 'metadata': {}, 'conversation_history': [], 'version': '1.2'}".

Definition cached_answer : string :=
  requote "{'answer': 'Xin chào!', 'metadata': {'success': true, 'session_id': 's0', 'steps': 0, 'cached': false}}".

Definition store_with_answer : Memory.Outside :=
  {| Memory.redis :=
       [("session:s1", stored_session);
        ("cache:s1:" ++ Memory.md5_hexdigest greeting, cached_answer)];
     Memory.histories := [];
     Memory.clock := 10;
     Memory.issued := 0 |}.

(** Providers of which the web search and the knowledge base answer. *)
Definition research_desk : Providers :=
  {| get_realtime_data := fun _ => Raise RuntimeError "unavailable";
     get_historical_data := fun _ _ _ => Raise RuntimeError "unavailable";
     get_fundamental_ratios := fun _ => Raise RuntimeError "unavailable";
     get_industry_analysis := fun _ => Raise RuntimeError "unavailable";
     get_peers_comparison := fun _ => Raise RuntimeError "unavailable";
     retrieve := fun _ =>
       Ok (VList [VDict [("content", VStr "HOSE opens at 9:00");
                         ("metadata", VDict [("title", VStr "Rules")]);
                         ("score", VInt 1)]]);
     search := fun _ =>
       Ok (VList [VDict [("title", VStr "FPT"); ("content", VStr "up");
                         ("url", VStr "https://cafef.vn");
                         ("score", VInt 1)]]);
     chat := fun _ => Raise RuntimeError "unavailable" |}.

(** A Redis whose record of the session [s1] is not JSON. *)
Definition store_with_broken_session : Memory.Outside :=
  {| Memory.redis := [("session:s1", "{")];
     Memory.histories := [];
     Memory.clock := 10;
     Memory.issued := 0 |}.

(** An action object with a third field. *)
Definition three_field_action : string :=
  fence (requote "{'action': 'stock_price', 'input': {}, 'note': 1}").

(** A reflector verdict with an invalid decision. *)
Definition bogus_verdict : string :=
  fence (requote "{'decision': 'bogus', 'reason': 'r', 'updated_plan': ''}").

End Scenario.

(* ================================================================== *)
(** * The agent and the workflow                                        *)
(* ================================================================== *)

Section ReAct.

(** Library behaviour the loop relies on: [json.loads] (a value, or the
    [JSONDecodeError] it raises), [json.dumps(_, ensure_ascii=False)],
    [str] of an object that is not a [str], the text of an exception
    raised by the interpreter or by pydantic on an offending object, and
    the pydantic input models (the [dict()] of the model built from the
    decoded keywords, or the [ValidationError] raised).  [tools] is the
    registry handed to both [StockReActAgent] and [ReActWorkflow]. *)
Variable json_loads : string -> Result value.
Variable json_dumps : value -> string.
Variable str_of : value -> string.
Variable error_text : exn_class -> value -> string.
Variable construct_input : InputModel -> dict -> Result dict.
Variable tools : list (string * Tool).

(** Library behaviour the tools rely on: [str.upper] and [str.lower];
    whether [datetime.strptime(s, "%Y-%m-%d")] accepts [s]; whether
    [re.search(r"\b[A-Z]{2,4}\b", s)] finds a match; [sum(l) / len(l)] on a
    non-empty list; and pydantic's validation of a [float] field (the
    [float] a value is turned into, or the [ValidationError]). *)
Variable str_upper : string -> string.
Variable str_lower : string -> string.
Variable valid_date : string -> bool.
Variable has_ticker : string -> bool.
Variable py_mean : list value -> Result value.
Variable as_float : value -> Result value.

(** [str(v)], as an f-string renders [v]. *)
Definition py_str (v : value) : string :=
  match v with
  | VStr s => s
  | _ => str_of v
  end.

(** [v == s] for a [str] [s]. *)
Definition eq_str (v : value) (s : string) : bool :=
  match v with
  | VStr t => String.eqb t s
  | _ => false
  end.

(** [v[k]] for a [str] key. *)
Definition subscript (v : value) (k : string) : Result value :=
  match v with
  | VDict d =>
      match dict_get k d with
      | Some x => Ok x
      | None => Raise KeyError (error_text KeyError (VStr k))
      end
  | _ => Raise TypeError (error_text TypeError v)
  end.

(** [v.get(k, default)]: only a [dict] has the method. *)
Definition get_or (v : value) (k : string) (default : value) : Result value :=
  match v with
  | VDict d => Ok (dict_get_default k default d)
  | _ => Raise AttributeError (error_text AttributeError v)
  end.

(** [k in v] for a [str] key. *)
Definition key_in (k : string) (v : value) : Result bool :=
  match v with
  | VDict d => Ok (dict_has k d)
  | VList l => Ok (existsb (fun x => eq_str x k) l)
  | VStr s => Ok (contains k s)
  | _ => Raise TypeError (error_text TypeError v)
  end.

(** ** [StockReActAgent] ([domain/agents/react_agent.py]) *)

(** [reason]: the collaborator's text, or an error-tagged text.  The
    conversation sent (system prompt and message history) is not modelled:
    the collaborator may answer anything. *)
Definition reason (ev : Event) : Result string :=
  try_ (ev_chat ev)
       [(is_Exception, fun e => Ok ("Error: " ++ exn_str e))].

(** The body of the [try] of [parse_tool_usage]; [None] is the pair
    [(None, None)]. *)
Definition parse_tool_usage_body (message : string)
  : Result (option (string * string)) :=
  match search_json_block message with
  | None => Ok None
  | Some json_str =>
      bind (json_loads json_str) (fun action_data =>
      match action_data with
      | VDict d =>
          if negb (dict_has "action" d) || negb (dict_has "input" d)
          then Ok None
          else
            bind (subscript action_data "action") (fun tool_name =>
            let tool_name :=
              match tool_name with
              | VList (first :: _) => first
              | VList [] => VNone
              | _ => tool_name
              end in
            match tool_name with
            | VStr tool_name =>
                if negb (str_truthy tool_name) then Ok None
                else
                  match lookup tool_name tools with
                  | None => Ok None
                  | Some _ =>
                      bind (subscript action_data "input") (fun input =>
                      Ok (Some (tool_name, json_dumps input)))
                  end
            | _ => Ok None
            end)
      | _ => Ok None
      end)
  end.

Definition parse_tool_usage (message : string)
  : Result (option (string * string)) :=
  try_ (parse_tool_usage_body message)
       [(is_JSONDecodeError, fun _ => Ok None);
        (is_Exception, fun _ => Ok None)].

(** [for r, s in zip(results, sources)]: the objects to iterate over (a
    [str] yields its characters, here its bytes: none of them can be
    subscripted by a key). *)
Definition iterate (v : value) : Result (list value) :=
  match v with
  | VList l => Ok l
  | VDict d => Ok (map (fun kv => VStr (fst kv)) d)
  | VStr s => Ok (map (fun c => VStr (String c "")) (list_ascii_of_string s))
  | _ => Raise TypeError (error_text TypeError v)
  end.

(** The lines of the [tavily_search] rendering. *)
Fixpoint search_lines (pairs : list (value * value)) : Result (list string) :=
  match pairs with
  | [] => Ok []
  | (r, s) :: rest =>
      bind (subscript r "title") (fun title =>
      bind (subscript r "content") (fun body =>
      bind (subscript s "url") (fun url =>
      bind (search_lines rest) (fun lines =>
      Ok (("Title: " ++ py_str title ++ ". Content: " ++ py_str body
           ++ ". URL: " ++ py_str url) :: lines)))))
  end.

Definition format_tool_result_body (tool_name : string) (tool_result : dict)
  : Result string :=
  if eq_str (dict_get_default "status" (VStr "error") tool_result) "error"
  then
    Ok ("Tool " ++ tool_name ++ " failed: "
        ++ py_str (dict_get_default "error" (VStr "Unknown error") tool_result))
  else
    let data := dict_get_default "data" (VDict []) tool_result in
    if String.eqb tool_name "stock_price" then
      Ok ("Stock price data: " ++ json_dumps data)
    else if String.eqb tool_name "rag_knowledge" then
      bind (get_or data "knowledge_context" (VStr "")) (fun documents =>
      bind (get_or data "sources" (VList [])) (fun sources =>
      Ok ("Knowledge context: " ++ py_str documents ++ " " ++ nl
          ++ "Sources: " ++ py_str sources)))
    else if String.eqb tool_name "tavily_search" then
      bind (get_or data "search_results" (VList [])) (fun results =>
      bind (get_or data "sources" (VList [])) (fun sources =>
      bind (iterate results) (fun rs =>
      bind (iterate sources) (fun ss =>
      bind (search_lines (combine rs ss)) (fun lines =>
      Ok ("Search results: " ++ join nl lines))))))
    else if existsb (String.eqb tool_name)
              ["fundamental_analysis"; "industry_analysis"; "peers_comparison"]
    then Ok ("Analysis data: " ++ json_dumps data)
    else if String.eqb tool_name "chat_llm" then
      bind (get_or data "response" (VStr "")) (fun response =>
      Ok ("LLM response: " ++ py_str response))
    else Ok (py_str data).

Definition format_tool_result (tool_name : string) (tool_result : dict)
  : Result string :=
  try_ (format_tool_result_body tool_name tool_result)
       [(is_Exception,
         fun e => Ok ("Error formatting " ++ tool_name ++ " result: "
                      ++ exn_str e))].

(** [_prepare_conversation_with_history]: the system prompt, then the
    human and AI messages of the state in order; a message of another
    type is left out. *)
Definition _prepare_conversation_with_history (system_prompt : string)
  (state : AgentState) : list Message :=
  SystemMessage system_prompt
  :: flat_map (fun msg =>
                 match msg with
                 | HumanMessage c => [HumanMessage c]
                 | AIMessage c => [AIMessage c]
                 | SystemMessage _ => []
                 end) (messages state).

(** ** [CustomBaseTool._arun] ([domain/tools/base.py]) *)

(** Both branches build the same [ToolState]: it declares no [error]
    field, so the [error=str(e)] keyword of the failure branch is dropped. *)
Definition _arun (ev : Event) (tool : Tool) (kwargs : dict)
  : Result ToolResult :=
  let state :=
    {| tool_name := name tool;
       execution_time := ev_elapsed ev;
       context := [("market", VStr "VN")] |} in
  try_ (bind (ev_execute ev tool kwargs) (fun result_data =>
        Ok {| status := "success"; data := result_data;
              metadata := ToolState_model_dump state |}))
       [(is_Exception,
         fun e => Ok {| status := "error"; data := VDict [];
                        metadata := ToolState_model_dump state |})].

(** ** The tools ([domain/tools]) and [QueryEnhancer] *)

(** Binding of the keywords of a call [f(kwargs)] to the parameters of
    [f]: a keyword that [f] does not declare, or a parameter without
    default that is not given, raises [TypeError]. *)
Definition only_keywords (declared : list string) (kwargs : dict)
  : Result unit :=
  match filter (fun k => negb (existsb (String.eqb k) declared))
               (dict_keys kwargs) with
  | [] => Ok tt
  | k :: _ => Raise TypeError (error_text TypeError (VStr k))
  end.

Definition keyword (k : string) (default : option value) (kwargs : dict)
  : Result value :=
  match dict_get k kwargs, default with
  | Some v, _ => Ok v
  | None, Some d => Ok d
  | None, None => Raise TypeError (error_text TypeError (VStr k))
  end.

(** [s.strip().upper()]: only a [str] has the methods. *)
Definition upper_stripped (s : value) : Result string :=
  match s with
  | VStr t => Ok (str_upper (strip t))
  | v => Raise AttributeError (error_text AttributeError v)
  end.

(** [_normalize_symbols] (the same body in [StockPriceTool],
    [FundamentalAnalysisTool] and [PeersComparisonTool]): a [str] is
    first split at its commas; every element is then stripped and put in
    upper case. *)
Definition _normalize_symbols (symbols : value) : Result (list string) :=
  let symbols :=
    match symbols with
    | VStr s =>
        VList (map (fun part => VStr (str_upper (strip part)))
                   (split_on "," s))
    | _ => symbols
    end in
  bind (iterate symbols) (traverse upper_stripped).

(** A pydantic output model with one field of type [Dict[str, Any]]:
    its [model_dump()]. *)
Definition dict_output (field : string) (v : value) : Result value :=
  match v with
  | VDict _ => Ok (VDict [(field, v)])
  | _ => Raise ValidationError (error_text ValidationError v)
  end.

(** *** [StockPriceTool] *)

(** [datetime.strptime(v, "%Y-%m-%d")], for its exceptions. *)
Definition strptime (v : value) : Result unit :=
  match v with
  | VStr s =>
      if valid_date s then Ok tt
      else Raise ValueError (error_text ValueError v)
  | _ => Raise TypeError (error_text TypeError v)
  end.

Definition StockPriceTool_validate_parameters (data_type : value)
  (symbols : list string) (start_date end_date : value) : Result unit :=
  match symbols with
  | [] => Raise ValueError "symbols are required for stock price retrieval"
  | _ =>
      if negb (eq_str data_type "realtime" || eq_str data_type "historical")
      then Raise ValueError "data_type must be 'realtime' or 'historical'"
      else if eq_str data_type "historical" then
        if negb (truthy start_date) || negb (truthy end_date) then
          Raise ValueError
            "start_date and end_date are required for historical data"
        else
          try_ (bind (strptime start_date) (fun _ => strptime end_date))
               [(is_ValueError,
                 fun _ => Raise ValueError "Dates must be in YYYY-MM-DD format")]
      else Ok tt
  end.

Definition StockPriceTool_execute_impl (p : Providers)
  (symbols data_type start_date end_date : value) : Result value :=
  try_ (bind (_normalize_symbols symbols) (fun normalized_symbols =>
        bind (StockPriceTool_validate_parameters
                data_type normalized_symbols start_date end_date) (fun _ =>
        bind (if eq_str data_type "realtime" then
                get_realtime_data p normalized_symbols
              else if eq_str data_type "historical" then
                get_historical_data p normalized_symbols start_date end_date
              else Raise ValueError ("Invalid data_type: " ++ py_str data_type))
             (fun raw_data => dict_output "results" raw_data))))
       [(is_Exception, fun _ => dict_output "results" (VDict []))].

(** *** [FundamentalAnalysisTool] *)

Definition FundamentalAnalysisTool_validate_parameters (symbols : value)
  : Result unit :=
  match symbols with
  | VStr _ | VList (_ :: _) => Ok tt
  | _ => Raise ValueError "symbols must be a non-empty list or string"
  end.

Definition FundamentalAnalysisTool_execute_impl (p : Providers)
  (symbols : value) : Result value :=
  try_ (bind (FundamentalAnalysisTool_validate_parameters symbols) (fun _ =>
        bind (_normalize_symbols symbols) (fun normalized_symbols =>
        bind (get_fundamental_ratios p normalized_symbols)
             (fun fundamental_data => dict_output "data" fundamental_data))))
       [(is_Exception, fun _ => dict_output "data" (VDict []))].

(** *** [IndustryAnalysisTool] *)

Definition IndustryAnalysisTool_validate_parameters (symbol : value)
  : Result unit :=
  match symbol with
  | VStr s =>
      if str_truthy s then Ok tt
      else Raise ValueError "industry_analysis requires a valid symbol"
  | _ => Raise ValueError "industry_analysis requires a valid symbol"
  end.

Definition IndustryAnalysisTool_execute_impl (p : Providers)
  (symbol : value) : Result value :=
  try_ (bind (IndustryAnalysisTool_validate_parameters symbol) (fun _ =>
        bind (match symbol with
              | VStr s => Ok (strip (str_upper s))
              | v => Raise AttributeError (error_text AttributeError v)
              end) (fun normalized_symbol =>
        bind (get_industry_analysis p normalized_symbol)
             (fun industry_data => dict_output "data" industry_data))))
       [(is_Exception, fun _ => dict_output "data" (VDict []))].

(** *** [PeersComparisonTool] *)

Definition PeersComparisonTool_validate_parameters (symbols : value)
  : Result unit :=
  let symbols :=
    match symbols with
    | VStr s => VList (map (fun part => VStr (strip part)) (split_on "," s))
    | _ => symbols
    end in
  match symbols with
  | VList (_ :: _ :: _) => Ok tt
  | _ =>
      Raise ValueError
        ("peers_comparison requires at least two symbols: " ++ py_str symbols)
  end.

Definition PeersComparisonTool_execute_impl (p : Providers)
  (symbols : value) : Result value :=
  try_ (bind (PeersComparisonTool_validate_parameters symbols) (fun _ =>
        bind (_normalize_symbols symbols) (fun normalized_symbols =>
        bind (get_peers_comparison p normalized_symbols)
             (fun peers_data => dict_output "data" peers_data))))
       [(is_Exception, fun _ => dict_output "data" (VDict []))].

(** *** [RAGTool] *)

Definition NOT_FOUND_CONTEXT : string :=
  "Không tìm thấy thông tin liên quan trong cơ sở dữ liệu nội bộ.".

(** The parts of the context, numbered from [i]. *)
Fixpoint context_parts (i : Z) (results : list value)
  : Result (list string) :=
  match results with
  | [] => Ok []
  | result :: rest =>
      bind (get_or result "content" (VStr "")) (fun body =>
      bind (get_or result "metadata" (VDict [])) (fun md =>
      bind (get_or md "title" (VStr "Unknown")) (fun source =>
      bind (context_parts (i + 1) rest) (fun parts =>
      Ok (("Nguồn " ++ str_int i ++ ": " ++ py_str source ++ nl
           ++ py_str body ++ nl) :: parts)))))
  end.

Definition _format_knowledge_context (results : value) : Result string :=
  if negb (truthy results) then Ok NOT_FOUND_CONTEXT
  else
    bind (iterate results) (fun items =>
    bind (context_parts 1 items) (fun parts =>
    Ok (join (nl ++ "---" ++ nl) parts))).

Definition RAGTool_extract_sources (results : value)
  : Result (list value) :=
  bind (iterate results)
       (traverse (fun result => get_or result "metadata" (VDict []))).

(** An element of a field of type [List[Dict[str, Any]]]. *)
Definition as_dict (v : value) : Result value :=
  match v with
  | VDict _ => Ok v
  | _ => Raise ValidationError (error_text ValidationError v)
  end.

Definition RAG_FAULT_OUTPUT : value :=
  VDict [("knowledge_context", VStr ""); ("sources", VList []);
         ("scores", VList [])].

Definition RAGTool_execute_impl (p : Providers) (query : value)
  : Result value :=
  try_ (bind (retrieve p query) (fun search_results =>
        bind (_format_knowledge_context search_results)
             (fun knowledge_context =>
        bind (RAGTool_extract_sources search_results) (fun sources =>
        bind (bind (iterate search_results)
                   (traverse (fun result => get_or result "score" (VInt 0))))
             (fun scores =>
        bind (match scores with
              | [] => Ok (VFloat "0.0")
              | _ => py_mean scores
              end) (fun avg_score =>
        bind (traverse as_dict sources) (fun sources =>
        bind (traverse as_float scores) (fun scores =>
        Ok (VDict [("knowledge_context", VStr knowledge_context);
                   ("sources", VList sources);
                   ("scores", VList scores)])))))))))
       [(is_Exception, fun _ => Ok RAG_FAULT_OUTPUT)].

(** *** [QueryEnhancer.enhance_query] and [TavilySearchTool] *)

Definition vietnamese_market_terms : list string :=
  ["Vietnam stock"; "Vietnamese stock market"; "HOSE"; "HNX"; "UPCoM";
   "chứng khoán Việt Nam"; "thị trường chứng khoán"].

(** The human message of the prompt template is
    ["Original query: {query}"]. *)
Definition enhance_query (query : value) : Result string :=
  match query with
  | VStr q =>
      let query_lower := str_lower q in
      let has_vn_context :=
        existsb (fun term => contains (str_lower term) query_lower)
                vietnamese_market_terms in
      try_ (let formatted_query := "Original query: " ++ q in
            Ok (if negb has_vn_context then
                  if has_ticker q
                  then formatted_query ++ " Vietnam stock HOSE HNX"
                  else formatted_query ++ " Vietnamese stock market"
                else formatted_query))
           [(is_Exception, fun _ => Ok q)]
  | v => Raise AttributeError (error_text AttributeError v)
  end.

Definition _format_search_results (results : value) : Result (list value) :=
  bind (iterate results)
       (traverse (fun result =>
          bind (get_or result "title" (VStr "")) (fun title =>
          bind (get_or result "content" (VStr "")) (fun body =>
          Ok (VDict [("title", title); ("content", body)]))))).

Definition TavilySearchTool_extract_sources (results : value)
  : Result (list value) :=
  bind (iterate results)
       (traverse (fun result =>
          bind (get_or result "url" (VStr "")) (fun url =>
          bind (get_or result "score" (VInt 0)) (fun score =>
          Ok (VDict [("url", url); ("score", score)]))))).

Definition TAVILY_FAULT_OUTPUT : value :=
  VDict [("search_results", VList []); ("sources", VList [])].

(** The query is enhanced before the [try]. *)
Definition TavilySearchTool_execute_impl (p : Providers) (query : value)
  : Result value :=
  bind (enhance_query query) (fun enhanced_query =>
  try_ (bind (search p enhanced_query) (fun search_results =>
        bind (_format_search_results search_results)
             (fun formatted_results =>
        bind (TavilySearchTool_extract_sources search_results)
             (fun sources =>
        Ok (VDict [("search_results", VList formatted_results);
                   ("sources", VList sources)])))))
       [(is_Exception, fun _ => Ok TAVILY_FAULT_OUTPUT)]).

(** *** [ChatTool] *)

Definition SENSITIVE_TERMS : list string :=
  ["inappropriate"; "offensive"; "harmful"].

Definition FILTERED_NOTICE : string :=
  "Kết quả đã được lọc do chứa nội dung không phù hợp.".

Definition _apply_content_filter (text : value) : Result string :=
  match text with
  | VStr t =>
      Ok (if existsb (fun term => contains (str_lower term) (str_lower t))
                     SENSITIVE_TERMS
          then FILTERED_NOTICE else t)
  | v => Raise AttributeError (error_text AttributeError v)
  end.

Definition ChatTool_execute_impl (p : Providers) (chat_messages : value)
  : Result value :=
  try_ (bind (chat p chat_messages) (fun chat_response =>
        bind (get_or chat_response "response" (VStr "")) (fun response =>
        bind (_apply_content_filter response) (fun sanitized_response =>
        Ok (VDict [("response", VStr sanitized_response)])))))
       [(is_Exception, fun _ => Ok (VDict [("response", VStr "")]))].

(** *** The tools behind the registry *)

(** [tool._execute_impl(kwargs)] for the seven tool classes of the
    repository, told apart by their [name]; [None] for another name. *)
Definition execute_impl (p : Providers) (tool_name : string)
  : option (dict -> Result value) :=
  if String.eqb tool_name "stock_price" then
    Some (fun kwargs =>
      bind (only_keywords ["symbols"; "data_type"; "start_date"; "end_date"]
                          kwargs) (fun _ =>
      bind (keyword "symbols" None kwargs) (fun symbols =>
      bind (keyword "data_type" (Some (VStr "realtime")) kwargs)
           (fun data_type =>
      bind (keyword "start_date" (Some VNone) kwargs) (fun start_date =>
      bind (keyword "end_date" (Some VNone) kwargs) (fun end_date =>
      StockPriceTool_execute_impl p symbols data_type start_date end_date))))))
  else if String.eqb tool_name "fundamental_analysis" then
    Some (fun kwargs =>
      bind (only_keywords ["symbols"] kwargs) (fun _ =>
      bind (keyword "symbols" None kwargs)
           (FundamentalAnalysisTool_execute_impl p)))
  else if String.eqb tool_name "industry_analysis" then
    Some (fun kwargs =>
      bind (only_keywords ["symbol"] kwargs) (fun _ =>
      bind (keyword "symbol" None kwargs)
           (IndustryAnalysisTool_execute_impl p)))
  else if String.eqb tool_name "peers_comparison" then
    Some (fun kwargs =>
      bind (only_keywords ["symbols"] kwargs) (fun _ =>
      bind (keyword "symbols" None kwargs)
           (PeersComparisonTool_execute_impl p)))
  else if String.eqb tool_name "rag_knowledge" then
    Some (fun kwargs =>
      bind (only_keywords ["query"] kwargs) (fun _ =>
      bind (keyword "query" None kwargs) (RAGTool_execute_impl p)))
  else if String.eqb tool_name "tavily_search" then
    Some (fun kwargs =>
      bind (only_keywords ["query"] kwargs) (fun _ =>
      bind (keyword "query" None kwargs) (TavilySearchTool_execute_impl p)))
  else if String.eqb tool_name "chat_llm" then
    Some (fun kwargs =>
      bind (only_keywords ["messages"] kwargs) (fun _ =>
      bind (keyword "messages" None kwargs) (ChatTool_execute_impl p)))
  else None.

(** A superstep in which the tools of the repository run on the
    providers [p]; a tool of another class does what [ev] says. *)
Definition with_tools (p : Providers) (ev : Event) : Event :=
  {| ev_chat := ev_chat ev;
     ev_execute := fun tool kwargs =>
       match execute_impl p (name tool) with
       | Some run_tool => run_tool kwargs
       | None => ev_execute ev tool kwargs
       end;
     ev_elapsed := ev_elapsed ev |}.

(** ** [ReActWorkflow] ([infra/agents/langgraph_workflow.py]) *)

(** The record the dispatcher builds in its [except] clauses. *)
Definition error_record (msg tool_name tool_input : string) : dict :=
  [("error", VStr msg); ("status", VStr "error");
   ("tool_name", VStr tool_name); ("input", VStr tool_input)].

Definition _execute_tool_safely_body (ev : Event)
  (tool_name tool_input : string) : Result dict :=
  bind (match lookup tool_name tools with
        | Some tool => Ok tool
        | None => Raise KeyError (error_text KeyError (VStr tool_name))
        end) (fun tool =>
  bind (match lookup tool_name TOOL_INPUT_MODELS with
        | Some cls => Ok cls
        | None =>
            Raise ValueError ("No input model defined for tool: " ++ tool_name)
        end) (fun input_model_class =>
  bind (json_loads tool_input) (fun input_data =>
  bind (match input_data with
        | VDict d => construct_input input_model_class d
        | v => Raise TypeError (error_text TypeError v)
        end) (fun kwargs =>
  bind (_arun ev tool kwargs) (fun result =>
  Ok (ToolResult_model_dump result)))))).

(** [tool_name] is a [str] here, so the leading [isinstance] guard of the
    source never fires. *)
Definition _execute_tool_safely (ev : Event) (tool_name tool_input : string)
  : Result dict :=
  try_ (_execute_tool_safely_body ev tool_name tool_input)
       [(is_JSONDecodeError,
         fun e => Ok (error_record ("Invalid JSON input: " ++ exn_str e)
                                   tool_name tool_input));
        (is_ValueError,
         fun e => Ok (error_record ("Input validation failed: " ++ exn_str e)
                                   tool_name tool_input));
        (is_Exception,
         fun e => Ok (error_record (exn_str e) tool_name tool_input))].

(** *** The nodes

    Each node is one [try] whose [except Exception] clause builds its state
    from [state.model_copy()].  The copy is shallow: [messages] is the list
    object of the input state, so the handler sees what the body appended
    to it before the fault; the functions below pass it that list. *)

Definition DEFAULT_PLAN : string :=
  "Generate plan to answer user query using available tools.".

Definition DEFAULT_SUB_GOALS : list string :=
  ["Identify relevant tools"; "Execute tools"; "Synthesize results"].

(** The [except] clause of the reasoning and action nodes. *)
Definition node_failed (node_name : string) (shared : list Message)
  (state : AgentState) (e : exn) : AgentState :=
  set_reflection_decision "end"
    (set_final_answer (Some ("Error: " ++ exn_str e))
       (set_current_step (current_step state + 1)
          (set_messages
             (append shared
                (AIMessage ("Error in " ++ node_name ++ ": " ++ exn_str e)))
             state))).

Definition _reasoning_node (ev : Event) (state : AgentState)
  : Result AgentState :=
  match reason ev with
  | inr e => Ok (node_failed "reasoning" (messages state) state e)
  | inl llm_response_content =>
      let updated_state :=
        set_plan (if truthy (plan state) then plan state
                  else VStr DEFAULT_PLAN) state in
      let updated_state :=
        set_sub_goals (match sub_goals state with
                       | [] => DEFAULT_SUB_GOALS
                       | goals => goals
                       end) updated_state in
      let updated_state :=
        append_message (AIMessage llm_response_content) updated_state in
      if contains "FINAL ANSWER" llm_response_content then
        match search_final_answer llm_response_content with
        | Some group1 =>
            Ok (set_reflection_decision "end"
                  (set_final_answer (Some (strip group1)) updated_state))
        | None => Ok updated_state
        end
      else Ok updated_state
  end.

(** [state.messages[-1].content if state.messages else ""]. *)
Definition last_content (ms : list Message) : string :=
  match last (map (fun m => Some m) ms) None with
  | Some m => content m
  | None => ""
  end.

(** The record the action node appends to [intermediate_results]. *)
Definition step_record (llm_response formatted_result tool_name : string)
  (tool_result : dict) : dict :=
  [("llm_output", VStr llm_response);
   ("observation", VStr formatted_result);
   ("tool_name", VStr tool_name);
   ("success",
    VBool (match dict_get "status" tool_result with
           | Some v => eq_str v "success"
           | None => false
           end))].

(** The [else] branch of the action node. *)
Definition no_valid_action (state : AgentState) : AgentState :=
  set_reflection_decision
    (if opt_truthy (final_answer state) then "end" else "continue")
    (set_current_step (current_step state + 1)
       (append_message (AIMessage "No valid tool action found") state)).

(** [parse_tool_usage] hands over a [str] name, so the [isinstance]
    guards on [tool_name] inside the dispatch branch never fire. *)
Definition _action_node (ev : Event) (state : AgentState)
  : Result AgentState :=
  let failed := node_failed "action" in
  if opt_truthy (final_answer state) then
    Ok (set_reflection_decision "end" state)
  else
    let llm_response := last_content (messages state) in
    match parse_tool_usage llm_response with
    | inr e => Ok (failed (messages state) state e)
    | inl None => Ok (no_valid_action state)
    | inl (Some (tool_name, tool_input)) =>
        if str_truthy tool_name && str_truthy tool_input then
          match _execute_tool_safely ev tool_name tool_input with
          | inr e => Ok (failed (messages state) state e)
          | inl tool_result =>
              match format_tool_result tool_name tool_result with
              | inr e => Ok (failed (messages state) state e)
              | inl formatted_result =>
                  let updated_intermediate_results :=
                    append (intermediate_results state)
                      (step_record llm_response formatted_result
                                   tool_name tool_result) in
                  let updated_tools_used :=
                    append (tools_used state) tool_name in
                  let observed :=
                    append (messages state)
                      (AIMessage ("Observation: " ++ formatted_result)) in
                  match ToolResult_of_dict error_text tool_result with
                  | inr e => Ok (failed observed state e)
                  | inl output =>
                      Ok (set_tool_output (Some output)
                            (set_intermediate_results updated_intermediate_results
                               (set_tools_used updated_tools_used
                                  (set_current_step (current_step state + 1)
                                     (set_messages observed state)))))
                  end
              end
          end
        else Ok (no_valid_action state)
    end.

(** The verdict of the collaborator: the three entries of the decoded
    object that the reflection node reads. *)
Record Evaluation : Type := {
  decision : string;
  eval_reason : value;
  updated_plan : value
}.

(** [all(key in evaluation for key in keys)]. *)
Fixpoint all_keys_in (keys : list string) (evaluation : value) : Result bool :=
  match keys with
  | [] => Ok true
  | key :: rest =>
      bind (key_in key evaluation) (fun present =>
      if present then all_keys_in rest evaluation else Ok false)
  end.

(** The cleaning of the collaborator's text before it is decoded. *)
Definition clean_evaluation (text : string) : string :=
  join " " (split (sub_empty json_fence_len true 0 (strip text))).

(** The inner [try] of the reflection node, with its
    [except (json.JSONDecodeError, ValueError)] clause. *)
Definition parse_evaluation (llm_response_content : string)
  : Result Evaluation :=
  try_ (bind (json_loads llm_response_content) (fun evaluation =>
        bind (all_keys_in ["decision"; "reason"; "updated_plan"] evaluation)
             (fun complete =>
        if negb complete
        then Raise ValueError "Invalid LLM evaluation response format"
        else
          bind (subscript evaluation "decision") (fun d =>
          match d with
          | VStr verdict =>
              if existsb (String.eqb verdict) ["continue"; "retry"; "end"]
              then
                bind (subscript evaluation "reason") (fun r =>
                bind (subscript evaluation "updated_plan") (fun p =>
                Ok {| decision := verdict; eval_reason := r;
                      updated_plan := p |}))
              else Raise ValueError ("Invalid decision: " ++ py_str d)
          | _ => Raise ValueError ("Invalid decision: " ++ py_str d)
          end))))
       [(is_ValueError,
         fun e =>
           Ok {| decision := "end";
                 eval_reason :=
                   VStr ("Failed to parse LLM evaluation: " ++ exn_str e);
                 updated_plan := VStr "" |})].

(** The [except] clause of the reflection node. *)
Definition reflection_failed (state : AgentState) (e : exn) : AgentState :=
  set_reflection_notes
    (append (reflection_notes state)
       ("Error during reflection: " ++ exn_str e))
    (set_reflection_decision "end"
       (set_final_answer (Some ("Error: " ++ exn_str e))
          (set_current_step (current_step state + 1)
             (append_message
                (AIMessage ("Error in reflection: " ++ exn_str e)) state)))).

Definition _reflection_node (ev : Event) (state : AgentState)
  : Result AgentState :=
  if opt_truthy (final_answer state) then
    Ok (set_reflection_notes
          (append (reflection_notes state)
             "Skipped reflection due to existing final answer")
          (set_reflection_decision "end" state))
  else
    match ev_chat ev with
    | inr e => Ok (reflection_failed state e)
    | inl llm_response_content =>
        match parse_evaluation (clean_evaluation llm_response_content) with
        | inr e => Ok (reflection_failed state e)
        | inl evaluation =>
            let reflection_note :=
              "LLM Evaluation: " ++ py_str (eval_reason evaluation) in
            let updated_state :=
              set_reflection_decision (decision evaluation)
                (set_reflection_notes
                   (append (reflection_notes state) reflection_note)
                   state) in
            if String.eqb (decision evaluation) "retry" then
              Ok (set_sub_goals
                    (append (sub_goals state)
                       ("Resolve issue based on LLM evaluation: "
                        ++ py_str (eval_reason evaluation)))
                    (set_plan
                       (if truthy (updated_plan evaluation)
                        then updated_plan evaluation
                        else VStr ("Retry with alternative approach: "
                                   ++ py_str (plan state)))
                       updated_state))
            else if String.eqb (decision evaluation) "continue" then
              Ok (set_sub_goals
                    (append (sub_goals state)
                       "Continue collecting data based on LLM evaluation")
                    (set_plan
                       (if truthy (updated_plan evaluation)
                        then updated_plan evaluation
                        else plan state)
                       updated_state))
            else Ok updated_state
        end
    end.

(** The conditional edge after reflection. *)
Definition _should_continue (state : AgentState) : string :=
  if opt_truthy (final_answer state)
     || (max_steps state <=? current_step state)%Z
  then "end"
  else if String.eqb (reflection_decision state) "retry" then "continue"
  else if String.eqb (reflection_decision state) "end" then "end"
  else "continue".

Definition NO_QUERY_ANSWER : string :=
  "Tôi không thể xử lý câu hỏi của bạn vì không có câu hỏi gốc. Vui lòng thử lại.".

Definition EMPTY_ANSWER : string :=
  "Tôi không thể cung cấp câu trả lời chi tiết lúc này. Vui lòng thử lại hoặc cung cấp thêm thông tin.".

Definition SYNTHESIS_APOLOGY : string :=
  "Tôi xin lỗi, đã xảy ra lỗi khi xử lý câu hỏi của bạn. Vui lòng thử lại sau.".

Definition _generate_final_answer (ev : Event) (state : AgentState)
  : Result string :=
  try_ (let query :=
          match messages state with
          | first :: _ => content first
          | [] => ""
          end in
        if negb (str_truthy query) then Ok NO_QUERY_ANSWER
        else
          bind (ev_chat ev) (fun text =>
          let final_answer := sub_empty any_fence_len true 0 (strip text) in
          if negb (str_truthy final_answer) then Ok EMPTY_ANSWER
          else Ok final_answer))
       [(is_Exception, fun _ => Ok SYNTHESIS_APOLOGY)].

(** The [except] clause of the final-output node. *)
Definition final_output_failed (state : AgentState) (e : exn) : AgentState :=
  set_final_answer (Some ("Error: " ++ exn_str e))
    (append_message (AIMessage ("Error in final output: " ++ exn_str e)) state).

Definition _final_output_node (ev : Event) (state : AgentState)
  : Result AgentState :=
  match (if opt_truthy (final_answer state) then final_answer state
         else None) with
  | Some existing => Ok (append_message (AIMessage existing) state)
  | None =>
      match _generate_final_answer ev state with
      | inr e => Ok (final_output_failed state e)
      | inl final_answer =>
          Ok (set_final_answer (Some final_answer)
                (append_message (AIMessage final_answer) state))
      end
  end.

(** *** The graph ([_build_workflow]) and its driver *)

(** The targets of the conditional edge. *)
Definition route (verdict : string) : Result Node :=
  match lookup verdict [("continue", reasoning); ("end", final_output)] with
  | Some n => Ok n
  | None => Raise KeyError (error_text KeyError (VStr verdict))
  end.

(** One superstep: the node runs on the state and the edge out of it is
    followed. *)
Definition step (ev : Event) (n : Node) (s : AgentState)
  : Result (Node * AgentState) :=
  match n with
  | reasoning => bind (_reasoning_node ev s) (fun s' => Ok (action, s'))
  | action => bind (_action_node ev s) (fun s' => Ok (reflection, s'))
  | reflection =>
      bind (_reflection_node ev s) (fun s' =>
      bind (route (_should_continue s')) (fun n' => Ok (n', s')))
  | final_output => bind (_final_output_node ev s) (fun s' => Ok (END, s'))
  | END => Ok (END, s)
  end.

(** The validation LangGraph applies to the state it hands to a node or
    to the conditional edge ([AgentState] is the schema of the graph, and
    every input is rebuilt from the values the thread holds).  Of the
    fields of the model only [plan] can hold an object that is not of
    its declared type: the reflection node stores the reflector's
    [updated_plan] as it finds it. *)
Definition validate (s : AgentState) : Result AgentState :=
  match plan s with
  | VStr _ => Ok s
  | v => Raise ValidationError (error_text ValidationError v)
  end.

(** The supersteps of the graph from node [n] at time [t], when the
    recursion limit allows [steps_left] more steps.  The runtime needs a
    step to find that no node is left to run: a run completes only when
    it takes fewer nodes than the limit, and otherwise as many nodes run
    as the limit says before [GraphRecursionError] is raised; in a run
    that started at time 0 the limit is then [t], and the message of the
    runtime names it.  The state is validated when it enters a node and
    when the conditional edge out of the reflection node reads it.
    Returns the nodes that ran, in order, and the final state or the
    exception. *)
Fixpoint supersteps (steps_left : nat) (w : World) (t : nat) (n : Node)
  (s : AgentState) : list Node * Result AgentState :=
  match steps_left with
  | 0 =>
      ([], Raise GraphRecursionError
             (error_text GraphRecursionError (VInt (Z.of_nat t))))
  | S k =>
      match n with
      | END => ([], Ok s)
      | _ =>
          match validate s with
          | inr e => ([], inr e)
          | inl _ =>
              match step (w t) n s with
              | inr e => ([n], inr e)
              | inl (n', s') =>
                  match (match n with
                         | reflection => validate s'
                         | _ => Ok s'
                         end) with
                  | inr e => ([n], inr e)
                  | inl _ =>
                      let (visited, outcome) := supersteps k w (S t) n' s' in
                      (n :: visited, outcome)
                  end
              end
          end
      end
  end.

(** The values a run starts from on a thread of the checkpointer
    ([MemorySaver]): the input, and for the fields the input leaves
    unset and empty ([final_answer], [tool_output] and [tool_error] in
    the input [run] builds) what an earlier run on the thread left
    there.  [checkpoint] is what the checkpointer holds for the thread,
    [None] for a thread that never ran. *)
Definition resume (checkpoint : option AgentState) (input : AgentState)
  : AgentState :=
  match checkpoint with
  | None => input
  | Some previous =>
      {| messages := messages input;
         tools_used := tools_used input;
         intermediate_results := intermediate_results input;
         plan := plan input;
         sub_goals := sub_goals input;
         reflection_notes := reflection_notes input;
         tool_output := match tool_output input with
                        | Some output => Some output
                        | None => tool_output previous
                        end;
         tool_error := match tool_error input with
                       | Some fault => Some fault
                       | None => tool_error previous
                       end;
         action_history := action_history input;
         final_answer := match final_answer input with
                         | Some text => Some text
                         | None => final_answer previous
                         end;
         reflection_decision := reflection_decision input;
         current_step := current_step input;
         max_steps := max_steps input |}
  end.

(** The answer an earlier run left on the thread, if any. *)
Definition inherited_answer (checkpoint : option AgentState)
  : option string :=
  match checkpoint with
  | Some previous => final_answer previous
  | None => None
  end.

(** [workflow.ainvoke(input, config)] with the recursion limit of
    [config], on a thread whose checkpoint is [checkpoint]: the graph is
    entered at the reasoning node. *)
Definition ainvoke (recursion_limit : nat) (checkpoint : option AgentState)
  (w : World) (input : AgentState) : list Node * Result AgentState :=
  match recursion_limit with
  | 0 => ([], Raise ValueError "recursion_limit must be at least 1")
  | _ => supersteps recursion_limit w 0 reasoning (resume checkpoint input)
  end.

(** *** The clock during a run

    The reasoning, the action and the reflection node read [time.time()]
    once when they start, and [_arun] reads it twice, when it starts and
    when the tool has returned or raised. *)

(** A dispatch gets as far as [tool._arun]. *)
Definition reaches_arun (tool_name tool_input : string) : bool :=
  match lookup tool_name tools, lookup tool_name TOOL_INPUT_MODELS with
  | Some _, Some input_model_class =>
      match json_loads tool_input with
      | inl (VDict d) =>
          match construct_input input_model_class d with
          | inl _ => true
          | inr _ => false
          end
      | _ => false
      end
  | _, _ => false
  end.

(** The readings of the clock while node [n] runs on [s]. *)
Definition clock_readings (n : Node) (s : AgentState) : nat :=
  match n with
  | reasoning | reflection => 1
  | action =>
      if opt_truthy (final_answer s) then 1
      else
        match parse_tool_usage (last_content (messages s)) with
        | inl (Some (tool_name, tool_input)) =>
            if str_truthy tool_name && str_truthy tool_input
               && reaches_arun tool_name tool_input
            then 3 else 1
        | _ => 1
        end
  | final_output | END => 0
  end.

(** The readings of the clock during [supersteps]. *)
Fixpoint supersteps_clock (steps_left : nat) (w : World) (t : nat) (n : Node)
  (s : AgentState) : nat :=
  match steps_left with
  | 0 => 0
  | S k =>
      match n with
      | END => 0
      | _ =>
          match validate s with
          | inr _ => 0
          | inl _ =>
              clock_readings n s
              + match step (w t) n s with
                | inr _ => 0
                | inl (n', s') =>
                    match (match n with
                           | reflection => validate s'
                           | _ => Ok s'
                           end) with
                    | inr _ => 0
                    | inl _ => supersteps_clock k w (S t) n' s'
                    end
                end
          end
      end
  end.

(** The readings of the clock during [ainvoke]. *)
Definition ainvoke_clock (recursion_limit : nat)
  (checkpoint : option AgentState) (w : World) (input : AgentState) : nat :=
  supersteps_clock recursion_limit w 0 reasoning (resume checkpoint input).

(** The configuration after [k] supersteps, with no limit. *)
Fixpoint config_at (w : World) (k : nat) (start : Node * AgentState)
  : Result (Node * AgentState) :=
  match k with
  | 0 => Ok start
  | S j =>
      bind (config_at w j start) (fun c => step (w j) (fst c) (snd c))
  end.

(** *** [run] *)

Definition initial_state (query : string) : AgentState :=
  {| messages := [HumanMessage query];
     tools_used := [];
     intermediate_results := [];
     plan := VStr "";
     sub_goals := [];
     reflection_notes := [];
     tool_output := None;
     tool_error := None;
     action_history := [];
     final_answer := None;
     reflection_decision := "continue";
     current_step := 0;
     max_steps := 10 |}.

(** The nodes visited by the run of [query] on a thread that never ran. *)
Definition run_visited (recursion_limit : nat) (w : World) (query : string)
  : list Node :=
  fst (ainvoke recursion_limit None w (initial_state query)).

(** [run] passes no recursion limit: the runtime applies its default. *)
Definition DEFAULT_RECURSION_LIMIT : nat := 25.

(** The body of the [try] of [run].  Rebuilding [AgentState] from the
    graph's result validates the declared types; [_generate_fallback_answer]
    is not defined anywhere in the repository, so reaching it raises
    [AttributeError]. *)
Definition run_body (checkpoint : option AgentState) (w : World)
  (query : string) (session_id : option string) : Result RunResult :=
  bind (snd (ainvoke DEFAULT_RECURSION_LIMIT checkpoint w
                     (initial_state query)))
       (fun final_state =>
  bind (match plan final_state with
        | VStr text => Ok text
        | v => Raise ValidationError (error_text ValidationError v)
        end) (fun plan_text =>
  bind (if opt_truthy (final_answer final_state)
        then match final_answer final_state with
             | Some text => Ok text
             | None => Ok ""
             end
        else Raise AttributeError
               "'ReActWorkflow' object has no attribute '_generate_fallback_answer'")
       (fun answer_text =>
  Ok {| answer := answer_text;
        run_metadata :=
          {| md_success := true;
             md_steps := current_step final_state;
             md_tools_used := tools_used final_state;
             md_intermediate_results := intermediate_results final_state;
             md_error := None;
             md_session_id := session_id;
             md_plan := plan_text;
             md_sub_goals := sub_goals final_state;
             md_reflection_notes := reflection_notes final_state |} |}))).

(** [run]; [checkpoint] is what the checkpointer of the workflow holds
    for the thread of [session_id]. *)
Definition run (checkpoint : option AgentState) (w : World) (query : string)
  (session_id : option string) : Result RunResult :=
  try_ (run_body checkpoint w query session_id)
       [(is_Exception,
         fun e =>
           Ok {| answer :=
                   "Xin lỗi, đã xảy ra lỗi hệ thống khi xử lý câu hỏi của bạn: "
                   ++ exn_str e;
                 run_metadata :=
                   {| md_success := false;
                      md_steps := 0;
                      md_tools_used := [];
                      md_intermediate_results := [];
                      md_error := Some (exn_str e);
                      md_session_id := session_id;
                      md_plan := "";
                      md_sub_goals := [];
                      md_reflection_notes := [] |} |})].

(** The readings of the clock between the two readings of [run]. *)
Definition run_clock (checkpoint : option AgentState) (w : World)
  (query : string) : nat :=
  ainvoke_clock DEFAULT_RECURSION_LIMIT checkpoint w (initial_state query).

(** ** [StockAnalysisService._serialize_intermediate_results] *)

Definition _serialize_intermediate_results (results : list dict) : list dict :=
  map (fun result =>
         [("llm_output", dict_get_default "llm_output" (VStr "") result);
          ("observation", dict_get_default "observation" (VStr "") result);
          ("tool_name", dict_get_default "tool_name" (VStr "unknown") result);
          ("success", dict_get_default "success" (VBool true) result);
          ("error_message", dict_get_default "error_message" VNone result)])
      results.

(** ** The session store ([shared/session/redis_session_manager.py]) *)

(** Redis, the chat history langchain keeps in it
    ([RedisChatMessageHistory]), the clock and the generator of ids are
    outside the program.  [Outside] is their state: a call returns or
    raises, and leaves a new state.  [redis_get] is [redis.get] with
    [decode_responses=True] (a text or [None]), [redis_exists] the number
    of keys found, [history_add] the construction of the history of a
    session followed by [add_user_message], [add_ai_message] or
    [add_message], [history_messages] its [messages].  [json_dumps_ascii]
    is [json.dumps(_)], which escapes what is not ASCII.  [default_ttl] is
    the manager's setting, [float_sub] the difference of two readings of
    the clock, [md5_hexdigest s] is [hashlib.md5(s.encode()).hexdigest()].
    The manager's lock is not modelled: one request is served at a
    time. *)
Variable Outside : Type.

Definition IO (A : Type) : Type := Outside -> Result A * Outside.

Variable json_dumps_ascii : value -> string.
Variable redis_get : string -> IO (option string).
Variable redis_setex : string -> Z -> string -> IO unit.
Variable redis_exists : string -> IO Z.
Variable history_add : string -> Message -> IO unit.
Variable history_messages : string -> IO (list Message).
Variable time_time : Outside -> value * Outside.
Variable uuid4 : Outside -> string * Outside.
Variable default_ttl : Z.
Variable float_sub : value -> value -> value.
Variable md5_hexdigest : string -> string.

Definition ret {A : Type} (a : A) : IO A := fun o => (Ok a, o).

(** A computation that does not look outside. *)
Definition lift {A : Type} (r : Result A) : IO A := fun o => (r, o).

(** A call that cannot raise. *)
Definition call {A : Type} (f : Outside -> A * Outside) : IO A :=
  fun o => (Ok (fst (f o)), snd (f o)).

Definition bind_io {A B : Type} (m : IO A) (k : A -> IO B) : IO B :=
  fun o =>
    match m o with
    | (inl a, o') => k a o'
    | (inr e, o') => (inr e, o')
    end.

(** [try: body  except Exception as e: h e]: what the body did outside
    before it raised stays done. *)
Definition try_io {A : Type} (body : IO A) (h : exn -> IO A) : IO A :=
  fun o =>
    match body o with
    | (inl a, o') => (inl a, o')
    | (inr e, o') => h e o'
    end.

Notation "x <- m ;; k" := (bind_io m (fun x => k))
  (at level 61, m at next level, right associativity).

(** The state outside after [n] readings of the clock. *)
Fixpoint clock_read (n : nat) (o : Outside) : Outside :=
  match n with
  | 0 => o
  | S m => snd (time_time (clock_read m o))
  end.

(** [SessionData]: a dataclass, whose fields are not validated (the
    fields [session_id] and [metadata] are [sd_session_id] and
    [sd_metadata] here). *)
Record SessionData : Type := {
  sd_session_id : value;
  created_at : value;
  last_accessed : value;
  analysis_cache : value;
  sd_metadata : value;
  conversation_history : value
}.

Definition _get_session_key (session_id : string) : string :=
  "session:" ++ session_id.

(** [v or default]. *)
Definition or_else (v default : value) : value :=
  if truthy v then v else default.

(** [not session_id or not session_id.strip()]. *)
Definition blank (session_id : string) : bool :=
  negb (str_truthy session_id) || negb (str_truthy (strip session_id)).

(** [_serialize_session_data]: reading the fields of a dataclass cannot
    raise, so the [except] clause is never entered. *)
Definition _serialize_session_data (session : SessionData) : value :=
  VDict [("session_id", sd_session_id session);
         ("created_at", created_at session);
         ("last_accessed", last_accessed session);
         ("analysis_cache", or_else (analysis_cache session) (VDict []));
         ("metadata", or_else (sd_metadata session) (VDict []));
         ("conversation_history",
          or_else (conversation_history session) (VList []));
         ("version", VStr "1.2")].

(** [_deserialize_session_data]: the defaults [time.time()] are read
    whether they are used or not; [data.get] raises on what is not an
    object, in the [except] clause too. *)
Definition _deserialize_session_data (data : value) : IO SessionData :=
  try_io
    (session_id <- lift (get_or data "session_id" (VStr ""));;
     now <- call time_time;;
     created <- lift (get_or data "created_at" now);;
     now <- call time_time;;
     accessed <- lift (get_or data "last_accessed" now);;
     cache <- lift (get_or data "analysis_cache" (VDict []));;
     session_metadata <- lift (get_or data "metadata" (VDict []));;
     history <- lift (get_or data "conversation_history" (VList []));;
     ret {| sd_session_id := session_id;
            created_at := created;
            last_accessed := accessed;
            analysis_cache := cache;
            sd_metadata := session_metadata;
            conversation_history := history |})
    (fun _ =>
     session_id <- lift (get_or data "session_id" (VStr "unknown"));;
     created <- call time_time;;
     accessed <- call time_time;;
     ret {| sd_session_id := session_id;
            created_at := created;
            last_accessed := accessed;
            analysis_cache := VDict [];
            sd_metadata := VDict [];
            conversation_history := VList [] |}).

(** The session written by [create_session] and
    [create_session_with_id]. *)
Definition store_new_session (session_id : string) (session_metadata : value)
  : IO unit :=
  created <- call time_time;;
  accessed <- call time_time;;
  redis_setex (_get_session_key session_id) default_ttl
    (json_dumps_ascii
       (_serialize_session_data
          {| sd_session_id := VStr session_id;
             created_at := created;
             last_accessed := accessed;
             analysis_cache := VDict [];
             sd_metadata := session_metadata;
             conversation_history := VList [] |})).

Definition create_session (session_metadata : value) : IO string :=
  session_id <- call uuid4;;
  _ <- store_new_session session_id session_metadata;;
  ret session_id.

Definition create_session_with_id (session_id : string)
  (session_metadata : value) : IO unit :=
  if blank session_id
  then lift (Raise ValueError "Session ID cannot be empty")
  else
    found <- redis_exists (_get_session_key session_id);;
    if negb (Z.eqb found 0)
    then lift (Raise ValueError
                 ("Session with ID " ++ session_id ++ " already exists"))
    else store_new_session session_id session_metadata.

Definition get_session (session_id : string) : IO (option SessionData) :=
  try_io
    (let session_key := _get_session_key session_id in
     data <- redis_get session_key;;
     match data with
     | Some text =>
         if str_truthy text
         then
           decoded <- lift (json_loads text);;
           session_data <- _deserialize_session_data decoded;;
           now <- call time_time;;
           let session_data :=
             {| sd_session_id := sd_session_id session_data;
                created_at := created_at session_data;
                last_accessed := now;
                analysis_cache := analysis_cache session_data;
                sd_metadata := sd_metadata session_data;
                conversation_history := conversation_history session_data |}
           in
           _ <- redis_setex session_key default_ttl
                  (json_dumps_ascii (_serialize_session_data session_data));;
           ret (Some session_data)
         else ret None
     | None => ret None
     end)
    (fun _ => ret None).

(** [msg.__class__.__name__]. *)
Definition class_name (m : Message) : string :=
  match m with
  | SystemMessage _ => "SystemMessage"
  | HumanMessage _ => "HumanMessage"
  | AIMessage _ => "AIMessage"
  end.

Definition update_conversation (session_id : string) (message : Message)
  : IO unit :=
  try_io
    (_ <- history_add session_id message;;
     session_data <- get_session session_id;;
     match session_data with
     | Some session_data =>
         history <- history_messages session_id;;
         redis_setex (_get_session_key session_id) default_ttl
           (json_dumps_ascii
              (_serialize_session_data
                 {| sd_session_id := sd_session_id session_data;
                    created_at := created_at session_data;
                    last_accessed := last_accessed session_data;
                    analysis_cache := analysis_cache session_data;
                    sd_metadata := sd_metadata session_data;
                    conversation_history :=
                      VList (map (fun msg =>
                                    VDict [("type", VStr (class_name msg));
                                           ("content", VStr (content msg))])
                                 history) |}))
     | None => ret tt
     end)
    (fun _ => ret tt).

Definition cache_key (session_id query_hash : string) : string :=
  "cache:" ++ session_id ++ ":" ++ query_hash.

(** [get_cached_analysis]; [VNone] is [None]. *)
Definition get_cached_analysis (session_id query_hash : string)
  (cache_ttl : Z) : IO value :=
  if blank session_id then ret VNone
  else
    try_io
      (cached <- redis_get (cache_key session_id query_hash);;
       match cached with
       | Some text =>
           if str_truthy text then lift (json_loads text) else ret VNone
       | None => ret VNone
       end)
      (fun _ => ret VNone).

Definition cache_analysis (session_id query_hash : string) (result : value)
  : IO unit :=
  if blank session_id then ret tt
  else
    try_io
      (redis_setex (cache_key session_id query_hash) default_ttl
         (json_dumps result))
      (fun _ => ret tt).

(** ** [StockAnalysisService]
    ([application/services/stock_analysis_service.py]) *)

Definition _generate_query_hash (query : string) : string :=
  md5_hexdigest query.

Definition _ensure_session (session_id : option string) : IO string :=
  match session_id with
  | Some given =>
      if str_truthy given
      then
        session <- get_session given;;
        match session with
        | Some _ => ret given
        | None =>
            _ <- create_session_with_id given (VDict []);;
            ret given
        end
      else create_session (VDict [])
  | None => create_session (VDict [])
  end.

(** [target[k] = v]; the object is changed in place, so the changed
    object is what the holder of [target] sees. *)
Definition setitem (target : value) (k : string) (v : value) : Result value :=
  match target with
  | VDict d =>
      Ok (VDict (if dict_has k d
                 then map (fun kv => if String.eqb k (fst kv)
                                     then (fst kv, v) else kv) d
                 else append d (k, v)))
  | _ => Raise TypeError (error_text TypeError target)
  end.

(** The two assignments on a cache hit:
    [cached_result["metadata"]["session_id"] = effective_session_id] and
    [cached_result["metadata"]["cached"] = True]. *)
Definition mark_cached (cached_result : value) (effective_session_id : string)
  : Result value :=
  bind (subscript cached_result "metadata") (fun entry =>
  bind (setitem entry "session_id" (VStr effective_session_id)) (fun entry =>
  bind (setitem entry "cached" (VBool true)) (fun entry =>
  setitem cached_result "metadata" entry))).

(** The [result] built from the record of [run]; [execution_time] is the
    reading [run] took. *)
Definition analysis_result (final_result : RunResult)
  (effective_session_id query_hash : string) (execution_time : value)
  : value :=
  let md := run_metadata final_result in
  VDict
    [("answer", VStr (answer final_result));
     ("metadata",
      VDict
        [("success", VBool (md_success md));
         ("session_id", VStr effective_session_id);
         ("steps", VInt (md_steps md));
         ("tools_used", VList (map VStr (md_tools_used md)));
         ("intermediate_results",
          VList (map VDict (_serialize_intermediate_results
                              (md_intermediate_results md))));
         ("cached", VBool false);
         ("query_hash", VStr query_hash);
         ("execution_time", execution_time);
         ("plan", VStr (md_plan md));
         ("sub_goals", VList (map VStr (md_sub_goals md)));
         ("reflection_notes", VList (map VStr (md_reflection_notes md)))])].

(** The [error_result] of the [except] clause of [analyze]. *)
Definition analysis_error_result (e : exn)
  (effective_session_id query_hash : string) : value :=
  VDict
    [("answer",
      VStr ("Xin lỗi, đã xảy ra lỗi trong quá trình phân tích: "
            ++ exn_str e));
     ("metadata",
      VDict
        [("success", VBool false);
         ("session_id", VStr effective_session_id);
         ("steps", VInt 0);
         ("tools_used", VList []);
         ("intermediate_results", VList []);
         ("cached", VBool false);
         ("error", VStr (exn_str e));
         ("query_hash", VStr query_hash);
         ("execution_time", VFloat "0.0");
         ("plan", VStr "");
         ("sub_goals", VList []);
         ("reflection_notes", VList [])])].

(** [analyze].  [run] reads the clock when it starts and before it
    returns; in between the nodes and [_arun] read it.  [checkpoint] is
    what the checkpointer of [workflow_manager] holds for the thread of
    the session. *)
Definition analyze (checkpoint : option AgentState) (w : World)
  (query : string) (session_id : option string) : IO value :=
  effective_session_id <- _ensure_session session_id;;
  let query_hash := _generate_query_hash query in
  cached_result <- get_cached_analysis effective_session_id query_hash 300;;
  if truthy cached_result
  then lift (mark_cached cached_result effective_session_id)
  else
    try_io
      (_ <- update_conversation effective_session_id (HumanMessage query);;
       start_time <- call time_time;;
       _ <- call (fun o => (tt, clock_read (run_clock checkpoint w query) o));;
       final_result <- lift (run checkpoint w query
                                 (Some effective_session_id));;
       end_time <- call time_time;;
       let result :=
         analysis_result final_result effective_session_id query_hash
                         (float_sub end_time start_time) in
       _ <- (if md_success (run_metadata final_result)
             then cache_analysis effective_session_id query_hash result
             else ret tt);;
       ret result)
      (fun e =>
       let error_result :=
         analysis_error_result e effective_session_id query_hash in
       _ <- cache_analysis effective_session_id query_hash error_result;;
       ret error_result).

(** [get_session_history]. *)
Definition get_session_history (session_id : string) : IO value :=
  session <- get_session session_id;;
  ret (match session with
       | Some session => conversation_history session
       | None => VNone
       end).

(** ** Vocabulary of the properties *)

(** The configuration of the run of [query] after [k] supersteps. *)
Definition run_config (w : World) (query : string) (k : nat)
  : Result (Node * AgentState) :=
  config_at w k (reasoning, initial_state query).

(** What is watched of a configuration: the node about to run and the
    answer held. *)
Definition observe (c : Result (Node * AgentState))
  : option (Node * option string) :=
  match c with
  | inl (n, s) => Some (n, final_answer s)
  | inr _ => None
  end.

Definition node_of (c : Result (Node * AgentState)) : Node :=
  match c with
  | inl (n, _) => n
  | inr _ => END
  end.

Definition state_of (c : Result (Node * AgentState)) : AgentState :=
  match c with
  | inl (_, s) => s
  | inr _ => initial_state ""
  end.

(** What is watched of a node's result: the answer and the decision. *)
Definition decided (r : Result AgentState) : option (option string * string) :=
  match r with
  | inl s => Some (final_answer s, reflection_decision s)
  | inr _ => None
  end.

(** The tool name a dispatcher record carries: its [tool_name] entry, or
    else the [tool_name] of its [metadata]. *)
Definition carried_tool_name (record : dict) : option value :=
  match dict_get "tool_name" record with
  | Some v => Some v
  | None =>
      match dict_get "metadata" record with
      | Some (VDict md) => dict_get "tool_name" md
      | _ => None
      end
  end.

(** The registry files every tool under its own [name]. *)
Definition keyed_by_name : Prop :=
  forall key tool, lookup key tools = Some tool -> name tool = key.

(** Every stage of the dispatcher succeeds: the tool is registered, it has
    an input model, the input decodes to an object that the model accepts,
    and the tool's [_execute_impl] returns. *)
Definition dispatch_succeeds (ev : Event) (tool_name tool_input : string)
  : Prop :=
  exists tool cls input kwargs result_data,
    lookup tool_name tools = Some tool
    /\ lookup tool_name TOOL_INPUT_MODELS = Some cls
    /\ json_loads tool_input = Ok (VDict input)
    /\ construct_input cls input = Ok kwargs
    /\ ev_execute ev tool kwargs = Ok result_data.

(** The decoded verdict is an object with the three required fields whose
    [decision] is one of the three valid values. *)
Definition valid_verdict (v : value) : bool :=
  match v with
  | VDict d =>
      dict_has "decision" d && dict_has "reason" d
      && dict_has "updated_plan" d
      && match dict_get "decision" d with
         | Some (VStr verdict) =>
             existsb (String.eqb verdict) ["continue"; "retry"; "end"]
         | _ => false
         end
  | _ => false
  end.

(** The evaluation the reflection node falls back to. *)
Definition fallback_evaluation (msg : string) : Evaluation :=
  {| decision := "end";
     eval_reason := VStr ("Failed to parse LLM evaluation: " ++ msg);
     updated_plan := VStr "" |}.

(** [action] names the registered tool [tool]: it is that name, or a
    sequence whose first element is that name. *)
Definition names_tool (action : value) (tool : string) : Prop :=
  (action = VStr tool \/ exists others, action = VList (VStr tool :: others))
  /\ tool <> ""
  /\ lookup tool tools <> None.

(** [message] carries an action for [tool] with the serialized [payload]:
    its first fenced json block decodes to an object that has an [action]
    field naming [tool] and an [input] field that serializes to
    [payload]. *)
Definition carries_action (message tool payload : string) : Prop :=
  exists block d action input,
    search_json_block message = Some block
    /\ json_loads block = Ok (VDict d)
    /\ dict_get "action" d = Some action
    /\ dict_get "input" d = Some input
    /\ names_tool action tool
    /\ payload = json_dumps input.

(** The object the action node reads the tool name from. *)
Definition first_if_sequence (action : value) : value :=
  match action with
  | VList (first :: _) => first
  | VList [] => VNone
  | _ => action
  end.

(** Index alignment of [intermediate_results] with [tools_used]. *)
Definition aligned (s : AgentState) : Prop :=
  Forall2 (fun record tool => dict_get "tool_name" record = Some (VStr tool))
          (intermediate_results s) (tools_used s).

Definition is_reasoning (n : Node) : bool :=
  match n with
  | reasoning => true
  | _ => false
  end.

(** Number of reasoning/action/reflection cycles in a list of visited
    nodes: every cycle starts at the reasoning node. *)
Definition cycles (visited : list Node) : nat :=
  List.length (filter is_reasoning visited).

(** Steps left before the ceiling. *)
Definition budget (s : AgentState) : nat :=
  Z.to_nat (max_steps s - current_step s).

(** Bound on the cycles still to start from node [n] in state [s]. *)
Definition cycles_left (n : Node) (s : AgentState) : nat :=
  match n with
  | reasoning => Nat.max 1 (budget s)
  | action => if opt_truthy (final_answer s) then 0 else budget s - 1
  | reflection => if opt_truthy (final_answer s) then 0 else budget s
  | final_output | END => 0
  end.

(** Bound on the supersteps still to run from node [n] in state [s]. *)
Definition supersteps_left (n : Node) (s : AgentState) : nat :=
  match n with
  | reasoning => 3 * cycles_left n s + 1
  | action => 3 * cycles_left n s + 3
  | reflection => 3 * cycles_left n s + 2
  | final_output => 1
  | END => 0
  end.

(** A message written by the agent. *)
Definition is_ai (m : Message) : bool :=
  match m with
  | AIMessage _ => true
  | _ => false
  end.

Definition node_eqb (a b : Node) : bool :=
  match a, b with
  | reasoning, reasoning | action, action | reflection, reflection
  | final_output, final_output | END, END => true
  | _, _ => false
  end.

(** Number of times node [target] has run during the first [k] supersteps
    of the run of [query]. *)
Fixpoint visits (target : Node) (w : World) (query : string) (k : nat) : nat :=
  match k with
  | 0 => 0
  | S j =>
      visits target w query j
      + (if node_eqb (node_of (run_config w query j)) target then 1 else 0)
  end.

(** No byte of [s] is [c]. *)
Definition free_of (c : ascii) (s : string) : bool :=
  forallb (fun x => negb (Ascii.eqb x c)) (list_ascii_of_string s).

(** What the step counter and the list of tools satisfy when node [n] is
    about to run. *)
Definition within_budget (n : Node) (s : AgentState) : Prop :=
  max_steps s = 10%Z
  /\ (0 <= current_step s)%Z
  /\ (Z.of_nat (List.length (tools_used s)) <= current_step s)%Z
  /\ List.length (tools_used s) <= 10
  /\ match n with
     | reasoning | action => (current_step s < 10)%Z
     | reflection => (current_step s <= 10)%Z
     | final_output | END => (current_step s <= 11)%Z
     end.

(** The history of a run of [query]: the query, then turns of the agent. *)
Definition history_of (query : string) (s : AgentState) : Prop :=
  exists turns,
    messages s = HumanMessage query :: turns
    /\ Forall (fun m => is_ai m = true) turns.

(** The line that renders search hit [r] with its source [s]: both must
    be objects, the hit with a [title] and a [content], the source with a
    [url]. *)
Definition rendered_hit (r s : value) : option string :=
  match r, s with
  | VDict hit, VDict source =>
      match dict_get "title" hit, dict_get "content" hit,
            dict_get "url" source with
      | Some title, Some body, Some url =>
          Some ("Title: " ++ py_str title ++ ". Content: " ++ py_str body
                ++ ". URL: " ++ py_str url)
      | _, _, _ => None
      end
  | _, _ => None
  end.

(** A date argument [StockPriceTool] accepts: a non-empty [str] that
    [strptime] parses. *)
Definition acceptable_date (v : value) : bool :=
  match v with
  | VStr s => str_truthy s && valid_date s
  | _ => false
  end.

(** The requests [StockPriceTool] passes on to its provider. *)
Definition accepts_request (data_type : value) (symbols : list string)
  (start_date end_date : value) : bool :=
  match symbols with
  | [] => false
  | _ =>
      eq_str data_type "realtime"
      || (eq_str data_type "historical"
          && acceptable_date start_date && acceptable_date end_date)
  end.

(** The payload a tool returns for what its provider gave: the object
    itself, or the empty object for a fault or for anything else. *)
Definition payload_of (outcome : Result value) : value :=
  match outcome with
  | inl (VDict d) => VDict d
  | _ => VDict []
  end.

(** Number of commas of a text. *)
Definition commas (s : string) : nat :=
  count_occ ascii_dec (list_ascii_of_string s) ","%char.

(** What [enhance_query] appends to a query. *)
Definition market_suffix (q : string) : string :=
  if existsb (fun term => contains (str_lower term) (str_lower q))
             vietnamese_market_terms
  then ""
  else if has_ticker q then " Vietnam stock HOSE HNX"
  else " Vietnamese stock market".

Definition is_object (v : value) : bool :=
  match v with
  | VDict _ => true
  | _ => false
  end.

(** The hit and the source [TavilySearchTool] makes of a raw search hit,
    and the line that renders them. *)
Definition formatted_hit (hit : value) : value :=
  match hit with
  | VDict d =>
      VDict [("title", dict_get_default "title" (VStr "") d);
             ("content", dict_get_default "content" (VStr "") d)]
  | _ => VNone
  end.

Definition source_of_hit (hit : value) : value :=
  match hit with
  | VDict d =>
      VDict [("url", dict_get_default "url" (VStr "") d);
             ("score", dict_get_default "score" (VInt 0) d)]
  | _ => VNone
  end.

Definition hit_line (hit : value) : string :=
  match hit with
  | VDict d =>
      "Title: " ++ py_str (dict_get_default "title" (VStr "") d)
      ++ ". Content: " ++ py_str (dict_get_default "content" (VStr "") d)
      ++ ". URL: " ++ py_str (dict_get_default "url" (VStr "") d)
  | _ => ""
  end.

(** The parameters of [_execute_impl] of the tool named [tool_name]. *)
Definition parameters_of (tool_name : string) : list string :=
  if String.eqb tool_name "stock_price"
  then ["symbols"; "data_type"; "start_date"; "end_date"]
  else if String.eqb tool_name "industry_analysis" then ["symbol"]
  else if existsb (String.eqb tool_name)
            ["fundamental_analysis"; "peers_comparison"]
  then ["symbols"]
  else if existsb (String.eqb tool_name) ["rag_knowledge"; "tavily_search"]
  then ["query"]
  else if String.eqb tool_name "chat_llm" then ["messages"]
  else [].

(** A session as it is read back from its record: the three containers
    with their defaults. *)
Definition stored (session : SessionData) : SessionData :=
  {| sd_session_id := sd_session_id session;
     created_at := created_at session;
     last_accessed := last_accessed session;
     analysis_cache := or_else (analysis_cache session) (VDict []);
     sd_metadata := or_else (sd_metadata session) (VDict []);
     conversation_history :=
       or_else (conversation_history session) (VList []) |}.

(** A session accessed at [now]. *)
Definition touched (now : value) (session : SessionData) : SessionData :=
  {| sd_session_id := sd_session_id session;
     created_at := created_at session;
     last_accessed := now;
     analysis_cache := analysis_cache session;
     sd_metadata := sd_metadata session;
     conversation_history := conversation_history session |}.

(** The fields of a serialized record. *)
Definition SERIALIZED_FIELDS : list string :=
  ["llm_output"; "observation"; "tool_name"; "success"; "error_message"].

(* ================================================================== *)
(** * Properties                                                        *)
(* ================================================================== *)

Unset Implicit Arguments.

Ltac break_match :=
  match goal with
  | |- context [match ?x with _ => _ end] => destruct x eqn:?
  end.

Ltac returns := unfold Ok; eexists; reflexivity.

Ltac break_match_in H :=
  match type of H with
  | context [match ?x with _ => _ end] => destruct x eqn:?
  end.

(** ** Searching a text *)

Lemma strip_prefix_sound : forall p s r,
  strip_prefix p s = Some r -> s = p ++ r.
Proof.
  induction p as [|a p IH]; intros s r H; simpl in *.
  - congruence.
  - destruct s as [|b s]; [discriminate|].
    destruct (Ascii.eqb a b) eqn:E; [|discriminate].
    apply Ascii.eqb_eq in E. subst b. f_equal. now apply IH.
Qed.

Lemma strip_prefix_complete : forall p r, strip_prefix p (p ++ r) = Some r.
Proof.
  induction p as [|a p IH]; intros r; simpl.
  - reflexivity.
  - now rewrite Ascii.eqb_refl.
Qed.

Lemma cut_unfold : forall needle s,
  cut needle s =
  match strip_prefix needle s with
  | Some rest => Some ("", rest)
  | None =>
      match s with
      | EmptyString => None
      | String c s' =>
          match cut needle s' with
          | Some (before, after) => Some (String c before, after)
          | None => None
          end
      end
  end.
Proof. intros needle s. destruct s; reflexivity. Qed.

Lemma cut_sound : forall needle s before after,
  cut needle s = Some (before, after) -> s = before ++ needle ++ after.
Proof.
  intros needle s. induction s as [|c s IH]; intros before after H;
    rewrite cut_unfold in H.
  - destruct (strip_prefix needle "") eqn:E; [|discriminate].
    inversion H; subst. now apply strip_prefix_sound in E.
  - destruct (strip_prefix needle (String c s)) eqn:E.
    + inversion H; subst. now apply strip_prefix_sound in E.
    + destruct (cut needle s) as [[b a]|] eqn:C; [|discriminate].
      inversion H; subst. simpl. f_equal. now apply IH.
Qed.

Lemma cut_complete : forall needle before after,
  exists b a, cut needle (before ++ needle ++ after) = Some (b, a).
Proof.
  intros needle before after. induction before as [|c before IH].
  - simpl. rewrite cut_unfold, strip_prefix_complete. now eexists _, _.
  - rewrite cut_unfold.
    destruct (strip_prefix needle (String c before ++ needle ++ after)).
    + now eexists _, _.
    + simpl. destruct IH as (b & a & ->). now eexists _, _.
Qed.

Lemma contains_iff : forall needle s,
  contains needle s = true <->
  exists before after, s = before ++ needle ++ after.
Proof.
  intros needle s. unfold contains. split.
  - destruct (cut needle s) as [[b a]|] eqn:C; [|discriminate].
    intros _. exists b, a. now apply cut_sound.
  - intros (b & a & ->).
    destruct (cut_complete needle b a) as (b' & a' & ->). reflexivity.
Qed.

Lemma append_assoc : forall a b c : string, (a ++ b) ++ c = a ++ b ++ c.
Proof.
  induction a as [|x a IH]; intros b c; simpl; [reflexivity|].
  now rewrite IH.
Qed.

(** A text that carries the formatted marker carries the bare one. *)
Lemma formatted_marker_contains_bare : forall text,
  contains "**FINAL ANSWER**:" text = true ->
  contains "FINAL ANSWER" text = true.
Proof.
  intros text H. apply contains_iff in H. destruct H as (b & a & ->).
  apply contains_iff. exists (b ++ "**"), ("**:" ++ a).
  rewrite append_assoc. reflexivity.
Qed.

(** ** No node lets an exception through *)

Lemma reason_returns : forall ev, exists text, reason ev = Ok text.
Proof.
  intros ev. unfold reason, try_. destruct (ev_chat ev); simpl; returns.
Qed.

Lemma parse_tool_usage_returns : forall message,
  exists r, parse_tool_usage message = Ok r.
Proof.
  intros message. unfold parse_tool_usage, try_.
  destruct (parse_tool_usage_body message) as [r|e]; [now exists r|].
  simpl. destruct (is_JSONDecodeError (exn_cls e)); now exists None.
Qed.

Lemma format_tool_result_returns : forall tool_name tool_result,
  exists text, format_tool_result tool_name tool_result = Ok text.
Proof.
  intros. unfold format_tool_result, try_.
  destruct (format_tool_result_body _ _); simpl; returns.
Qed.

Lemma _arun_returns : forall ev tool kwargs,
  exists r, _arun ev tool kwargs = Ok r
            /\ (status r = "success" \/ status r = "error")
            /\ dict_get "tool_name" (metadata r) = Some (VStr (name tool))
            /\ (status r = "success" <->
                exists d, ev_execute ev tool kwargs = Ok d).
Proof.
  intros ev tool kwargs. unfold _arun, try_, bind.
  destruct (ev_execute ev tool kwargs) as [d|e]; simpl.
  - eexists; split; [reflexivity|]. simpl. repeat split; auto.
    intros _. now exists d.
  - eexists; split; [reflexivity|]. simpl. repeat split; auto.
    + discriminate.
    + intros (d & H). discriminate.
Qed.

Lemma _execute_tool_safely_returns : forall ev tool_name tool_input,
  exists r, _execute_tool_safely ev tool_name tool_input = Ok r.
Proof.
  intros. unfold _execute_tool_safely, try_.
  destruct (_execute_tool_safely_body _ _ _) as [r|e]; [now exists r|].
  simpl. destruct (is_JSONDecodeError _); [returns|].
  destruct (is_ValueError _); returns.
Qed.

Lemma _generate_final_answer_returns : forall ev state,
  exists text, _generate_final_answer ev state = Ok text
               /\ str_truthy text = true.
Proof.
  intros ev state. unfold _generate_final_answer, try_, bind.
  destruct (negb (str_truthy _)).
  - eexists; split; reflexivity.
  - destruct (ev_chat ev) as [text|e]; simpl.
    + destruct (negb (str_truthy _)) eqn:E.
      * eexists; split; reflexivity.
      * eexists; split; [reflexivity|].
        now apply Bool.negb_false_iff in E.
    + eexists; split; reflexivity.
Qed.

Lemma _reasoning_node_returns : forall ev state,
  exists state', _reasoning_node ev state = Ok state'.
Proof.
  intros. unfold _reasoning_node. repeat break_match; returns.
Qed.

Lemma _action_node_returns : forall ev state,
  exists state', _action_node ev state = Ok state'.
Proof.
  intros. unfold _action_node. repeat break_match; returns.
Qed.

Lemma _reflection_node_returns : forall ev state,
  exists state', _reflection_node ev state = Ok state'.
Proof.
  intros. unfold _reflection_node. repeat break_match; returns.
Qed.

Lemma _final_output_node_returns : forall ev state,
  exists state', _final_output_node ev state = Ok state'.
Proof.
  intros. unfold _final_output_node. repeat break_match; returns.
Qed.

(** ** What a node changes *)

Ltac node_cases H :=
  repeat break_match_in H; unfold Ok in H;
  try discriminate; inversion H; subst; clear H; simpl in *.

Lemma _reasoning_node_effect : forall ev s s',
  _reasoning_node ev s = Ok s' ->
  max_steps s' = max_steps s
  /\ (current_step s <= current_step s')%Z
  /\ tools_used s' = tools_used s
  /\ intermediate_results s' = intermediate_results s.
Proof.
  intros ev s s' H. unfold _reasoning_node in H.
  node_cases H; repeat split; auto; lia.
Qed.


(** The action node: with an answer in place it only forces the
    decision; without one it uses up a step, and either leaves both
    sequences alone or extends both by one, under the same tool name. *)
Lemma _action_node_effect : forall ev s s',
  _action_node ev s = Ok s' ->
  max_steps s' = max_steps s
  /\ (opt_truthy (final_answer s) = true ->
      s' = set_reflection_decision "end" s)
  /\ (opt_truthy (final_answer s) = false ->
      current_step s' = (current_step s + 1)%Z)
  /\ ((tools_used s' = tools_used s
       /\ intermediate_results s' = intermediate_results s)
      \/ (exists record tool,
            tools_used s' = append (tools_used s) tool
            /\ intermediate_results s'
               = append (intermediate_results s) record
            /\ dict_keys record
               = ["llm_output"; "observation"; "tool_name"; "success"]
            /\ dict_get "tool_name" record = Some (VStr tool))).
Proof.
  intros ev s s' H. unfold _action_node in H.
  destruct (opt_truthy (final_answer s)) eqn:T.
  - unfold Ok in H. inversion H; subst; clear H. simpl.
    repeat split; auto; discriminate.
  - node_cases H; rewrite ?T; simpl;
      (split; [reflexivity|]); (split; [discriminate|]);
      (split; [reflexivity|]); try (left; split; reflexivity).
    right. eexists _, _. repeat split.
Qed.

Lemma _reflection_node_effect : forall ev s s',
  _reflection_node ev s = Ok s' ->
  max_steps s' = max_steps s
  /\ (current_step s <= current_step s')%Z
  /\ (opt_truthy (final_answer s) = true ->
      final_answer s' = final_answer s /\ reflection_decision s' = "end")
  /\ tools_used s' = tools_used s
  /\ intermediate_results s' = intermediate_results s.
Proof.
  intros ev s s' H. unfold _reflection_node in H.
  destruct (opt_truthy (final_answer s)) eqn:T.
  - unfold Ok in H. inversion H; subst; clear H. simpl.
    repeat split; auto; lia.
  - node_cases H; repeat split; auto; try lia; discriminate.
Qed.

Lemma _final_output_node_effect : forall ev s s',
  _final_output_node ev s = Ok s' ->
  max_steps s' = max_steps s
  /\ current_step s' = current_step s
  /\ opt_truthy (final_answer s') = true
  /\ (opt_truthy (final_answer s) = true -> final_answer s' = final_answer s)
  /\ tools_used s' = tools_used s
  /\ intermediate_results s' = intermediate_results s.
Proof.
  intros ev s s' H. unfold _final_output_node in H.
  destruct (_generate_final_answer_returns ev s) as (text & G & Ttext).
  rewrite G in H. unfold Ok in H.
  destruct (opt_truthy (final_answer s)) eqn:T.
  - destruct (final_answer s) as [existing|] eqn:F; [|discriminate].
    inversion H; subst; clear H. simpl. rewrite F. now repeat split.
  - inversion H; subst; clear H. simpl. repeat split; auto; discriminate.
Qed.

Lemma _should_continue_verdict : forall s,
  (_should_continue s = "end" \/ _should_continue s = "continue")
  /\ (_should_continue s = "continue" ->
      opt_truthy (final_answer s) = false
      /\ (current_step s < max_steps s)%Z)
  /\ (opt_truthy (final_answer s) = true -> _should_continue s = "end")
  /\ ((max_steps s <= current_step s)%Z -> _should_continue s = "end").
Proof.
  intros s. unfold _should_continue.
  destruct (opt_truthy (final_answer s)); simpl.
  - repeat split; auto; discriminate.
  - destruct (Z.leb_spec (max_steps s) (current_step s)).
    + repeat split; auto; discriminate.
    + repeat break_match; repeat split; auto; try discriminate; lia.
Qed.

(** ** Supersteps *)

Lemma step_returns : forall ev n s,
  exists n' s', step ev n s = Ok (n', s').
Proof.
  intros ev n s. destruct n; simpl.
  - destruct (_reasoning_node_returns ev s) as (s' & ->). simpl. now eexists _, _.
  - destruct (_action_node_returns ev s) as (s' & ->). simpl. now eexists _, _.
  - destruct (_reflection_node_returns ev s) as (s' & ->). simpl.
    destruct (_should_continue_verdict s') as ([-> | ->] & _);
      simpl; now eexists _, _.
  - destruct (_final_output_node_returns ev s) as (s' & ->). simpl.
    now eexists _, _.
  - now eexists _, _.
Qed.

(** Every superstep uses up the ranking functions; the ceiling never
    moves and the step counter never goes back. *)
Lemma step_ranking : forall ev n s n' s',
  step ev n s = Ok (n', s') ->
  n <> END ->
  cycles_left n' s' + (if is_reasoning n then 1 else 0) <= cycles_left n s
  /\ supersteps_left n' s' + 1 <= supersteps_left n s
  /\ (n' = END -> opt_truthy (final_answer s') = true)
  /\ max_steps s' = max_steps s
  /\ (current_step s <= current_step s')%Z.
Proof.
  intros ev n s n' s' H NE. destruct n; simpl in H; [| | | |congruence].
  - destruct (_reasoning_node ev s) as [s1|] eqn:R; simpl in H; [|discriminate].
    unfold Ok in H. inversion H; subst; clear H.
    apply _reasoning_node_effect in R as (M & C & _).
    unfold supersteps_left, cycles_left, budget, is_reasoning. rewrite M.
    cbv beta iota.
    destruct (opt_truthy (final_answer s')); repeat split; try lia; discriminate.
  - destruct (_action_node ev s) as [s1|] eqn:A; simpl in H; [|discriminate].
    unfold Ok in H. inversion H; subst; clear H.
    apply _action_node_effect in A as (M & Ht & Hf & _).
    unfold supersteps_left, cycles_left, budget, is_reasoning. rewrite M.
    cbv beta iota.
    destruct (opt_truthy (final_answer s)) eqn:T.
    + rewrite (Ht eq_refl). simpl final_answer. simpl current_step. rewrite T.
      repeat split; try lia; discriminate.
    + rewrite (Hf eq_refl).
      destruct (opt_truthy (final_answer s')); repeat split; try lia; discriminate.
  - destruct (_reflection_node ev s) as [s1|] eqn:F; simpl in H; [|discriminate].
    apply _reflection_node_effect in F as (M & C & Ht & _).
    destruct (_should_continue_verdict s1) as ([E | E] & HC & HT & _);
      rewrite E in H; simpl in H; unfold Ok in H; inversion H; subst; clear H;
      unfold supersteps_left, cycles_left, budget, is_reasoning; rewrite M;
      cbv beta iota.
    + destruct (opt_truthy (final_answer s)); repeat split; try lia; discriminate.
    + destruct (HC E) as (NT & LT).
      destruct (opt_truthy (final_answer s)) eqn:T.
      * destruct (Ht eq_refl) as (Fa & _). rewrite Fa, T in NT. discriminate.
      * repeat split; try lia; discriminate.
  - destruct (_final_output_node ev s) as [s1|] eqn:O; simpl in H; [|discriminate].
    unfold Ok in H. inversion H; subst; clear H.
    apply _final_output_node_effect in O as (M & C & T & _).
    unfold supersteps_left, cycles_left, is_reasoning. cbv beta iota.
    repeat split; auto; lia.
Qed.

Lemma cycles_cons : forall n visited,
  cycles (n :: visited) = (if is_reasoning n then 1 else 0) + cycles visited.
Proof. intros n visited. unfold cycles. simpl. now destruct (is_reasoning n). Qed.

Lemma supersteps_END : forall k w t s,
  supersteps (S k) w t END s = ([], Ok s).
Proof. reflexivity. Qed.

(** A state whose [plan] is a text passes the validation. *)
Lemma validate_text : forall s text, plan s = VStr text -> validate s = Ok s.
Proof. intros s text P. unfold validate. now rewrite P. Qed.

Lemma validate_inv : forall s s', validate s = Ok s' -> s' = s.
Proof.
  intros s s' H. unfold validate in H.
  destruct (plan s); unfold Raise, Ok in H; congruence.
Qed.

Lemma validate_fault : forall s e,
  validate s = inr e -> exn_cls e = ValidationError.
Proof.
  intros s e H. unfold validate in H.
  destruct (plan s); unfold Raise, Ok in H; inversion H; reflexivity.
Qed.

(** One superstep of the driver. *)
Lemma supersteps_unfold : forall k w t n s,
  n <> END ->
  supersteps (S k) w t n s
  = match validate s with
    | inr e => ([], inr e)
    | inl _ =>
        match step (w t) n s with
        | inr e => ([n], inr e)
        | inl (n', s') =>
            match (match n with
                   | reflection => validate s'
                   | _ => Ok s'
                   end) with
            | inr e => ([n], inr e)
            | inl _ =>
                let (visited, outcome) := supersteps k w (S t) n' s' in
                (n :: visited, outcome)
            end
        end
    end.
Proof. intros k w t n s NE. destruct n; try reflexivity. congruence. Qed.

(** The driver starts no more cycles than the ranking function allows,
    whatever the recursion limit. *)
Lemma supersteps_cycles : forall k w t n s,
  cycles (fst (supersteps k w t n s)) <= cycles_left n s.
Proof.
  induction k as [|k IH]; intros w t n s.
  - unfold cycles. simpl. lia.
  - assert (NE : n = END \/ n <> END) by (destruct n; auto; right; discriminate).
    destruct NE as [-> | NE]; [unfold cycles; simpl; lia|].
    rewrite supersteps_unfold by exact NE.
    destruct (validate s); [|unfold cycles; simpl; lia].
    destruct (step_returns (w t) n s) as (n' & s' & St).
    rewrite St. unfold Ok at 1. cbv beta iota.
    pose proof St as Rk. apply step_ranking in Rk as (C & _); auto.
    destruct (match n with reflection => validate s' | _ => Ok s' end).
    + specialize (IH w (S t) n' s').
      destruct (supersteps k w (S t) n' s') as [visited outcome].
      simpl in *. rewrite cycles_cons. lia.
    + cbn [fst]. rewrite cycles_cons. unfold cycles at 1. simpl. lia.
Qed.

(** With a recursion limit above [supersteps_left] the graph reaches
    [END], and does so with an answer in place, unless the validation of
    a state stops it. *)
Lemma supersteps_completes : forall k w t n s,
  supersteps_left n s + 1 <= k ->
  exists visited outcome,
    supersteps k w t n s = (visited, outcome)
    /\ match outcome with
       | inl s' => n = END \/ opt_truthy (final_answer s') = true
       | inr e => exn_cls e = ValidationError
       end.
Proof.
  induction k as [|k IH]; intros w t n s L; [lia|].
  assert (NE : n = END \/ n <> END) by (destruct n; auto; right; discriminate).
  destruct NE as [-> | NE].
  { eexists _, _. split; [reflexivity|]. now left. }
  rewrite supersteps_unfold by exact NE.
  destruct (validate s) as [v|e] eqn:V.
  2:{ eexists _, _. split; [reflexivity|]. now apply validate_fault in V. }
  destruct (step_returns (w t) n s) as (n' & s' & St).
  rewrite St. unfold Ok at 1. cbv beta iota.
  pose proof St as Rk. apply step_ranking in Rk as (_ & R & T & _); auto.
  destruct (match n with reflection => validate s' | _ => Ok s' end)
    as [v'|e] eqn:V'.
  2:{ eexists _, _. split; [reflexivity|].
      destruct n; unfold Ok in V'; try discriminate.
      now apply validate_fault in V'. }
  destruct (IH w (S t) n' s') as (visited & outcome & A & Fin); [lia|].
  rewrite A. eexists _, _; split; [reflexivity|].
  destruct outcome as [s''|e]; [|exact Fin]. right.
  destruct Fin as [-> | Fin]; [|exact Fin].
  destruct k; [lia|]. rewrite supersteps_END in A.
  inversion A; subst. now apply T.
Qed.

(** The ranking of a thread at its start is that of the input. *)
Lemma resume_ranking : forall checkpoint query,
  max_steps (resume checkpoint (initial_state query)) = 10%Z
  /\ current_step (resume checkpoint (initial_state query)) = 0%Z
  /\ tools_used (resume checkpoint (initial_state query)) = []
  /\ intermediate_results (resume checkpoint (initial_state query)) = []
  /\ plan (resume checkpoint (initial_state query)) = VStr ""
  /\ messages (resume checkpoint (initial_state query))
     = [HumanMessage query].
Proof. intros [previous|] query; repeat split. Qed.

Lemma str_truthy_nonempty : forall text, str_truthy text = true -> text <> "".
Proof.
  intros text H ->. discriminate.
Qed.

(** [run] always returns a record, and its answer is never empty. *)
Lemma run_returns : forall checkpoint w query session_id,
  exists r, run checkpoint w query session_id = Ok r /\ answer r <> "".
Proof.
  intros checkpoint w query session_id. unfold run, run_body, try_, bind.
  destruct (snd (ainvoke DEFAULT_RECURSION_LIMIT checkpoint w
                         (initial_state query)))
    as [final_state|e]; simpl.
  - destruct (plan final_state); simpl;
      try (eexists; split; [reflexivity|]; simpl; discriminate).
    destruct (final_answer final_state) as [text|] eqn:F; simpl.
    + destruct (str_truthy text) eqn:T; simpl.
      * eexists; split; [reflexivity|]. simpl. now apply str_truthy_nonempty.
      * eexists; split; [reflexivity|]. simpl. discriminate.
    + eexists; split; [reflexivity|]. simpl. discriminate.
  - eexists; split; [reflexivity|]. simpl. discriminate.
Qed.

(** ** Runs *)

Lemma run_config_succ : forall w query k,
  run_config w query (S k)
  = bind (run_config w query k) (fun c => step (w k) (fst c) (snd c)).
Proof. reflexivity. Qed.

Lemma run_config_returns : forall w query k,
  exists n s, run_config w query k = Ok (n, s).
Proof.
  intros w query k. induction k as [|k (n & s & IH)].
  - now eexists _, _.
  - rewrite run_config_succ, IH. simpl. apply step_returns.
Qed.

Lemma run_config_pred : forall w query k n' s',
  run_config w query (S k) = Ok (n', s') ->
  exists n s, run_config w query k = Ok (n, s)
              /\ step (w k) n s = Ok (n', s').
Proof.
  intros w query k n' s' H. rewrite run_config_succ in H.
  destruct (run_config_returns w query k) as (n & s & E).
  rewrite E in H. simpl in H. now exists n, s.
Qed.

(** Only the action node writes the two sequences, and it extends both
    together. *)
Lemma step_writes : forall ev n s n' s',
  step ev n s = Ok (n', s') ->
  (tools_used s' = tools_used s
   /\ intermediate_results s' = intermediate_results s)
  \/ (n = action
      /\ exists record tool,
           tools_used s' = append (tools_used s) tool
           /\ intermediate_results s' = append (intermediate_results s) record
           /\ dict_keys record
              = ["llm_output"; "observation"; "tool_name"; "success"]
           /\ dict_get "tool_name" record = Some (VStr tool)).
Proof.
  intros ev n s n' s' H. destruct n; simpl in H.
  - destruct (_reasoning_node ev s) eqn:R; simpl in H; [|discriminate].
    unfold Ok in H. inversion H; subst.
    apply _reasoning_node_effect in R as (_ & _ & T & I). now left.
  - destruct (_action_node ev s) eqn:A; simpl in H; [|discriminate].
    unfold Ok in H. inversion H; subst.
    apply _action_node_effect in A as (_ & _ & _ & [W | W]); [now left|].
    right. split; [reflexivity|exact W].
  - destruct (_reflection_node ev s) eqn:F; simpl in H; [|discriminate].
    apply _reflection_node_effect in F as (_ & _ & _ & T & I).
    destruct (route _) eqn:Rt; simpl in H; [|discriminate].
    unfold Ok in H. inversion H; subst. now left.
  - destruct (_final_output_node ev s) eqn:O; simpl in H; [|discriminate].
    unfold Ok in H. inversion H; subst.
    apply _final_output_node_effect in O as (_ & _ & _ & _ & T & I). now left.
  - unfold Ok in H. inversion H; subst. now left.
Qed.

(** The back-edge is taken only without an answer. *)
Lemma step_to_reasoning : forall ev n s s',
  step ev n s = Ok (reasoning, s') ->
  n = reflection
  /\ opt_truthy (final_answer s') = false
  /\ (current_step s' < max_steps s')%Z.
Proof.
  intros ev n s s' H. destruct n; simpl in H.
  - destruct (_reasoning_node ev s); simpl in H; unfold Ok in H; discriminate.
  - destruct (_action_node ev s); simpl in H; unfold Ok in H; discriminate.
  - destruct (_reflection_node ev s) as [s1|]; simpl in H; [|discriminate].
    destruct (_should_continue_verdict s1) as ([E | E] & HC & _);
      rewrite E in H; simpl in H; unfold Ok in H; inversion H; subst.
    split; [reflexivity|]. now apply HC.
  - destruct (_final_output_node ev s); simpl in H; unfold Ok in H; discriminate.
  - unfold Ok in H. discriminate.
Qed.

(** Past the reasoning node, a non-empty answer survives every
    superstep and keeps the run away from the reasoning node. *)
Lemma step_keeps_answer : forall ev n s n' s',
  step ev n s = Ok (n', s') ->
  n <> reasoning ->
  opt_truthy (final_answer s) = true ->
  final_answer s' = final_answer s /\ n' <> reasoning.
Proof.
  intros ev n s n' s' H NR T. destruct n; simpl in H; [congruence| | | |].
  - destruct (_action_node ev s) eqn:A; simpl in H; [|discriminate].
    unfold Ok in H. inversion H; subst.
    apply _action_node_effect in A as (_ & Ht & _).
    rewrite (Ht T). split; [reflexivity|discriminate].
  - destruct (_reflection_node ev s) as [s1|] eqn:F; simpl in H; [|discriminate].
    apply _reflection_node_effect in F as (_ & _ & Ht & _).
    destruct (Ht T) as (Fa & _).
    destruct (_should_continue_verdict s1) as (_ & _ & HT & _).
    rewrite HT in H by (now rewrite Fa). simpl in H.
    unfold Ok in H. inversion H; subst. split; [exact Fa|discriminate].
  - destruct (_final_output_node ev s) eqn:O; simpl in H; [|discriminate].
    unfold Ok in H. inversion H; subst.
    apply _final_output_node_effect in O as (_ & _ & _ & Ht & _).
    split; [now apply Ht|discriminate].
  - unfold Ok in H. inversion H; subst. split; [reflexivity|discriminate].
Qed.

Lemma aligned_append : forall s s' record tool,
  aligned s ->
  tools_used s' = append (tools_used s) tool ->
  intermediate_results s' = append (intermediate_results s) record ->
  dict_get "tool_name" record = Some (VStr tool) ->
  aligned s'.
Proof.
  unfold aligned, append. intros s s' record tool A -> -> H.
  apply Forall2_app; [exact A|]. now constructor.
Qed.

(** What holds of every configuration of a run. *)
Lemma run_config_invariant : forall w query k n s,
  run_config w query k = Ok (n, s) ->
  aligned s
  /\ (n = reasoning -> opt_truthy (final_answer s) = false).
Proof.
  intros w query k. induction k as [|k IH]; intros n s H.
  - unfold run_config in H. simpl in H. unfold Ok in H. inversion H; subst.
    split; [constructor|reflexivity].
  - apply run_config_pred in H as (n0 & s0 & C & St).
    destruct (IH _ _ C) as (A & _). split.
    + destruct (step_writes _ _ _ _ _ St) as [(T & I) | (_ & record & tool & T & I & _ & N)].
      * unfold aligned in *. now rewrite T, I.
      * eapply aligned_append; eauto.
    + intros ->. now apply step_to_reasoning in St.
Qed.

Lemma Forall2_nth_error_r : forall (A B : Type) (P : A -> B -> Prop) l1 l2,
  Forall2 P l1 l2 ->
  forall i y, nth_error l2 i = Some y ->
  exists x, nth_error l1 i = Some x /\ P x y.
Proof.
  intros A B P l1 l2 F. induction F as [|x y l1 l2 Pxy F IH]; intros i z H.
  - destruct i; discriminate.
  - destruct i as [|i]; simpl in *.
    + inversion H; subst. now exists x.
    + now apply IH.
Qed.

(** An answer in place at superstep [i] is still in place [d] supersteps
    later. *)
Lemma answer_kept : forall w query i n_i s_i,
  run_config w query i = Ok (n_i, s_i) ->
  opt_truthy (final_answer s_i) = true ->
  forall d n_j s_j,
    run_config w query (d + i) = Ok (n_j, s_j) ->
    final_answer s_j = final_answer s_i /\ n_j <> reasoning.
Proof.
  intros w query i n_i s_i Ci T. induction d as [|d IH]; intros n_j s_j Cj.
  - simpl in Cj. rewrite Ci in Cj. unfold Ok in Cj. inversion Cj; subst.
    split; [reflexivity|]. intros ->.
    apply run_config_invariant in Ci as (_ & NT). rewrite NT in T; [discriminate|reflexivity].
  - simpl in Cj. apply run_config_pred in Cj as (n & s & C & St).
    destruct (IH _ _ C) as (Fa & NR).
    destruct (step_keeps_answer _ _ _ _ _ St NR) as (Fa' & NR'); [now rewrite Fa|].
    split; [congruence|exact NR'].
Qed.

(* ------------------------------------------------------------------ *)
(** ** The claims                                                       *)
(* ------------------------------------------------------------------ *)

(** C1 (termination).  For every query, every behaviour of the chat
    collaborator and of the tools (every [World]) and every thread of
    the checkpointer, [run] returns a record whose answer is a non-empty
    text, and whatever the recursion limit of the runtime the graph
    starts at most [max_steps] reasoning/action/reflection cycles.  With
    a recursion limit of at least [3 * max_steps + 2] the graph itself
    stops before the limit does: it reaches [END] with an answer in its
    final state, or the validation of a state fails (the reflector's
    [updated_plan] was not a text).  The conditional edge returns ["end"]
    whenever [current_step >= max_steps]. *)
Theorem run_terminates_within_max_steps :
  forall (recursion_limit : nat) (checkpoint : option AgentState)
         (w : World) (query : string) (session_id : option string),
    (exists r, run checkpoint w query session_id = Ok r
               /\ answer r <> "")
    /\ cycles (fst (ainvoke recursion_limit checkpoint w
                            (initial_state query)))
       <= Z.to_nat (max_steps (initial_state query))
    /\ (3 * Z.to_nat (max_steps (initial_state query)) + 2 <= recursion_limit ->
        exists visited outcome,
          ainvoke recursion_limit checkpoint w (initial_state query)
          = (visited, outcome)
          /\ match outcome with
             | inl final_state =>
                 opt_truthy (final_answer final_state) = true
             | inr e => exn_cls e = ValidationError
             end)
    /\ (forall s, (max_steps s <= current_step s)%Z ->
                  _should_continue s = "end").
Proof.
  intros recursion_limit checkpoint w query session_id.
  destruct (resume_ranking checkpoint query) as (M & C & _).
  assert (Left : cycles_left reasoning (resume checkpoint (initial_state query))
                 = 10).
  { unfold cycles_left, budget. rewrite M, C. reflexivity. }
  repeat split.
  - apply run_returns.
  - unfold ainvoke. destruct recursion_limit as [|k]; [unfold cycles; simpl; lia|].
    pose proof (supersteps_cycles (S k) w 0 reasoning
                  (resume checkpoint (initial_state query))) as B.
    rewrite Left in B. exact B.
  - intros L. unfold ainvoke.
    destruct recursion_limit as [|k]; [simpl in L; lia|].
    destruct (supersteps_completes (S k) w 0 reasoning
                (resume checkpoint (initial_state query)))
      as (visited & outcome & A & Fin).
    { unfold supersteps_left. rewrite Left. simpl in L. lia. }
    exists visited, outcome. split; [exact A|].
    destruct outcome as [s'|e]; [|exact Fin].
    destruct Fin as [Contra | T]; [discriminate | exact T].
  - intros s. apply _should_continue_verdict.
Qed.

(** C2 (final-answer precedence, as the code has it).  Once
    [final_answer] holds a non-empty text at some superstep of a run,
    every later configuration of the run holds the same answer, the
    reasoning node never runs again, and the conditional edge evaluates to
    ["end"] (the route to [final_output]).  On such a state the action node
    skips tool execution and forces [reflection_decision = "end"], the
    reflection node keeps the answer, and the final-output node passes it
    through. *)
Theorem final_answer_precedence :
  forall (w : World) (query : string) (i j : nat)
         (n_i n_j : Node) (s_i s_j : AgentState) (a : string),
    run_config w query i = Ok (n_i, s_i) ->
    run_config w query j = Ok (n_j, s_j) ->
    i <= j ->
    final_answer s_i = Some a ->
    a <> "" ->
    final_answer s_j = Some a
    /\ n_j <> reasoning
    /\ _should_continue s_j = "end"
    /\ route (_should_continue s_j) = Ok final_output
    /\ (forall ev,
          _action_node ev s_j = Ok (set_reflection_decision "end" s_j)
          /\ (exists s', _reflection_node ev s_j = Ok s'
                         /\ final_answer s' = Some a
                         /\ reflection_decision s' = "end")
          /\ _final_output_node ev s_j = Ok (append_message (AIMessage a) s_j)).
Proof.
  intros w query i j n_i n_j s_i s_j a Ci Cj Le Fa Ne.
  assert (T : opt_truthy (final_answer s_i) = true).
  { rewrite Fa. simpl. unfold str_truthy.
    destruct (String.eqb_spec a ""); [contradiction|reflexivity]. }
  replace j with ((j - i) + i) in Cj by lia.
  destruct (answer_kept _ _ _ _ _ Ci T _ _ _ Cj) as (Fj & NR).
  rewrite Fa in Fj.
  assert (Tj : opt_truthy (final_answer s_j) = true) by (now rewrite Fj, <- Fa).
  assert (Sa : str_truthy a = true) by (now rewrite Fj in Tj).
  destruct (_should_continue_verdict s_j) as (_ & _ & HT & _).
  repeat split; auto.
  - now rewrite HT.
  - unfold _action_node. now rewrite Tj.
  - destruct (_reflection_node_returns ev s_j) as (s' & R).
    exists s'. split; [exact R|].
    apply _reflection_node_effect in R as (_ & _ & Ht & _).
    destruct (Ht Tj) as (F' & D). split; congruence.
  - unfold _final_output_node. now rewrite Tj, Fj.
Qed.

(** C4 (index alignment).  In every configuration reached by a run,
    [tools_used] and [intermediate_results] have the same length and, at
    every index, the record's [tool_name] is the tool used; a superstep
    either leaves both sequences as they are, or is the action node
    extending both by one entry under the same tool name. *)
Theorem results_aligned_with_tools :
  forall (w : World) (query : string) (k : nat) (n : Node) (s : AgentState),
    run_config w query k = Ok (n, s) ->
    List.length (intermediate_results s) = List.length (tools_used s)
    /\ (forall i tool,
          nth_error (tools_used s) i = Some tool ->
          exists record,
            nth_error (intermediate_results s) i = Some record
            /\ dict_get "tool_name" record = Some (VStr tool))
    /\ (forall ev n' s',
          step ev n s = Ok (n', s') ->
          (tools_used s' = tools_used s
           /\ intermediate_results s' = intermediate_results s)
          \/ (n = action
              /\ exists record tool,
                   tools_used s' = append (tools_used s) tool
                   /\ intermediate_results s'
                      = append (intermediate_results s) record
                   /\ dict_get "tool_name" record = Some (VStr tool))).
Proof.
  intros w query k n s C.
  apply run_config_invariant in C as (A & _). unfold aligned in A.
  repeat split.
  - now apply Forall2_length in A.
  - intros i tool H. now apply (Forall2_nth_error_r _ _ _ _ _ A).
  - intros ev n' s' St.
    destruct (step_writes _ _ _ _ _ St) as [W | (E & record & tool & T & I & _ & N)];
      [now left|].
    right. split; [exact E|]. now exists record, tool.
Qed.

(** *** The dispatcher *)

Lemma error_record_fields : forall msg tool_name tool_input,
  dict_get "status" (error_record msg tool_name tool_input)
  = Some (VStr "error")
  /\ dict_get "tool_name" (error_record msg tool_name tool_input)
     = Some (VStr tool_name)
  /\ dict_get "error" (error_record msg tool_name tool_input)
     = Some (VStr msg).
Proof. intros. repeat split. Qed.

(** The body of the dispatcher returns exactly when the stages before the
    tool succeed, and then returns the dump of what [_arun] built. *)
Lemma _execute_tool_safely_body_spec : forall ev tool_name tool_input,
  match _execute_tool_safely_body ev tool_name tool_input with
  | inl record =>
      exists tool cls input kwargs r,
        lookup tool_name tools = Some tool
        /\ lookup tool_name TOOL_INPUT_MODELS = Some cls
        /\ json_loads tool_input = Ok (VDict input)
        /\ construct_input cls input = Ok kwargs
        /\ _arun ev tool kwargs = Ok r
        /\ record = ToolResult_model_dump r
  | inr _ => ~ dispatch_succeeds ev tool_name tool_input
  end.
Proof.
  intros ev tool_name tool_input.
  unfold _execute_tool_safely_body, dispatch_succeeds, bind, Raise, Ok.
  destruct (lookup tool_name tools) as [tool|] eqn:L;
    [|intros (? & ? & ? & ? & ? & ? & _); discriminate].
  destruct (lookup tool_name TOOL_INPUT_MODELS) as [cls|] eqn:M;
    [|intros (? & ? & ? & ? & ? & _ & ? & _); discriminate].
  destruct (json_loads tool_input) as [v|e] eqn:J;
    [|intros (? & ? & ? & ? & ? & _ & _ & ? & _); discriminate].
  destruct v as [| | | | | |input];
    try (intros (? & ? & ? & ? & ? & _ & _ & ? & _); discriminate).
  destruct (construct_input cls input) as [kwargs|e] eqn:C.
  - destruct (_arun_returns ev tool kwargs) as (r & A & _).
    unfold Ok in A. rewrite A.
    now exists tool, cls, input, kwargs, r.
  - intros (? & ? & ? & ? & ? & E0 & E1 & E2 & E3 & _). congruence.
Qed.

Lemma dispatcher_handlers : forall tool_name tool_input e,
  exists msg,
    select_handler
      [(is_JSONDecodeError,
        fun e => Ok (error_record ("Invalid JSON input: " ++ exn_str e)
                                  tool_name tool_input));
       (is_ValueError,
        fun e => Ok (error_record ("Input validation failed: " ++ exn_str e)
                                  tool_name tool_input));
       (is_Exception,
        fun e => Ok (error_record (exn_str e) tool_name tool_input))] e
    = Ok (error_record msg tool_name tool_input).
Proof.
  intros tool_name tool_input e. simpl.
  destruct (is_JSONDecodeError _); [now eexists|].
  destruct (is_ValueError _); now eexists.
Qed.

(** C3 (the dispatcher never raises).  For any tool name, registered or
    not, any input text and any behaviour of the tool,
    [_execute_tool_safely] returns a record: no exception leaves it.  The
    record has a [status] of ["success"] or ["error"] and carries the tool
    name: as its [tool_name] entry when the dispatcher built the record, as
    [metadata.tool_name] (the [name] of the registered tool) when [_arun]
    did, which is the name asked for when the registry files every tool
    under its own name (as [get_tools] does).  The status is ["success"]
    exactly when every stage succeeds; an unknown tool, a missing input
    model, a JSON decode failure, an input that is not an object, a
    validation failure and a fault of the tool all give ["error"]. *)
Theorem dispatcher_returns_record :
  forall (ev : Event) (tool_name tool_input : string),
  exists record,
    _execute_tool_safely ev tool_name tool_input = Ok record
    /\ (dict_get "status" record = Some (VStr "success")
        \/ dict_get "status" record = Some (VStr "error"))
    /\ (dict_get "tool_name" record = Some (VStr tool_name)
        \/ exists tool md,
             lookup tool_name tools = Some tool
             /\ dict_get "metadata" record = Some (VDict md)
             /\ dict_get "tool_name" md = Some (VStr (name tool)))
    /\ (keyed_by_name ->
        carried_tool_name record = Some (VStr tool_name))
    /\ (dict_get "status" record = Some (VStr "success")
        <-> dispatch_succeeds ev tool_name tool_input).
Proof.
  intros ev tool_name tool_input.
  pose proof (_execute_tool_safely_body_spec ev tool_name tool_input) as B.
  unfold _execute_tool_safely, try_.
  destruct (_execute_tool_safely_body ev tool_name tool_input) as [record|e].
  - destruct B as (tool & cls & input & kwargs & r & L & M & J & C & A & ->).
    destruct (_arun_returns ev tool kwargs) as (r' & A' & St & Md & Su).
    rewrite A in A'. unfold Ok in A'. inversion A'; subst r'; clear A'.
    exists (ToolResult_model_dump r). split; [reflexivity|]. simpl.
    split; [destruct St as [-> | ->]; auto|].
    split; [right; now exists tool, (metadata r)|].
    split; [intros K; unfold carried_tool_name; simpl;
            now rewrite Md, (K _ _ L)|].
    split.
    + intros H. assert (S1 : status r = "success") by congruence.
      apply Su in S1 as (d & E). now exists tool, cls, input, kwargs, d.
    + intros (tool' & cls' & input' & kwargs' & d & L' & M' & J' & C' & E).
      unfold Ok in *.
      assert (tool' = tool) by congruence. subst tool'.
      assert (cls' = cls) by congruence. subst cls'.
      assert (input' = input) by congruence. subst input'.
      assert (kwargs' = kwargs) by congruence. subst kwargs'.
      assert (S1 : status r = "success") by (apply Su; now exists d).
      now rewrite S1.
  - destruct (dispatcher_handlers tool_name tool_input e) as (msg & ->).
    exists (error_record msg tool_name tool_input).
    split; [reflexivity|]. simpl.
    split; [now right|]. split; [now left|]. split; [reflexivity|].
    split; [discriminate|]. intros D. contradiction.
Qed.

(** What the dispatcher returns is accepted by [ToolResult]. *)
Lemma dispatcher_record_valid : forall ev tool_name tool_input record,
  _execute_tool_safely ev tool_name tool_input = Ok record ->
  exists output, ToolResult_of_dict error_text record = Ok output.
Proof.
  intros ev tool_name tool_input record H.
  pose proof (_execute_tool_safely_body_spec ev tool_name tool_input) as B.
  unfold _execute_tool_safely, try_ in H.
  destruct (_execute_tool_safely_body ev tool_name tool_input) as [r0|e].
  - destruct B as (tool & cls & input & kwargs & r & _ & _ & _ & _ & _ & ->).
    unfold Ok in H. inversion H; subst. now eexists.
  - destruct (dispatcher_handlers tool_name tool_input e) as (msg & E).
    rewrite E in H. unfold Ok in H. inversion H; subst. now eexists.
Qed.

(** *** The formatter *)

(** C10 (a result without [status] or without [error]).  For every tool
    name and every result dictionary, [format_tool_result] treats a
    dictionary without a [status] key as an error result, and renders an
    error result without an [error] key as
    ["Tool {name} failed: Unknown error"].  The [ToolResult] that [_arun]
    builds when the tool raises has [status = "error"], [data = {}] and no
    top-level [error] key, so its dump is rendered that way. *)
Theorem format_tool_result_unknown_error :
  forall (tool_name : string) (tool_result : dict),
    (dict_get "status" tool_result = None ->
     exists why,
       format_tool_result tool_name tool_result
       = Ok ("Tool " ++ tool_name ++ " failed: " ++ why))
    /\ ((dict_get "status" tool_result = None
         \/ dict_get "status" tool_result = Some (VStr "error")) ->
        dict_get "error" tool_result = None ->
        format_tool_result tool_name tool_result
        = Ok ("Tool " ++ tool_name ++ " failed: Unknown error"))
    /\ (forall ev tool kwargs e,
          ev_execute ev tool kwargs = inr e ->
          exists r,
            _arun ev tool kwargs = Ok r
            /\ status r = "error"
            /\ data r = VDict []
            /\ dict_get "error" (ToolResult_model_dump r) = None
            /\ format_tool_result tool_name (ToolResult_model_dump r)
               = Ok ("Tool " ++ tool_name ++ " failed: Unknown error")).
Proof.
  intros tool_name tool_result. repeat split.
  - intros S. unfold format_tool_result, format_tool_result_body,
      dict_get_default. rewrite S. simpl. now eexists.
  - intros S E. unfold format_tool_result, format_tool_result_body,
      dict_get_default. rewrite E. now destruct S as [-> | ->].
  - intros ev tool kwargs e X. unfold _arun, try_, bind. rewrite X. simpl.
    eexists. split; [reflexivity|]. now repeat split.
Qed.

(** *** The reasoning node *)

(** C7 (the final-answer marker, as the code has it).  Let [text] be the
    reasoner's output.  When [text] carries the marker in its formatted
    form, ["**FINAL ANSWER**:"], the reasoning node sets [final_answer] to
    the text the pattern extracts after the leftmost marker (the rest of
    the first non-blank line, stripped) and [reflection_decision] to
    ["end"].  When it does not, be the bare words ["FINAL ANSWER"] present
    or not, the node leaves both fields as they were. *)
Theorem reasoning_final_answer_marker :
  forall (ev : Event) (state : AgentState) (text : string),
    reason ev = Ok text ->
    (contains "**FINAL ANSWER**:" text = true ->
     exists before rest state',
       cut "**FINAL ANSWER**:" text = Some (before, rest)
       /\ text = before ++ "**FINAL ANSWER**:" ++ rest
       /\ _reasoning_node ev state = Ok state'
       /\ final_answer state' = Some (strip (take_line (lstrip rest)))
       /\ reflection_decision state' = "end")
    /\ (contains "**FINAL ANSWER**:" text = false ->
        exists state',
          _reasoning_node ev state = Ok state'
          /\ final_answer state' = final_answer state
          /\ reflection_decision state' = reflection_decision state).
Proof.
  intros ev state text R. unfold _reasoning_node. rewrite R. unfold Ok.
  split; intros M.
  - rewrite (formatted_marker_contains_bare _ M).
    unfold contains in M. unfold search_final_answer.
    destruct (cut "**FINAL ANSWER**:" text) as [[before rest]|] eqn:C;
      [|discriminate].
    exists before, rest. eexists. split; [reflexivity|].
    split; [now apply cut_sound|]. split; [reflexivity|]. now split.
  - unfold contains in M. unfold search_final_answer.
    destruct (cut "**FINAL ANSWER**:" text) as [[before rest]|] eqn:C;
      [discriminate|].
    destruct (contains "FINAL ANSWER" text); eexists; split;
      try reflexivity; now split.
Qed.

(** *** The action node *)




Lemma step_record_fields : forall llm_response observation tool tool_result,
  dict_keys (step_record llm_response observation tool tool_result)
  = ["llm_output"; "observation"; "tool_name"; "success"]
  /\ dict_get "llm_output" (step_record llm_response observation tool tool_result)
     = Some (VStr llm_response)
  /\ dict_get "observation" (step_record llm_response observation tool tool_result)
     = Some (VStr observation)
  /\ dict_get "tool_name" (step_record llm_response observation tool tool_result)
     = Some (VStr tool)
  /\ dict_get "success" (step_record llm_response observation tool tool_result)
     = Some (VBool (match dict_get "status" tool_result with
                    | Some v => eq_str v "success"
                    | None => false
                    end))
  /\ dict_get "error_message"
       (step_record llm_response observation tool tool_result) = None.
Proof. intros. repeat split. Qed.

(** C8 (one record per dispatched action, as the code has it).  Every
    action step that dispatches a tool appends to [intermediate_results]
    exactly one record, and that record has exactly the four fields
    [llm_output], [observation], [tool_name] and [success]: the workflow
    writes no [error_message] field (the service's serializer supplies
    [error_message = None] when it copies the records out).  The sequence
    is append-only: a superstep leaves the existing records in place and
    adds at most one. *)
Theorem action_step_appends_record :
  (forall (ev : Event) (state : AgentState) (tool tool_input : string),
     opt_truthy (final_answer state) = false ->
     parse_tool_usage (last_content (messages state))
     = Ok (Some (tool, tool_input)) ->
     tool <> "" ->
     tool_input <> "" ->
     exists tool_result observation state',
       _execute_tool_safely ev tool tool_input = Ok tool_result
       /\ format_tool_result tool tool_result = Ok observation
       /\ _action_node ev state = Ok state'
       /\ intermediate_results state'
          = append (intermediate_results state)
              [("llm_output", VStr (last_content (messages state)));
               ("observation", VStr observation);
               ("tool_name", VStr tool);
               ("success",
                VBool (match dict_get "status" tool_result with
                       | Some v => eq_str v "success"
                       | None => false
                       end))]
       /\ tools_used state' = append (tools_used state) tool
       /\ current_step state' = (current_step state + 1)%Z)
  /\ (forall (ev : Event) (n n' : Node) (s s' : AgentState),
        step ev n s = Ok (n', s') ->
        exists extra,
          intermediate_results s' = (intermediate_results s ++ extra)%list
          /\ List.length extra <= 1
          /\ Forall (fun record =>
                       dict_keys record
                       = ["llm_output"; "observation"; "tool_name"; "success"])
                    extra)
  /\ (forall llm_response observation tool tool_result,
        _serialize_intermediate_results
          [step_record llm_response observation tool tool_result]
        = [(step_record llm_response observation tool tool_result
            ++ [("error_message", VNone)])%list]).
Proof.
  split; [|split].
  - intros ev state tool tool_input T P Nt Ni.
    destruct (_execute_tool_safely_returns ev tool tool_input)
      as (tool_result & X).
    destruct (format_tool_result_returns tool tool_result)
      as (observation & F).
    destruct (dispatcher_record_valid _ _ _ _ X) as (output & V).
    exists tool_result, observation. eexists.
    split; [exact X|]. split; [exact F|].
    unfold _action_node. rewrite T. unfold Ok in *. rewrite P.
    assert (TT : str_truthy tool && str_truthy tool_input = true).
    { unfold str_truthy.
      destruct (String.eqb_spec tool ""); [contradiction|].
      destruct (String.eqb_spec tool_input ""); [contradiction|reflexivity]. }
    rewrite TT, X, F, V. split; [reflexivity|]. now repeat split.
  - intros ev n n' s s' St.
    destruct (step_writes _ _ _ _ _ St)
      as [(_ & I) | (_ & record & tool & _ & I & K & _)].
    + exists []. rewrite I, app_nil_r. repeat split; auto.
    + exists [record]. rewrite I. repeat split; auto.
  - reflexivity.
Qed.

(** *** The reflection node *)

Ltac settle_evaluation :=
  match goal with
  | |- _ \/ _ =>
      first [ left; eexists _, _, _; split; [reflexivity|];
              split; [reflexivity|]; simpl; auto 6
            | right; split; [reflexivity|]; left; eexists; reflexivity
            | right; split; [reflexivity|]; right; eexists; reflexivity ]
  end.

(** The inner [try] of the reflection node: a valid verdict is returned
    as it is; anything else becomes the fall-back evaluation or an
    exception for the node's own handler. *)
Lemma parse_evaluation_cases : forall text,
  match json_loads text with
  | inl v =>
      (exists verdict r p,
         parse_evaluation text
         = Ok {| decision := verdict; eval_reason := r; updated_plan := p |}
         /\ valid_verdict v = true
         /\ (verdict = "continue" \/ verdict = "retry" \/ verdict = "end"))
      \/ (valid_verdict v = false
          /\ ((exists msg, parse_evaluation text = Ok (fallback_evaluation msg))
              \/ exists e, parse_evaluation text = inr e))
  | inr _ =>
      (exists msg, parse_evaluation text = Ok (fallback_evaluation msg))
      \/ exists e, parse_evaluation text = inr e
  end.
Proof.
  intros text. unfold parse_evaluation, fallback_evaluation, try_.
  destruct (json_loads text) as [v|e]; simpl.
  - destruct v as [| | | | s | l | d]; simpl;
      try (settle_evaluation; fail).
    + destruct (contains "decision" s); simpl; [|settle_evaluation].
      destruct (contains "reason" s); simpl; [|settle_evaluation].
      destruct (contains "updated_plan" s); simpl; settle_evaluation.
    + destruct (existsb _ l); simpl; [|settle_evaluation].
      destruct (existsb _ l); simpl; [|settle_evaluation].
      destruct (existsb _ l); simpl; settle_evaluation.
    + unfold dict_has.
      destruct (dict_get "decision" d) as [dv|] eqn:D; simpl;
        [|settle_evaluation].
      destruct (dict_get "reason" d) as [rv|] eqn:R; simpl;
        [|settle_evaluation].
      destruct (dict_get "updated_plan" d) as [pv|] eqn:P; simpl;
        [|settle_evaluation].
      destruct dv as [| | | | verdict | |]; simpl; try settle_evaluation.
      destruct (String.eqb_spec verdict "continue") as [->|]; simpl;
        [settle_evaluation|].
      destruct (String.eqb_spec verdict "retry") as [->|]; simpl;
        [settle_evaluation|].
      destruct (String.eqb_spec verdict "end") as [->|]; simpl;
        settle_evaluation.
  - destruct (is_ValueError (exn_cls e)); [left|right]; eexists; reflexivity.
Qed.

(** C6 (reflection fail-safe).  In the reflection node, when the state
    holds no answer and the collaborator's reply, once cleaned, does not
    decode to an object that has the three fields [decision], [reason] and
    [updated_plan] with a [decision] among ["continue"], ["retry"] and
    ["end"] (it is not JSON, it is not an object, a field is missing, or
    the decision is something else), the node sets
    [reflection_decision] to ["end"] and records one more reflection note
    that reports the failure.  Whatever happens, the decision the node
    leaves in the state is one of the three valid values. *)
Theorem reflection_fail_safe :
  (forall (ev : Event) (state : AgentState) (text : string),
     opt_truthy (final_answer state) = false ->
     ev_chat ev = Ok text ->
     (forall v, json_loads (clean_evaluation text) = Ok v ->
                valid_verdict v = false) ->
     exists state' msg,
       _reflection_node ev state = Ok state'
       /\ reflection_decision state' = "end"
       /\ (reflection_notes state'
           = append (reflection_notes state)
               ("LLM Evaluation: Failed to parse LLM evaluation: " ++ msg)
           \/ reflection_notes state'
              = append (reflection_notes state)
                  ("Error during reflection: " ++ msg)))
  /\ (forall (ev : Event) (state : AgentState),
        exists state',
          _reflection_node ev state = Ok state'
          /\ In (reflection_decision state') ["continue"; "retry"; "end"]).
Proof.
  split.
  - intros ev state text T C Bad. unfold _reflection_node.
    rewrite T. unfold Ok in C. rewrite C.
    pose proof (parse_evaluation_cases (clean_evaluation text)) as Cases.
    destruct (json_loads (clean_evaluation text)) as [v|e0] eqn:J.
    + specialize (Bad v eq_refl).
      destruct Cases as [(? & ? & ? & _ & V & _) | (_ & Cases)];
        [congruence|].
      destruct Cases as [(msg & ->) | (e & ->)].
      * eexists. exists msg. split; [reflexivity|]. split; [reflexivity|].
        left. reflexivity.
      * eexists. exists (exn_str e). split; [reflexivity|].
        split; [reflexivity|]. now right.
    + destruct Cases as [(msg & ->) | (e & ->)].
      * eexists. exists msg. split; [reflexivity|]. split; [reflexivity|].
        left. reflexivity.
      * eexists. exists (exn_str e). split; [reflexivity|].
        split; [reflexivity|]. now right.
  - intros ev state. unfold _reflection_node.
    destruct (opt_truthy (final_answer state)).
    { eexists. split; [reflexivity|]. simpl. auto 6. }
    destruct (ev_chat ev) as [text|e].
    2:{ eexists. split; [reflexivity|]. simpl. auto 6. }
    pose proof (parse_evaluation_cases (clean_evaluation text)) as Cases.
    assert (Shape :
      (exists verdict r p,
         parse_evaluation (clean_evaluation text)
         = Ok {| decision := verdict; eval_reason := r; updated_plan := p |}
         /\ (verdict = "continue" \/ verdict = "retry" \/ verdict = "end"))
      \/ exists e, parse_evaluation (clean_evaluation text) = inr e).
    { destruct (json_loads (clean_evaluation text)).
      - destruct Cases as [(verdict & r & p & E & _ & V) | (_ & [(msg & E) | E])].
        + left. now exists verdict, r, p.
        + left. eexists _, _, _. split; [exact E|]. auto.
        + now right.
      - destruct Cases as [(msg & E) | E].
        + left. eexists _, _, _. split; [exact E|]. auto.
        + now right. }
    destruct Shape as [(verdict & r & p & -> & V) | (e & ->)].
    + unfold Ok. destruct V as [-> | [-> | ->]]; simpl;
        eexists; (split; [reflexivity|]); simpl; auto 6.
    + eexists. split; [reflexivity|]. simpl. auto 6.
Qed.

(** *** The action parser *)

(** [parse_tool_usage] without its exceptions. *)
Lemma parse_tool_usage_eval : forall message,
  parse_tool_usage message
  = Ok (match search_json_block message with
        | None => None
        | Some block =>
            match json_loads block with
            | inl (VDict d) =>
                match dict_get "action" d, dict_get "input" d with
                | Some act, Some input =>
                    match first_if_sequence act with
                    | VStr tool =>
                        if str_truthy tool then
                          match lookup tool tools with
                          | Some _ => Some (tool, json_dumps input)
                          | None => None
                          end
                        else None
                    | _ => None
                    end
                | _, _ => None
                end
            | _ => None
            end
        end).
Proof.
  intros message. unfold parse_tool_usage, parse_tool_usage_body, try_.
  destruct (search_json_block message) as [block|]; [|reflexivity].
  destruct (json_loads block) as [v|e]; simpl.
  2:{ now destruct (is_JSONDecodeError (exn_cls e)). }
  destruct v as [| | | | | |d]; try reflexivity.
  unfold dict_has.
  destruct (dict_get "action" d) as [action|] eqn:A; simpl; [|reflexivity].
  destruct (dict_get "input" d) as [input|] eqn:I; simpl; [|reflexivity].
  rewrite A. simpl.
  destruct action as [| | | | tool | [|first others] |]; simpl;
    try reflexivity.
  - destruct (str_truthy tool); simpl; [|reflexivity].
    destruct (lookup tool tools); simpl; [|reflexivity].
    rewrite ?I. reflexivity.
  - destruct first as [| | | | tool | |]; simpl; try reflexivity.
    destruct (str_truthy tool); simpl; [|reflexivity].
    destruct (lookup tool tools); simpl; [|reflexivity].
    rewrite ?I. reflexivity.
Qed.

Lemma names_tool_iff : forall action tool,
  names_tool action tool
  <-> (first_if_sequence action = VStr tool
       /\ str_truthy tool = true
       /\ exists t, lookup tool tools = Some t).
Proof.
  intros action tool. unfold names_tool, str_truthy. split.
  - intros ([-> | (others & ->)] & N & L);
      (split; [reflexivity|]);
      (split; [destruct (String.eqb_spec tool ""); [contradiction|reflexivity]|]);
      destruct (lookup tool tools) as [t|]; [now exists t|contradiction
                                            |now exists t|contradiction].
  - intros (F & T & (t & L)). split; [|split].
    + destruct action as [| | | | s | [|first others] |]; simpl in F;
        try discriminate.
      * left. congruence.
      * right. exists others. congruence.
    + intros ->. discriminate.
    + rewrite L. discriminate.
Qed.

(** C5 (the action parser, as the code has it).  For every text,
    [parse_tool_usage] returns, and it returns a tool name with a payload
    exactly when the text carries an action for it: the first fenced json
    block decodes to an object that has an [action] field naming a
    registered tool (the name itself, or a sequence whose first element is
    the name) and an [input] field, and the payload is that input
    serialized again.  Fields other than [action] and [input] are not
    looked at.  In every other case (no fenced block, malformed JSON, not
    an object, a field missing, an action that names no registered tool)
    it returns [(None, None)]. *)
Theorem parse_tool_usage_carries_action :
  forall (message : string),
    (exists r, parse_tool_usage message = Ok r)
    /\ (forall tool payload,
          parse_tool_usage message = Ok (Some (tool, payload))
          <-> carries_action message tool payload)
    /\ (parse_tool_usage message = Ok None
        <-> ~ exists tool payload, carries_action message tool payload).
Proof.
  intros message.
  assert (Some_iff : forall tool payload,
            parse_tool_usage message = Ok (Some (tool, payload))
            <-> carries_action message tool payload).
  { intros tool payload. rewrite parse_tool_usage_eval.
    unfold carries_action, Ok. split.
    - intros H.
      destruct (search_json_block message) as [block|]; [|discriminate].
      destruct (json_loads block) as [v|e] eqn:J; [|discriminate].
      destruct v as [| | | | | |d]; try discriminate.
      destruct (dict_get "action" d) as [action|] eqn:A; [|discriminate].
      destruct (dict_get "input" d) as [input|] eqn:I; [|discriminate].
      destruct (first_if_sequence action) as [| | | | name| |] eqn:F;
        try discriminate.
      destruct (str_truthy name) eqn:T; [|discriminate].
      destruct (lookup name tools) as [t|] eqn:L; [|discriminate].
      inversion H; subst.
      exists block, d, action, input.
      split; [reflexivity|]. split; [exact J|]. split; [exact A|].
      split; [exact I|]. split; [|reflexivity].
      apply names_tool_iff. split; [exact F|]. split; [exact T|].
      now exists t.
    - intros (block & d & action & input & -> & J & A & I & N & ->).
      unfold Ok in J. rewrite J, A, I.
      apply names_tool_iff in N as (-> & -> & (t & ->)). reflexivity. }
  split; [apply parse_tool_usage_returns|]. split; [exact Some_iff|].
  destruct (parse_tool_usage_returns message) as ([[tool payload]|] & R).
  - rewrite R. unfold Ok. split; [discriminate|].
    intros N. exfalso. apply N. exists tool, payload. now apply Some_iff.
  - split; [|intros _; exact R].
    intros _ (tool & payload & C). apply Some_iff in C.
    rewrite R in C. unfold Ok in C. discriminate.
Qed.

(* ------------------------------------------------------------------ *)
(** ** Further properties of the loop                                   *)
(* ------------------------------------------------------------------ *)

(** *** The reasoning node *)

(** The reasoner's turn: the collaborator's reply, or its fault as a
    text. *)
Lemma reason_text : forall ev,
  reason ev
  = Ok (match ev_chat ev with
        | inl reply => reply
        | inr e => "Error: " ++ exn_str e
        end).
Proof.
  intros ev. unfold reason, try_. now destruct (ev_chat ev).
Qed.

(** The reasoning node uses up no step and writes no note. *)
Lemma _reasoning_node_frame : forall ev s s',
  _reasoning_node ev s = Ok s' ->
  current_step s' = current_step s
  /\ reflection_notes s' = reflection_notes s
  /\ exists text, messages s' = append (messages s) (AIMessage text).
Proof.
  intros ev s s' H. unfold _reasoning_node in H.
  rewrite reason_text in H. unfold Ok in H.
  repeat break_match_in H; inversion H; subst; clear H; simpl;
    repeat split; eexists; reflexivity.
Qed.

(** X1.  Reasoning node: what one pass does to the state.  A fault of the chat
    collaborator does not fail the node: [reason] turns it into the text
    ["Error: ..."], which becomes the agent's turn like any reply.  The
    pass appends exactly that one message, installs the default plan and
    sub-goals where the state has none (and keeps them otherwise), and
    leaves the step counter, the tool list, the records and the notes as
    they were. *)
Theorem reasoning_node_appends_turn :
  forall (ev : Event) (state : AgentState),
  exists text state',
    reason ev = Ok text
    /\ text = match ev_chat ev with
              | inl reply => reply
              | inr e => "Error: " ++ exn_str e
              end
    /\ _reasoning_node ev state = Ok state'
    /\ messages state' = append (messages state) (AIMessage text)
    /\ current_step state' = current_step state
    /\ plan state' = (if truthy (plan state) then plan state
                      else VStr DEFAULT_PLAN)
    /\ sub_goals state' = match sub_goals state with
                          | [] => DEFAULT_SUB_GOALS
                          | goals => goals
                          end
    /\ tools_used state' = tools_used state
    /\ intermediate_results state' = intermediate_results state
    /\ reflection_notes state' = reflection_notes state
    /\ max_steps state' = max_steps state.
Proof.
  intros ev state.
  remember (match ev_chat ev with
            | inl reply => reply
            | inr e => "Error: " ++ exn_str e
            end) as text eqn:Etext.
  exists text.
  assert (R : reason ev = Ok text) by (rewrite reason_text; now subst).
  unfold _reasoning_node. rewrite R. unfold Ok.
  destruct (contains "FINAL ANSWER" text);
    [destruct (search_final_answer text)|];
    eexists; (split; [reflexivity|]); (split; [reflexivity|]);
    (split; [reflexivity|]); simpl; repeat split.
Qed.

(** *** Counting over a run *)

Lemma _reflection_node_frame : forall ev s s',
  _reflection_node ev s = Ok s' ->
  (exists note, reflection_notes s' = append (reflection_notes s) note)
  /\ (current_step s' = current_step s
      \/ current_step s' = (current_step s + 1)%Z)
  /\ (messages s' = messages s
      \/ exists text, messages s' = append (messages s) (AIMessage text)).
Proof.
  intros ev s s' H. unfold _reflection_node in H.
  repeat break_match_in H; unfold Ok in H; inversion H; subst; clear H;
    simpl; (split; [eexists; reflexivity|]); split; auto;
    right; eexists; reflexivity.
Qed.

Lemma _action_node_frame : forall ev s s',
  _action_node ev s = Ok s' ->
  reflection_notes s' = reflection_notes s
  /\ (messages s' = messages s
      \/ exists text, messages s' = append (messages s) (AIMessage text)).
Proof.
  intros ev s s' H. unfold _action_node in H.
  repeat break_match_in H;
    try match goal with
        | X : _execute_tool_safely _ _ _ = inl ?d,
          V : ToolResult_of_dict _ ?d = inr _ |- _ =>
            destruct (dispatcher_record_valid _ _ _ _ X) as (? & V');
            rewrite V' in V; discriminate
        end;
    unfold Ok in H; inversion H; subst; clear H;
    simpl; (split; [reflexivity|]); auto; right; eexists; reflexivity.
Qed.

Lemma _final_output_node_frame : forall ev s s',
  _final_output_node ev s = Ok s' ->
  reflection_notes s' = reflection_notes s
  /\ exists text, messages s' = append (messages s) (AIMessage text).
Proof.
  intros ev s s' H. unfold _final_output_node in H.
  repeat break_match_in H; unfold Ok in H; inversion H; subst; clear H;
    simpl; (split; [reflexivity|]); eexists; reflexivity.
Qed.

(** What a superstep does to the notes and to the history. *)
Lemma step_frame : forall ev n s n' s',
  step ev n s = Ok (n', s') ->
  (if node_eqb n reflection
   then exists note, reflection_notes s' = append (reflection_notes s) note
   else reflection_notes s' = reflection_notes s)
  /\ (messages s' = messages s
      \/ exists text, messages s' = append (messages s) (AIMessage text)).
Proof.
  intros ev n s n' s' H. destruct n; simpl in H.
  - destruct (_reasoning_node ev s) eqn:R; simpl in H; [|discriminate].
    unfold Ok in H. inversion H; subst.
    apply _reasoning_node_frame in R as (_ & N & M). simpl. auto.
  - destruct (_action_node ev s) eqn:A; simpl in H; [|discriminate].
    unfold Ok in H. inversion H; subst.
    apply _action_node_frame in A as (N & M). simpl. auto.
  - destruct (_reflection_node ev s) eqn:F; simpl in H; [|discriminate].
    destruct (route _); simpl in H; [|discriminate].
    unfold Ok in H. inversion H; subst.
    apply _reflection_node_frame in F as (N & _ & M). simpl. auto.
  - destruct (_final_output_node ev s) eqn:O; simpl in H; [|discriminate].
    unfold Ok in H. inversion H; subst.
    apply _final_output_node_frame in O as (N & M). simpl. auto.
  - unfold Ok in H. inversion H; subst. simpl. auto.
Qed.

Lemma run_config_state : forall w query k,
  run_config w query k
  = Ok (node_of (run_config w query k), state_of (run_config w query k)).
Proof.
  intros w query k. destruct (run_config_returns w query k) as (n & s & ->).
  reflexivity.
Qed.

Lemma run_config_step : forall w query k,
  step (w k) (node_of (run_config w query k)) (state_of (run_config w query k))
  = run_config w query (S k).
Proof.
  intros w query k. rewrite run_config_succ.
  rewrite (run_config_state w query k) at 3. reflexivity.
Qed.

(** X2.  One reflection note per reflection pass.  After any number of
    supersteps of a run, [reflection_notes] holds exactly as many notes
    as the reflection node has run: each pass (skipped, evaluated or
    failed) appends one note, and no other node writes a note. *)
Theorem reflection_notes_count_passes :
  forall (w : World) (query : string) (k : nat),
    List.length (reflection_notes (state_of (run_config w query k)))
    = visits reflection w query k.
Proof.
  intros w query k. induction k as [|k IH]; [reflexivity|].
  simpl visits. rewrite <- IH.
  pose proof (run_config_step w query k) as St.
  rewrite (run_config_state w query (S k)) in St.
  apply step_frame in St as (N & _).
  destruct (node_eqb (node_of (run_config w query k)) reflection).
  - destruct N as (note & ->). unfold append. rewrite length_app. reflexivity.
  - rewrite N. lia.
Qed.

(** The final state of a driver run that returned is a configuration
    standing at [END]: the driver only stops runs short. *)
Lemma supersteps_reaches : forall k w start t n s visited s',
  config_at w t start = Ok (n, s) ->
  supersteps k w t n s = (visited, Ok s') ->
  exists j, config_at w j start = Ok (END, s').
Proof.
  induction k as [|k IH]; intros w start t n s visited s' C A.
  - simpl in A. unfold Raise, Ok in A. inversion A.
  - assert (NE : n = END \/ n <> END) by (destruct n; auto; right; discriminate).
    destruct NE as [-> | NE].
    { simpl in A. unfold Ok in A. inversion A; subst. now exists t. }
    rewrite supersteps_unfold in A by exact NE.
    destruct (validate s); [|unfold Ok in A; inversion A].
    destruct (step (w t) n s) as [[n' s1]|e] eqn:St;
      [|unfold Ok in A; inversion A].
    destruct (match n with reflection => validate s1 | _ => Ok s1 end);
      [|unfold Ok in A; inversion A].
    destruct (supersteps k w (S t) n' s1) as [v o] eqn:A'.
    unfold Ok in A. inversion A; subst.
    apply (IH w start (S t) n' s1 v s'); [|exact A'].
    simpl. rewrite C. simpl. exact St.
Qed.

Lemma config_at_pred : forall w start k n' s',
  config_at w (S k) start = Ok (n', s') ->
  exists n s, config_at w k start = Ok (n, s)
              /\ step (w k) n s = Ok (n', s').
Proof.
  intros w start k n' s' H. simpl in H.
  destruct (config_at w k start) as [[n s]|e]; simpl in H; [|discriminate].
  now exists n, s.
Qed.

Lemma within_budget_step : forall ev n s n' s',
  step ev n s = Ok (n', s') ->
  within_budget n s ->
  within_budget n' s'.
Proof.
  intros ev n s n' s' H (M & C0 & T & T10 & B).
  pose proof (step_writes _ _ _ _ _ H) as W.
  destruct n; simpl in H.
  - destruct (_reasoning_node ev s) as [s1|] eqn:R; simpl in H; [|discriminate].
    unfold Ok in H. inversion H; subst; clear H.
    pose proof R as R'. apply _reasoning_node_frame in R' as (C & _).
    apply _reasoning_node_effect in R as (M' & _ & Tu & _).
    unfold within_budget. rewrite M', C, Tu. auto.
  - destruct (_action_node ev s) as [s1|] eqn:A; simpl in H; [|discriminate].
    unfold Ok in H. inversion H; subst; clear H.
    apply _action_node_effect in A as (M' & Ht & Hf & _).
    unfold within_budget. rewrite M'.
    destruct (opt_truthy (final_answer s)) eqn:Fa.
    + rewrite (Ht eq_refl). simpl. repeat split; auto; lia.
    + rewrite (Hf eq_refl).
      destruct W as [(Tu & _) | (_ & record & tool & Tu & _)]; rewrite Tu.
      * repeat split; auto; lia.
      * unfold append. rewrite length_app. simpl. repeat split; auto; lia.
  - destruct (_reflection_node ev s) as [s1|] eqn:F; simpl in H; [|discriminate].
    pose proof F as F'. apply _reflection_node_frame in F' as (_ & C & _).
    apply _reflection_node_effect in F as (M' & _ & _ & Tu & _).
    destruct (_should_continue_verdict s1) as ([E | E] & HC & _);
      rewrite E in H; simpl in H; unfold Ok in H; inversion H; subst; clear H;
      unfold within_budget; rewrite M', Tu.
    + repeat split; auto; destruct C as [-> | ->]; lia.
    + destruct (HC E) as (_ & Lt). rewrite M', M in Lt.
      repeat split; auto; destruct C as [C | C]; rewrite C in *; lia.
  - destruct (_final_output_node ev s) as [s1|] eqn:O; simpl in H; [|discriminate].
    unfold Ok in H. inversion H; subst; clear H.
    apply _final_output_node_effect in O as (M' & C & _ & _ & Tu & _).
    unfold within_budget. rewrite M', C, Tu. auto.
  - unfold Ok in H. inversion H; subst. unfold within_budget. auto.
Qed.

Lemma run_config_within_budget : forall w query k n s,
  run_config w query k = Ok (n, s) -> within_budget n s.
Proof.
  intros w query k. induction k as [|k IH]; intros n s H.
  - unfold run_config in H. simpl in H. unfold Ok in H. inversion H; subst.
    unfold within_budget. simpl. repeat split; lia.
  - apply run_config_pred in H as (n0 & s0 & C & St).
    eapply within_budget_step; eauto.
Qed.

Lemma config_at_within_budget : forall w start k n s,
  within_budget (fst start) (snd start) ->
  config_at w k start = Ok (n, s) -> within_budget n s.
Proof.
  intros w start k. induction k as [|k IH]; intros n s B H.
  - simpl in H. unfold Ok in H. inversion H; subst. exact B.
  - apply config_at_pred in H as (n0 & s0 & C & St).
    eapply within_budget_step; eauto.
Qed.

Lemma config_at_aligned : forall w start k n s,
  aligned (snd start) ->
  config_at w k start = Ok (n, s) -> aligned s.
Proof.
  intros w start k. induction k as [|k IH]; intros n s A H.
  - simpl in H. unfold Ok in H. inversion H; subst. exact A.
  - apply config_at_pred in H as (n0 & s0 & C & St).
    specialize (IH _ _ A C).
    destruct (step_writes _ _ _ _ _ St)
      as [(T & I) | (_ & record & tool & T & I & _ & N)].
    + unfold aligned in *. now rewrite T, I.
    + exact (aligned_append s0 s record tool IH T I N).
Qed.

(** What the final state of the graph satisfies, whatever the limit and
    the thread. *)
Lemma ainvoke_final_state :
  forall recursion_limit checkpoint w query visited final_state,
    ainvoke recursion_limit checkpoint w (initial_state query)
    = (visited, Ok final_state) ->
    (0 <= current_step final_state <= 11)%Z
    /\ List.length (tools_used final_state) <= 10
    /\ List.length (intermediate_results final_state)
       = List.length (tools_used final_state).
Proof.
  intros limit checkpoint w query visited final_state A.
  unfold ainvoke in A.
  destruct limit as [|k]; [unfold Raise, Ok in A; inversion A|].
  destruct (resume_ranking checkpoint query) as (M & C & T & I & _).
  destruct (supersteps_reaches (S k) w
              (reasoning, resume checkpoint (initial_state query))
              0 reasoning (resume checkpoint (initial_state query))
              visited final_state eq_refl A) as (j & Cj).
  pose proof Cj as Cj'.
  apply config_at_within_budget in Cj as (_ & C0 & _ & T10 & B).
  2:{ unfold within_budget. cbn [fst snd]. rewrite M, C, T. simpl.
      repeat split; lia. }
  apply config_at_aligned in Cj'.
  2:{ unfold aligned. cbn [snd]. rewrite T, I. constructor. }
  apply Forall2_length in Cj'.
  repeat split; auto; lia.
Qed.

(** X3.  The step counter and the number of tool calls of a run.  In every
    configuration of a run the ceiling is 10, the step counter lies
    between 0 and 11 (a fault of the reflection node at the ceiling takes
    it one past [max_steps]), every tool call has used up a step, and at
    most 10 tools have been called.  The record [run] returns obeys the
    same bounds, and lists as many records as tools, on every thread;
    so does the final state of the graph under every recursion limit. *)
Theorem step_counter_bounds :
  (forall (w : World) (query : string) (k : nat),
     max_steps (state_of (run_config w query k)) = 10%Z
     /\ (0 <= current_step (state_of (run_config w query k)) <= 11)%Z
     /\ (Z.of_nat (List.length (tools_used (state_of (run_config w query k))))
         <= current_step (state_of (run_config w query k)))%Z
     /\ List.length (tools_used (state_of (run_config w query k))) <= 10)
  /\ (forall (checkpoint : option AgentState) (w : World) (query : string)
             (session_id : option string),
      exists r,
        run checkpoint w query session_id = Ok r
        /\ (0 <= md_steps (run_metadata r) <= 11)%Z
        /\ List.length (md_tools_used (run_metadata r)) <= 10
        /\ List.length (md_intermediate_results (run_metadata r))
           = List.length (md_tools_used (run_metadata r)))
  /\ (forall (recursion_limit : nat) (checkpoint : option AgentState)
             (w : World) (query : string) visited final_state,
        ainvoke recursion_limit checkpoint w (initial_state query)
        = (visited, Ok final_state) ->
        (0 <= current_step final_state <= 11)%Z
        /\ List.length (tools_used final_state) <= 10
        /\ List.length (intermediate_results final_state)
           = List.length (tools_used final_state)).
Proof.
  split; [|split].
  - intros w query k.
    pose proof (run_config_within_budget w query k _ _
                  (run_config_state w query k)) as (M & C0 & T & T10 & B).
    repeat split; auto.
    destruct (node_of (run_config w query k)); lia.
  - intros checkpoint w query session_id. unfold run, run_body, try_, bind.
    destruct (ainvoke DEFAULT_RECURSION_LIMIT checkpoint w
                      (initial_state query))
      as [visited [final_state|e]] eqn:A; simpl.
    + apply ainvoke_final_state in A as (C0 & T10 & Al).
      destruct (plan final_state); simpl;
        try (eexists; split; [reflexivity|]; simpl; repeat split; lia).
      destruct (final_answer final_state) as [text|]; simpl;
        [destruct (str_truthy text); simpl|];
        eexists; (split; [reflexivity|]); simpl; repeat split; auto; lia.
    + eexists. split; [reflexivity|]. simpl. repeat split; lia.
  - intros limit checkpoint w query visited final_state A.
    now apply ainvoke_final_state in A.
Qed.

Lemma history_of_step : forall query ev n s n' s',
  step ev n s = Ok (n', s') ->
  history_of query s ->
  history_of query s'.
Proof.
  intros query ev n s n' s' H (turns & M & F).
  apply step_frame in H as (_ & [E | (text & E)]).
  - exists turns. now rewrite E.
  - exists (turns ++ [AIMessage text])%list. rewrite E, M. split; [reflexivity|].
    apply Forall_app. split; [exact F|]. now constructor.
Qed.

Lemma run_config_history : forall w query k n s,
  run_config w query k = Ok (n, s) -> history_of query s.
Proof.
  intros w query k. induction k as [|k IH]; intros n s H.
  - unfold run_config in H. simpl in H. unfold Ok in H. inversion H; subst.
    exists []. split; [reflexivity|constructor].
  - apply run_config_pred in H as (n0 & s0 & C & St).
    eapply history_of_step; eauto.
Qed.

Lemma flat_map_turns : forall turns,
  Forall (fun m => is_ai m = true) turns ->
  flat_map (fun msg =>
              match msg with
              | HumanMessage c => [HumanMessage c]
              | AIMessage c => [AIMessage c]
              | SystemMessage _ => []
              end) turns = turns.
Proof.
  intros turns F. induction F as [|m turns Hm F IH]; [reflexivity|].
  simpl. rewrite IH. destruct m; try discriminate. reflexivity.
Qed.

(** X4.  The history of a run.  In every configuration of a run, [messages]
    starts with the user's query as a human message and continues with AI
    messages only; a superstep leaves the history as it is or appends one
    AI message to it, and never rewrites it.  Hence the conversation that
    [_prepare_conversation_with_history] builds for the reasoner is the
    system prompt followed by the whole history, nothing left out, and
    the query that the synthesis of the final answer reads from
    [messages[0]] is the user's: the synthesis returns the no-query
    answer exactly for an empty query, and otherwise the apology when the
    chat collaborator faults, the empty-answer text when the cleaned reply
    is empty, and the cleaned reply in every other case. *)
Theorem history_starts_with_query :
  forall (w : World) (query : string) (k : nat),
    (exists turns,
       messages (state_of (run_config w query k)) = HumanMessage query :: turns
       /\ Forall (fun m => is_ai m = true) turns
       /\ List.length turns <= k)
    /\ (messages (state_of (run_config w query (S k)))
        = messages (state_of (run_config w query k))
        \/ exists text,
             messages (state_of (run_config w query (S k)))
             = append (messages (state_of (run_config w query k)))
                      (AIMessage text))
    /\ (forall system_prompt,
          _prepare_conversation_with_history system_prompt
            (state_of (run_config w query k))
          = SystemMessage system_prompt
            :: messages (state_of (run_config w query k)))
    /\ (forall ev,
          _generate_final_answer ev (state_of (run_config w query k))
          = Ok (if str_truthy query then
                  match ev_chat ev with
                  | inl text =>
                      if str_truthy
                           (sub_empty any_fence_len true 0 (strip text))
                      then sub_empty any_fence_len true 0 (strip text)
                      else EMPTY_ANSWER
                  | inr _ => SYNTHESIS_APOLOGY
                  end
                else NO_QUERY_ANSWER)).
Proof.
  intros w query k.
  assert (Step : forall j,
            messages (state_of (run_config w query (S j)))
            = messages (state_of (run_config w query j))
            \/ exists text,
                 messages (state_of (run_config w query (S j)))
                 = append (messages (state_of (run_config w query j)))
                          (AIMessage text)).
  { intros j. pose proof (run_config_step w query j) as St.
    rewrite (run_config_state w query (S j)) in St.
    now apply step_frame in St as (_ & M). }
  destruct (run_config_history w query k _ _ (run_config_state w query k))
    as (turns & M & F).
  split; [|split; [apply Step|split]].
  - exists turns. split; [exact M|]. split; [exact F|].
    assert (L : List.length (messages (state_of (run_config w query k)))
                <= S k).
    { clear M F turns. induction k as [|k IH]; [simpl; lia|].
      destruct (Step k) as [E | (text & E)]; rewrite E.
      - assert (K := IH). lia.
      - unfold append. rewrite length_app. simpl. lia. }
    rewrite M in L. simpl in L. lia.
  - intros system_prompt. unfold _prepare_conversation_with_history.
    rewrite M. simpl. now rewrite flat_map_turns.
  - intros ev. unfold _generate_final_answer, try_, bind.
    rewrite M. simpl content.
    destruct (str_truthy query); [|reflexivity].
    destruct (ev_chat ev) as [text|e]; [|reflexivity].
    cbv beta iota. unfold negb.
    now destruct (str_truthy (sub_empty any_fence_len true 0 (strip text))).
Qed.

(** *** Whole runs *)

(** One superstep of the driver on a state that passes the validation. *)
Lemma supersteps_S : forall k w t n s n' s',
  n <> END ->
  validate s = Ok s ->
  step (w t) n s = Ok (n', s') ->
  (n = reflection -> validate s' = Ok s') ->
  supersteps (S k) w t n s
  = (n :: fst (supersteps k w (S t) n' s'),
     snd (supersteps k w (S t) n' s')).
Proof.
  intros k w t n s n' s' NE V St V'.
  rewrite supersteps_unfold by exact NE.
  unfold Ok in *. rewrite V, St.
  destruct (supersteps k w (S t) n' s') as [visited outcome].
  destruct n; try reflexivity; try congruence.
  now rewrite V'.
Qed.

(** A run that completes took fewer nodes than the recursion limit. *)
Lemma supersteps_nodes : forall k w t n s visited s',
  supersteps k w t n s = (visited, Ok s') -> length visited + 1 <= k.
Proof.
  induction k as [|k IH]; intros w t n s visited s' H.
  { simpl in H. unfold Raise, Ok in H. inversion H. }
  assert (NE : n = END \/ n <> END) by (destruct n; auto; right; discriminate).
  destruct NE as [-> | NE].
  { rewrite supersteps_END in H. inversion H; subst. simpl. lia. }
  rewrite supersteps_unfold in H by exact NE.
  destruct (validate s); [|inversion H].
  destruct (step (w t) n s) as [[n' s'']|e]; [|inversion H].
  destruct (match n with reflection => validate s'' | _ => Ok s'' end);
    [|inversion H].
  destruct (supersteps k w (S t) n' s'') as [rest outcome] eqn:A.
  inversion H; subst. apply IH in A. simpl. lia.
Qed.

(** A higher recursion limit does not change a run that completes. *)
Lemma supersteps_mono : forall k k' w t n s visited s',
  supersteps k w t n s = (visited, Ok s') ->
  k <= k' ->
  supersteps k' w t n s = (visited, Ok s').
Proof.
  induction k as [|k IH]; intros k' w t n s visited s' H L.
  { simpl in H. unfold Raise, Ok in H. inversion H. }
  destruct k' as [|k']; [lia|].
  assert (NE : n = END \/ n <> END) by (destruct n; auto; right; discriminate).
  destruct NE as [-> | NE].
  { rewrite supersteps_END in *. exact H. }
  rewrite supersteps_unfold in * by exact NE.
  destruct (validate s); [|inversion H].
  destruct (step (w t) n s) as [[n' s'']|e]; [|inversion H].
  destruct (match n with reflection => validate s'' | _ => Ok s'' end);
    [|inversion H].
  destruct (supersteps k w (S t) n' s'') as [rest outcome] eqn:A.
  inversion H; subst.
  now rewrite (IH k' w (S t) n' s'' rest s' A ltac:(lia)).
Qed.

Lemma last_content_append : forall ms m,
  last_content (append ms m) = content m.
Proof.
  intros ms m. unfold last_content, append.
  rewrite map_app. simpl. now rewrite last_last.
Qed.

Lemma str_truthy_iff : forall text, str_truthy text = true <-> text <> "".
Proof.
  intros text. unfold str_truthy.
  destruct (String.eqb_spec text ""); split; intros H;
    try reflexivity; try discriminate; try assumption; contradiction.
Qed.

(** With a non-empty answer in place, the rest of the run is fixed: the
    action node only forces the decision, the reflection node notes that
    it was skipped, the edge goes to [final_output], and that node repeats
    the answer as a message.  The three nodes need a limit of four. *)
Lemma supersteps_answered : forall k w t s a goal,
  4 <= k ->
  plan s = VStr goal ->
  final_answer s = Some a ->
  a <> "" ->
  supersteps k w t action s
  = ([action; reflection; final_output],
     Ok (append_message (AIMessage a)
           (set_reflection_notes
              (append (reflection_notes s)
                 "Skipped reflection due to existing final answer")
              (set_reflection_decision "end"
                 (set_reflection_decision "end" s))))).
Proof.
  intros k w t s a goal L P Fa Ne.
  destruct k as [|[|[|[|k]]]]; try lia.
  assert (T : str_truthy a = true) by now apply str_truthy_iff.
  rewrite (@supersteps_S _ w t action s reflection
             (set_reflection_decision "end" s));
    [|discriminate|now apply (@validate_text _ goal)| |discriminate].
  2:{ simpl. unfold _action_node. rewrite Fa. simpl. rewrite T. reflexivity. }
  rewrite (@supersteps_S _ w (S t) reflection _ final_output
             (set_reflection_notes
                (append (reflection_notes s)
                   "Skipped reflection due to existing final answer")
                (set_reflection_decision "end"
                   (set_reflection_decision "end" s))));
    [|discriminate|now apply (@validate_text _ goal)| |
     intros _; now apply (@validate_text _ goal)].
  2:{ simpl. unfold _reflection_node. simpl. rewrite Fa. simpl. rewrite T.
      simpl. unfold _should_continue. simpl. rewrite Fa. simpl. rewrite T.
      reflexivity. }
  rewrite (@supersteps_S _ w (S (S t)) final_output _ END
             (append_message (AIMessage a)
                (set_reflection_notes
                   (append (reflection_notes s)
                      "Skipped reflection due to existing final answer")
                   (set_reflection_decision "end"
                      (set_reflection_decision "end" s)))));
    [|discriminate|now apply (@validate_text _ goal)| |discriminate].
  2:{ simpl. unfold _final_output_node. simpl. rewrite Fa. simpl. rewrite T.
      reflexivity. }
  rewrite supersteps_END. reflexivity.
Qed.

(** A run that is known to take four nodes completes exactly under the
    limits from five on. *)
Lemma four_nodes_need_five : forall w s final_state,
  (forall k, 5 <= k ->
     supersteps k w 0 reasoning s
     = ([reasoning; action; reflection; final_output], Ok final_state)) ->
  forall recursion_limit checkpoint input visited s',
    resume checkpoint input = s ->
    ainvoke recursion_limit checkpoint w input = (visited, Ok s') ->
    5 <= recursion_limit.
Proof.
  intros w s final_state Run limit checkpoint input visited s' <- A.
  unfold ainvoke in A. destruct limit as [|limit].
  { unfold Raise, Ok in A. inversion A. }
  pose proof A as Len. apply supersteps_nodes in Len.
  apply supersteps_mono with (k' := S limit + 5) in A; [|lia].
  rewrite Run in A by lia. inversion A; subst. simpl in Len. lia.
Qed.

(** X5.  An answer at the first turn.  When the reasoner's first reply carries
    the formatted marker and the text the pattern extracts is not empty
    once stripped, the run is over after one pass through the four nodes,
    whatever the collaborators would do afterwards and whatever the thread
    of the checkpointer holds: no tool is called, no step is used, the
    reflection and final-output nodes do not consult the chat
    collaborator, and [run] returns the extracted text as the answer of a
    successful run, with the default plan and sub-goals and the single
    note that reflection was skipped.  The graph visits the four nodes
    under every recursion limit from five on, and completes under no
    lower one. *)
Theorem answer_at_first_turn_run :
  forall (checkpoint : option AgentState) (w : World) (query : string)
         (session_id : option string) (text group1 : string),
    ev_chat (w 0) = Ok text ->
    search_final_answer text = Some group1 ->
    strip group1 <> "" ->
    run checkpoint w query session_id
    = Ok {| answer := strip group1;
            run_metadata :=
              {| md_success := true;
                 md_steps := 0;
                 md_tools_used := [];
                 md_intermediate_results := [];
                 md_error := None;
                 md_session_id := session_id;
                 md_plan := DEFAULT_PLAN;
                 md_sub_goals := DEFAULT_SUB_GOALS;
                 md_reflection_notes :=
                   ["Skipped reflection due to existing final answer"] |} |}
    /\ (forall recursion_limit,
          5 <= recursion_limit ->
          fst (ainvoke recursion_limit checkpoint w (initial_state query))
          = [reasoning; action; reflection; final_output])
    /\ (forall recursion_limit visited final_state,
          ainvoke recursion_limit checkpoint w (initial_state query)
          = (visited, Ok final_state) ->
          5 <= recursion_limit).
Proof.
  intros checkpoint w query session_id text group1 C S1 Ne.
  remember (strip group1) as a eqn:Ea.
  assert (T : str_truthy a = true) by now apply str_truthy_iff.
  assert (B : contains "FINAL ANSWER" text = true).
  { apply formatted_marker_contains_bare. unfold contains.
    unfold search_final_answer in S1.
    now destruct (cut "**FINAL ANSWER**:" text). }
  set (s0 := resume checkpoint (initial_state query)).
  set (s1 := set_reflection_decision "end"
               (set_final_answer (Some a)
                  (append_message (AIMessage text)
                     (set_sub_goals DEFAULT_SUB_GOALS
                        (set_plan (VStr DEFAULT_PLAN) s0))))).
  assert (St : step (w 0) reasoning s0 = Ok (action, s1)).
  { simpl. unfold _reasoning_node. rewrite reason_text. unfold Ok in C.
    rewrite C. unfold Ok. rewrite B, S1, <- Ea.
    unfold s1, s0. now destruct checkpoint. }
  assert (V0 : validate s0 = Ok s0).
  { apply (@validate_text _ ""). unfold s0. now destruct checkpoint. }
  assert (Run : forall k, 5 <= k ->
            supersteps k w 0 reasoning s0
            = ([reasoning; action; reflection; final_output],
               Ok (append_message (AIMessage a)
                     (set_reflection_notes
                        (append (reflection_notes s1)
                           "Skipped reflection due to existing final answer")
                        (set_reflection_decision "end"
                           (set_reflection_decision "end" s1)))))).
  { intros k L. destruct k as [|k]; [lia|].
    rewrite (@supersteps_S k w 0 reasoning s0 action s1
               ltac:(discriminate) V0 St ltac:(discriminate)).
    rewrite (@supersteps_answered k w 1 s1 a DEFAULT_PLAN);
      [reflexivity|lia|reflexivity|reflexivity|exact Ne]. }
  split; [|split].
  - unfold run, run_body, ainvoke, DEFAULT_RECURSION_LIMIT.
    fold s0. rewrite Run by lia.
    unfold s1, s0. destruct checkpoint; simpl; rewrite T; reflexivity.
  - intros limit L. unfold ainvoke.
    destruct limit as [|limit]; [lia|]. fold s0. now rewrite Run by lia.
  - intros limit visited final_state A.
    eapply four_nodes_need_five; [exact Run|reflexivity|exact A].
Qed.

(** X6.  A chat collaborator that is down.  When the chat collaborator faults
    at the reasoning turn and the text of the fault carries neither a
    fenced json block nor the formatted marker, the reasoning node records
    ["Error: ..."] as the agent's turn, and the rest of the run depends on
    the thread of the checkpointer.  On a thread that holds no answer, if
    the chat collaborator faults again at the reflection turn, the action
    node finds no action and uses up a step, the reflection node fails,
    uses up a second step and sets the answer to ["Error: ..."] with the
    text of its own fault, and the final-output node passes that answer
    on: [run] returns it as the answer of a run marked successful, with
    [steps = 2] and no tool used.  On a thread that holds a non-empty
    answer of an earlier run, that answer is returned again, with no step
    used and the note that reflection was skipped.  Either way the graph
    visits the four nodes once under every recursion limit from five on,
    and completes under no lower one. *)
Theorem chat_outage_run :
  forall (checkpoint : option AgentState) (w : World) (query : string)
         (session_id : option string) (e0 : exn),
    ev_chat (w 0) = inr e0 ->
    search_json_block ("Error: " ++ exn_str e0) = None ->
    search_final_answer ("Error: " ++ exn_str e0) = None ->
    (forall e2,
       opt_truthy (inherited_answer checkpoint) = false ->
       ev_chat (w 2) = inr e2 ->
       run checkpoint w query session_id
       = Ok {| answer := "Error: " ++ exn_str e2;
               run_metadata :=
                 {| md_success := true;
                    md_steps := 2;
                    md_tools_used := [];
                    md_intermediate_results := [];
                    md_error := None;
                    md_session_id := session_id;
                    md_plan := DEFAULT_PLAN;
                    md_sub_goals := DEFAULT_SUB_GOALS;
                    md_reflection_notes :=
                      ["Error during reflection: " ++ exn_str e2] |} |}
       /\ (forall recursion_limit,
             5 <= recursion_limit ->
             fst (ainvoke recursion_limit checkpoint w (initial_state query))
             = [reasoning; action; reflection; final_output])
       /\ (forall recursion_limit visited final_state,
             ainvoke recursion_limit checkpoint w (initial_state query)
             = (visited, Ok final_state) ->
             5 <= recursion_limit))
    /\ (forall previous_answer,
          inherited_answer checkpoint = Some previous_answer ->
          previous_answer <> "" ->
          run checkpoint w query session_id
          = Ok {| answer := previous_answer;
                  run_metadata :=
                    {| md_success := true;
                       md_steps := 0;
                       md_tools_used := [];
                       md_intermediate_results := [];
                       md_error := None;
                       md_session_id := session_id;
                       md_plan := DEFAULT_PLAN;
                       md_sub_goals := DEFAULT_SUB_GOALS;
                       md_reflection_notes :=
                         ["Skipped reflection due to existing final answer"]
                    |} |}
          /\ (forall recursion_limit,
                5 <= recursion_limit ->
                fst (ainvoke recursion_limit checkpoint w
                       (initial_state query))
                = [reasoning; action; reflection; final_output])
          /\ (forall recursion_limit visited final_state,
                ainvoke recursion_limit checkpoint w (initial_state query)
                = (visited, Ok final_state) ->
                5 <= recursion_limit)).
Proof.
  intros checkpoint w query session_id e0 C0 NoBlock NoMarker.
  remember ("Error: " ++ exn_str e0) as turn eqn:Eturn.
  set (s0 := resume checkpoint (initial_state query)).
  assert (F0 : final_answer s0 = inherited_answer checkpoint).
  { unfold s0. now destruct checkpoint. }
  set (s1 := append_message (AIMessage turn)
               (set_sub_goals DEFAULT_SUB_GOALS
                  (set_plan (VStr DEFAULT_PLAN) s0))).
  assert (St0 : step (w 0) reasoning s0 = Ok (action, s1)).
  { simpl. unfold _reasoning_node. rewrite reason_text, C0, <- Eturn.
    unfold Ok. rewrite NoMarker.
    unfold s1, s0.
    destruct (contains "FINAL ANSWER" turn); now destruct checkpoint. }
  assert (V0 : validate s0 = Ok s0).
  { apply (@validate_text _ ""). unfold s0. now destruct checkpoint. }
  split.
  - intros e2 Held C2. rewrite <- F0 in Held.
    assert (St1 : step (w 1) action s1 = Ok (reflection, no_valid_action s1)).
    { simpl. unfold _action_node.
      change (final_answer s1) with (final_answer s0). rewrite Held.
      unfold s1 at 1. unfold append_message at 1.
      simpl messages. rewrite last_content_append. simpl content.
      rewrite parse_tool_usage_eval, NoBlock. reflexivity. }
    set (s3 := reflection_failed (no_valid_action s1) e2).
    assert (St2 : step (w 2) reflection (no_valid_action s1)
                  = Ok (final_output, s3)).
    { simpl. unfold _reflection_node.
      change (final_answer (no_valid_action s1)) with (final_answer s0).
      rewrite Held. rewrite C2. reflexivity. }
    assert (St3 : step (w 3) final_output s3
                  = Ok (END, append_message
                               (AIMessage ("Error: " ++ exn_str e2)) s3)).
    { reflexivity. }
    assert (Run : forall k, 5 <= k ->
              supersteps k w 0 reasoning s0
              = ([reasoning; action; reflection; final_output],
                 Ok (append_message
                       (AIMessage ("Error: " ++ exn_str e2)) s3))).
    { intros k L. destruct k as [|[|[|[|[|k]]]]]; try lia.
      rewrite (@supersteps_S _ w 0 reasoning _ action s1
                 ltac:(discriminate) V0 St0 ltac:(discriminate)).
      rewrite (@supersteps_S _ w 1 action s1 reflection _
                 ltac:(discriminate) eq_refl St1 ltac:(discriminate)).
      rewrite (@supersteps_S _ w 2 reflection (no_valid_action s1)
                 final_output s3
                 ltac:(discriminate) eq_refl St2 ltac:(reflexivity)).
      rewrite (@supersteps_S _ w 3 final_output s3 END _
                 ltac:(discriminate) eq_refl St3 ltac:(discriminate)).
      rewrite supersteps_END. reflexivity. }
    split; [|split].
    + unfold run, run_body, ainvoke, DEFAULT_RECURSION_LIMIT.
      fold s0. rewrite Run by lia.
      unfold s3, s1, s0. destruct checkpoint; reflexivity.
    + intros limit L. unfold ainvoke.
      destruct limit as [|limit]; [lia|]. fold s0. now rewrite Run by lia.
    + intros limit visited final_state A.
      eapply four_nodes_need_five; [exact Run|reflexivity|exact A].
  - intros a Held Ne. rewrite <- F0 in Held.
    assert (T : str_truthy a = true) by now apply str_truthy_iff.
    assert (Run : forall k, 5 <= k ->
              supersteps k w 0 reasoning s0
              = ([reasoning; action; reflection; final_output],
                 Ok (append_message (AIMessage a)
                       (set_reflection_notes
                          (append (reflection_notes s1)
                             "Skipped reflection due to existing final answer")
                          (set_reflection_decision "end"
                             (set_reflection_decision "end" s1)))))).
    { intros k L. destruct k as [|k]; [lia|].
      rewrite (@supersteps_S k w 0 reasoning s0 action s1
                 ltac:(discriminate) V0 St0 ltac:(discriminate)).
      rewrite (@supersteps_answered k w 1 s1 a DEFAULT_PLAN);
        [reflexivity|lia|reflexivity|exact Held|exact Ne]. }
    split; [|split].
    + unfold run, run_body, ainvoke, DEFAULT_RECURSION_LIMIT.
      fold s0. rewrite Run by lia.
      unfold s1, s0 in *. destruct checkpoint; simpl in *;
        [rewrite Held; simpl; rewrite T; reflexivity|discriminate].
    + intros limit L. unfold ainvoke.
      destruct limit as [|limit]; [lia|]. fold s0. now rewrite Run by lia.
    + intros limit visited final_state A.
      eapply four_nodes_need_five; [exact Run|reflexivity|exact A].
Qed.

(** *** The synthesis of the final answer *)

Lemma append_empty_r : forall s : string, s ++ "" = s.
Proof.
  induction s as [|x s IH]; simpl; [reflexivity|now rewrite IH].
Qed.

Lemma free_of_cons : forall c x s,
  free_of c (String x s) = true -> x <> c /\ free_of c s = true.
Proof.
  intros c x s H. unfold free_of in H. simpl in H.
  apply andb_prop in H as (N & F). split; [|exact F].
  intros ->. rewrite Ascii.eqb_refl in N. discriminate.
Qed.

Lemma strip_prefix_cons : forall a p x s,
  strip_prefix (String a p) (String x s)
  = if Ascii.eqb a x then strip_prefix p s else None.
Proof. reflexivity. Qed.

Lemma strip_prefix_head : forall a p x s,
  x <> a -> strip_prefix (String a p) (String x s) = None.
Proof.
  intros a p x s N. simpl.
  destruct (Ascii.eqb_spec a x); [congruence|reflexivity].
Qed.

(** No fence starts at a byte that is not a backtick and is not a
    newline followed by one. *)
Lemma any_fence_len_none : forall at_bol x s,
  x <> "`"%char ->
  strip_prefix "```" s = None ->
  any_fence_len at_bol (String x s) = 0.
Proof.
  intros at_bol x s N S. unfold any_fence_len.
  rewrite (strip_prefix_head "`" "``" x s N).
  replace (if at_bol then None else None) with (@None string)
    by now destruct at_bol.
  change (nl ++ "```") with (String (ascii_of_nat 10) "```").
  rewrite strip_prefix_cons.
  destruct (Ascii.eqb (ascii_of_nat 10) x); [|reflexivity].
  now rewrite S.
Qed.

Lemma strip_prefix_fence_free : forall s tail,
  free_of "`" s = true ->
  strip_prefix "```" tail = None ->
  strip_prefix "```" (s ++ tail) = None.
Proof.
  intros s tail F T. destruct s as [|x s]; [exact T|].
  apply free_of_cons in F as (N & _).
  apply strip_prefix_head. exact N.
Qed.

(** The fence pattern deletes nothing from a text without backticks that
    is followed by [tail], up to [tail]. *)
Lemma sub_empty_fence_free : forall s tail at_bol,
  free_of "`" s = true ->
  strip_prefix "```" tail = None ->
  sub_empty any_fence_len at_bol 0 (s ++ tail)
  = s ++ sub_empty any_fence_len
            (match string_rev s with
             | String x _ => is_nl x
             | EmptyString => at_bol
             end) 0 tail.
Proof.
  induction s as [|x s IH]; intros tail at_bol F T; [reflexivity|].
  pose proof F as F'. apply free_of_cons in F' as (N & Fs).
  cbn [String.append sub_empty].
  rewrite any_fence_len_none;
    [|exact N|now apply strip_prefix_fence_free].
  rewrite (IH tail (is_nl x) Fs T). f_equal. f_equal. f_equal.
  simpl string_rev. destruct (string_rev s); reflexivity.
Qed.

Lemma line_len_prefix : forall lang rest,
  free_of (ascii_of_nat 10) lang = true ->
  line_len (lang ++ nl ++ rest) = Some (S (String.length lang)).
Proof.
  induction lang as [|x lang IH]; intros rest F; [reflexivity|].
  apply free_of_cons in F as (N & F).
  cbn [String.append line_len String.length]. unfold is_nl.
  destruct (Ascii.eqb_spec x (ascii_of_nat 10)); [contradiction|].
  now rewrite (IH rest F).
Qed.

Lemma sub_empty_skip : forall match_len pre c s at_bol,
  sub_empty match_len at_bol (S (String.length pre)) (pre ++ String c s)
  = sub_empty match_len (is_nl c) 0 s.
Proof.
  induction pre as [|x pre IH]; intros c s at_bol; [reflexivity|].
  cbn [String.append String.length sub_empty]. apply IH.
Qed.

(** X7.  The synthesis of the final answer unwraps a fenced reply.  Let the
    state hold a non-empty query and let the chat collaborator reply
    [text].  If the stripped reply contains no backtick, it is the answer
    as it stands (the empty-answer text when it is empty).  If the
    stripped reply is one fenced block (an opening fence line, a body
    without backticks, a closing fence), the answer is the body alone
    (the empty-answer text for an empty body): neither fence line reaches
    the user. *)
Theorem synthesis_unwraps_fence :
  forall (ev : Event) (state : AgentState) (first : Message)
         (others : list Message) (text : string),
    messages state = first :: others ->
    content first <> "" ->
    ev_chat ev = Ok text ->
    (free_of "`" (strip text) = true ->
     _generate_final_answer ev state
     = Ok (if str_truthy (strip text) then strip text else EMPTY_ANSWER))
    /\ (forall lang body,
          strip text = "```" ++ lang ++ nl ++ body ++ nl ++ "```" ->
          free_of (ascii_of_nat 10) lang = true ->
          free_of "`" body = true ->
          _generate_final_answer ev state
          = Ok (if str_truthy body then body else EMPTY_ANSWER)).
Proof.
  intros ev state first others text M Q C.
  apply str_truthy_iff in Q.
  assert (G : forall cleaned,
            sub_empty any_fence_len true 0 (strip text) = cleaned ->
            _generate_final_answer ev state
            = Ok (if str_truthy cleaned then cleaned else EMPTY_ANSWER)).
  { intros cleaned E. unfold _generate_final_answer, try_, bind.
    rewrite M, Q. unfold Ok in C. rewrite C. cbv beta iota zeta.
    rewrite E. unfold negb. now destruct (str_truthy cleaned). }
  split.
  - intros F. apply G.
    rewrite <- (append_empty_r (strip text)) at 1.
    rewrite sub_empty_fence_free by (exact F || reflexivity).
    simpl sub_empty. apply append_empty_r.
  - intros lang body E Fl Fb. apply G. rewrite E.
    change ("```" ++ lang ++ nl ++ body ++ nl ++ "```")
      with (String "`" (("``" ++ lang) ++ String (ascii_of_nat 10)
                                             (body ++ nl ++ "```"))).
    cbn [sub_empty].
    assert (L : any_fence_len true
                  (String "`" (("``" ++ lang)
                               ++ String (ascii_of_nat 10)
                                    (body ++ nl ++ "```")))
                = S (S (String.length ("``" ++ lang)))).
    { unfold any_fence_len.
      change (strip_prefix "```"
                (String "`" (("``" ++ lang)
                             ++ String (ascii_of_nat 10)
                                  (body ++ nl ++ "```"))))
        with (Some (lang ++ nl ++ body ++ nl ++ "```")).
      cbv beta iota. rewrite (line_len_prefix lang _ Fl). simpl. lia. }
    rewrite L. rewrite sub_empty_skip.
    rewrite sub_empty_fence_free by (exact Fb || reflexivity).
    replace (sub_empty any_fence_len _ 0 (nl ++ "```")) with ""
      by (destruct (string_rev body); [|destruct (is_nl a)]; reflexivity).
    apply append_empty_r.
Qed.

(** *** The dispatcher's error records *)

(** X8.  What a failed dispatch says.  The [error] text of the record tells
    the stage that failed: an unregistered tool gives the bare text of
    the [KeyError]; a tool without input model gives ["Input validation
    failed: No input model defined for tool: ..."]; an input that
    [json.loads] rejects gives ["Invalid JSON input: ..."]; an input that
    decodes to something other than an object gives the bare text of the
    [TypeError]; an object the input model rejects gives ["Input
    validation failed: ..."].  In each case the observation shown to the
    reasoner is ["Tool {name} failed: "] followed by that text, and the
    [ToolResult] kept as [tool_output] has status ["error"], no data and
    empty metadata: the error text is not part of it. *)
Theorem dispatcher_error_messages :
  forall (ev : Event) (tool_name tool_input : string),
    (lookup tool_name tools = None ->
     _execute_tool_safely ev tool_name tool_input
     = Ok (error_record (error_text KeyError (VStr tool_name))
                        tool_name tool_input))
    /\ (forall tool,
          lookup tool_name tools = Some tool ->
          lookup tool_name TOOL_INPUT_MODELS = None ->
          _execute_tool_safely ev tool_name tool_input
          = Ok (error_record
                  ("Input validation failed: No input model defined for tool: "
                   ++ tool_name) tool_name tool_input))
    /\ (forall tool cls e,
          lookup tool_name tools = Some tool ->
          lookup tool_name TOOL_INPUT_MODELS = Some cls ->
          json_loads tool_input = inr e ->
          exn_cls e = JSONDecodeError ->
          _execute_tool_safely ev tool_name tool_input
          = Ok (error_record ("Invalid JSON input: " ++ exn_str e)
                             tool_name tool_input))
    /\ (forall tool cls v,
          lookup tool_name tools = Some tool ->
          lookup tool_name TOOL_INPUT_MODELS = Some cls ->
          json_loads tool_input = Ok v ->
          (forall d, v <> VDict d) ->
          _execute_tool_safely ev tool_name tool_input
          = Ok (error_record (error_text TypeError v) tool_name tool_input))
    /\ (forall tool cls d e,
          lookup tool_name tools = Some tool ->
          lookup tool_name TOOL_INPUT_MODELS = Some cls ->
          json_loads tool_input = Ok (VDict d) ->
          construct_input cls d = inr e ->
          exn_cls e = ValidationError ->
          _execute_tool_safely ev tool_name tool_input
          = Ok (error_record ("Input validation failed: " ++ exn_str e)
                             tool_name tool_input))
    /\ (forall msg,
          format_tool_result tool_name
            (error_record msg tool_name tool_input)
          = Ok ("Tool " ++ tool_name ++ " failed: " ++ msg)
          /\ ToolResult_of_dict error_text
               (error_record msg tool_name tool_input)
             = Ok {| status := "error"; data := VNone; metadata := [] |}).
Proof.
  intros ev tool_name tool_input.
  unfold _execute_tool_safely, _execute_tool_safely_body, try_, bind.
  split; [|split; [|split; [|split; [|split]]]].
  - intros L. rewrite L. reflexivity.
  - intros tool L M. rewrite L, M. reflexivity.
  - intros tool cls e L M J Ec. rewrite L, M. unfold Ok. rewrite J.
    simpl. now rewrite Ec.
  - intros tool cls v L M J NotDict. rewrite L, M. unfold Ok in *. rewrite J.
    destruct v; try reflexivity. now destruct (NotDict entries).
  - intros tool cls d e L M J C Ec. rewrite L, M. unfold Ok in *.
    rewrite J, C. simpl. now rewrite Ec.
  - intros msg. split; reflexivity.
Qed.

(** What the dispatcher returns is either a record of its own about a
    failed stage, or the dump of what [_arun] built for a tool that has an
    input model. *)
Lemma dispatcher_record_shape : forall ev tool_name tool_input record,
  _execute_tool_safely ev tool_name tool_input = Ok record ->
  (exists msg, record = error_record msg tool_name tool_input
               /\ ~ dispatch_succeeds ev tool_name tool_input)
  \/ (exists r cls,
        record = ToolResult_model_dump r
        /\ lookup tool_name TOOL_INPUT_MODELS = Some cls
        /\ ((status r = "success" /\ dispatch_succeeds ev tool_name tool_input)
            \/ (status r = "error"
                /\ ~ dispatch_succeeds ev tool_name tool_input))).
Proof.
  intros ev tool_name tool_input record H.
  pose proof (_execute_tool_safely_body_spec ev tool_name tool_input) as B.
  unfold _execute_tool_safely, try_ in H.
  destruct (_execute_tool_safely_body ev tool_name tool_input) as [r0|e].
  - destruct B as (tool & cls & input & kwargs & r & L & M & J & C & A & ->).
    unfold Ok in H. inversion H; subst; clear H.
    right. exists r, cls. split; [reflexivity|]. split; [exact M|].
    destruct (_arun_returns ev tool kwargs) as (r' & A' & St & _ & Su).
    rewrite A in A'. unfold Ok in A'. inversion A'; subst r'; clear A'.
    destruct St as [St | St].
    + left. split; [exact St|]. apply Su in St as (d & E).
      now exists tool, cls, input, kwargs, d.
    + right. split; [exact St|].
      intros (tool' & cls' & input' & kwargs' & d & L' & M' & J' & C' & E).
      unfold Ok in *.
      assert (tool' = tool) by congruence. subst tool'.
      assert (cls' = cls) by congruence. subst cls'.
      assert (input' = input) by congruence. subst input'.
      assert (kwargs' = kwargs) by congruence. subst kwargs'.
      assert (S1 : status r = "success") by (apply Su; now exists d).
      rewrite St in S1. discriminate.
  - destruct (dispatcher_handlers tool_name tool_input e) as (msg & E).
    rewrite E in H. unfold Ok in H. inversion H; subst.
    left. now exists msg.
Qed.

Lemma input_model_names : forall tool_name cls,
  lookup tool_name TOOL_INPUT_MODELS = Some cls ->
  In tool_name
     ["chat_llm"; "fundamental_analysis"; "industry_analysis";
      "peers_comparison"; "rag_knowledge"; "stock_price"; "tavily_search"].
Proof.
  intros tool_name cls H. unfold TOOL_INPUT_MODELS in H. simpl in H.
  repeat match type of H with
         | context [String.eqb tool_name ?k] =>
             destruct (String.eqb_spec tool_name k) as [->|];
             [simpl; auto 8|]
         end.
  discriminate.
Qed.

(** The rendering of a successful result of one of the seven tools does
    not start like the rendering of a failure. *)
Lemma success_rendering_head : forall tool_name r,
  status r = "success" ->
  In tool_name
     ["chat_llm"; "fundamental_analysis"; "industry_analysis";
      "peers_comparison"; "rag_knowledge"; "stock_price"; "tavily_search"] ->
  exists c rest,
    format_tool_result tool_name (ToolResult_model_dump r)
    = Ok (String c rest)
    /\ c <> "T"%char.
Proof.
  intros tool_name r St Names.
  unfold format_tool_result, format_tool_result_body, ToolResult_model_dump,
    dict_get_default, try_, bind.
  cbn [dict_get String.eqb Ascii.eqb Bool.eqb]. rewrite St.
  simpl in Names.
  destruct Names as [<- | [<- | [<- | [<- | [<- | [<- | [<- | []]]]]]]];
    cbn [eq_str String.eqb Ascii.eqb Bool.eqb existsb orb];
    unfold get_or, Ok, Raise;
    repeat match goal with
           | |- context [match ?x with _ => _ end] =>
               lazymatch x with
               | context [match _ with _ => _ end] => fail
               | _ => destruct x
               end
           end;
    cbn [select_handler is_Exception exn_cls exn_str String.append];
    eexists _, _; (split; [reflexivity|discriminate]).
Qed.

(** X9.  The observation and the [success] flag of a record agree.  For the
    result of any dispatch and its rendering by [format_tool_result], the
    observation has the form ["Tool {name} failed: ..."] exactly when the
    result's status is ["error"], that is exactly when some stage of the
    dispatch failed; the [success] flag of the record the action node
    builds is [True] in the other case only. *)
Theorem observation_reports_failure :
  forall (ev : Event) (tool_name tool_input llm_response observation : string)
         (record : dict),
    _execute_tool_safely ev tool_name tool_input = Ok record ->
    format_tool_result tool_name record = Ok observation ->
    ((exists why, observation = "Tool " ++ tool_name ++ " failed: " ++ why)
     <-> dict_get "status" record = Some (VStr "error"))
    /\ (dict_get "status" record = Some (VStr "error")
        <-> ~ dispatch_succeeds ev tool_name tool_input)
    /\ dict_get "success"
         (step_record llm_response observation tool_name record)
       = Some (VBool (match dict_get "status" record with
                      | Some (VStr "error") => false
                      | _ => true
                      end)).
Proof.
  intros ev tool_name tool_input llm_response observation record X F.
  destruct (dispatcher_record_shape _ _ _ _ X)
    as [(msg & -> & No) | (r & cls & -> & M & [(St & Yes) | (St & No)])].
  - unfold format_tool_result, format_tool_result_body, try_ in F.
    simpl in F. unfold Ok in F. inversion F; subst.
    split; [split; [reflexivity|intros _; now exists msg]|].
    split; [split; [intros _; exact No|reflexivity]|]. reflexivity.
  - destruct (success_rendering_head tool_name r St
                (input_model_names _ _ M)) as (c & rest & F' & Nc).
    rewrite F' in F. unfold Ok in F. inversion F; subst.
    simpl dict_get. rewrite St.
    split; [split|].
    + intros (why & E). simpl in E. inversion E. contradiction.
    + discriminate.
    + split; [split; [discriminate|intros No; contradiction]|reflexivity].
  - assert (F' : format_tool_result tool_name (ToolResult_model_dump r)
                 = Ok ("Tool " ++ tool_name ++ " failed: Unknown error")).
    { unfold format_tool_result, format_tool_result_body,
        ToolResult_model_dump, dict_get_default. simpl dict_get.
      now rewrite St. }
    rewrite F' in F. unfold Ok in F. inversion F; subst.
    simpl dict_get. rewrite St.
    split; [split; [reflexivity|intros _; now eexists]|].
    split; [split; [intros _; exact No|reflexivity]|reflexivity].
Qed.

(** *** The rendering of search results *)

Lemma search_lines_rendered : forall pairs,
  Forall (fun p => rendered_hit (fst p) (snd p) <> None) pairs ->
  exists lines,
    search_lines pairs = Ok lines
    /\ Forall2 (fun line p => rendered_hit (fst p) (snd p) = Some line)
               lines pairs.
Proof.
  intros pairs F. induction F as [|[r s] pairs H F (lines & E & IH)].
  - exists []. split; [reflexivity|constructor].
  - simpl in H. unfold rendered_hit in H.
    destruct r as [| | | | | |hit]; try contradiction.
    destruct s as [| | | | | |source]; try contradiction.
    destruct (dict_get "title" hit) as [title|] eqn:T; [|contradiction].
    destruct (dict_get "content" hit) as [body|] eqn:C; [|contradiction].
    destruct (dict_get "url" source) as [url|] eqn:U; [|contradiction].
    eexists. split.
    + cbn [search_lines subscript bind]. rewrite T, C, U.
      cbn [bind]. rewrite E. reflexivity.
    + constructor; [|exact IH]. simpl. unfold rendered_hit.
      now rewrite T, C, U.
Qed.

(** X10.  The rendering of [tavily_search] results pairs hits with sources.
    For a result whose status is not ["error"] and whose data holds the
    lists [search_results] and [sources]: when every pair of a hit and the
    source at the same index can be rendered (the hit is an object with a
    [title] and a [content], the source an object with a [url]), the
    observation is ["Search results: "] followed by one line per pair,
    joined by newlines; the pairing stops at the shorter list, so hits
    without a source (or sources without a hit) are left out silently.
    When the first hit is an object without [title], nothing is rendered:
    the observation is the error text of the formatter. *)
Theorem search_results_rendering :
  forall (tool_result d : dict) (status_value : value) (rs ss : list value),
    dict_get "status" tool_result = Some status_value ->
    eq_str status_value "error" = false ->
    dict_get "data" tool_result = Some (VDict d) ->
    dict_get "search_results" d = Some (VList rs) ->
    dict_get "sources" d = Some (VList ss) ->
    (Forall (fun p => rendered_hit (fst p) (snd p) <> None) (combine rs ss) ->
     exists lines,
       format_tool_result "tavily_search" tool_result
       = Ok ("Search results: " ++ join nl lines)
       /\ List.length lines = Nat.min (List.length rs) (List.length ss)
       /\ Forall2 (fun line p => rendered_hit (fst p) (snd p) = Some line)
                  lines (combine rs ss))
    /\ (forall hit others source sources,
          rs = VDict hit :: others ->
          ss = source :: sources ->
          dict_get "title" hit = None ->
          format_tool_result "tavily_search" tool_result
          = Ok ("Error formatting tavily_search result: "
                ++ error_text KeyError (VStr "title"))).
Proof.
  intros tool_result d status_value rs ss St Ne Da Rs Ss.
  assert (B : format_tool_result_body "tavily_search" tool_result
              = bind (search_lines (combine rs ss)) (fun lines =>
                Ok ("Search results: " ++ join nl lines))).
  { unfold format_tool_result_body, dict_get_default, get_or.
    rewrite St, Ne, Da. cbn [String.eqb Ascii.eqb Bool.eqb bind].
    unfold dict_get_default. rewrite Rs, Ss. reflexivity. }
  unfold format_tool_result. rewrite B. split.
  - intros F. destruct (search_lines_rendered _ F) as (lines & E & R).
    exists lines. rewrite E. split; [reflexivity|]. split; [|exact R].
    apply Forall2_length in R. rewrite R. apply length_combine.
  - intros hit others source sources -> -> T.
    cbn [combine search_lines subscript bind]. rewrite T. reflexivity.
Qed.

(** *** The serializer of the service *)

Lemma dict_get_absent : forall k d,
  ~ In k (dict_keys d) -> dict_get k d = None.
Proof.
  intros k d. induction d as [|[k' v] d IH]; intros N; [reflexivity|].
  simpl. destruct (String.eqb_spec k k') as [->|].
  - exfalso. apply N. now left.
  - apply IH. intros I. apply N. now right.
Qed.

(** Every record of a run has the four fields the action node writes. *)
Lemma run_config_records : forall w query k n s,
  run_config w query k = Ok (n, s) ->
  Forall (fun record =>
            dict_keys record
            = ["llm_output"; "observation"; "tool_name"; "success"])
         (intermediate_results s).
Proof.
  intros w query k. induction k as [|k IH]; intros n s H.
  - unfold run_config in H. simpl in H. unfold Ok in H. inversion H; subst.
    constructor.
  - apply run_config_pred in H as (n0 & s0 & C & St).
    specialize (IH _ _ C).
    destruct (step_writes _ _ _ _ _ St)
      as [(_ & I) | (_ & record & tool & _ & I & K & _)]; rewrite I.
    + exact IH.
    + unfold append. apply Forall_app. split; [exact IH|]. now constructor.
Qed.

(** X11.  What leaves the service.  [_serialize_intermediate_results] returns
    one record per input record, each with exactly the five fields
    [llm_output], [observation], [tool_name], [success] and
    [error_message], and serializing twice changes nothing more.  On the
    records of a run it keeps the alignment with [tools_used]: the
    serialized record at index [i] carries the name of the tool used at
    [i], and its [error_message] is [None], since the workflow never
    writes that field. *)
Theorem serialized_results_shape :
  (forall (results : list dict),
     List.length (_serialize_intermediate_results results)
     = List.length results
     /\ Forall (fun record => dict_keys record = SERIALIZED_FIELDS)
               (_serialize_intermediate_results results)
     /\ _serialize_intermediate_results
          (_serialize_intermediate_results results)
        = _serialize_intermediate_results results)
  /\ (forall (w : World) (query : string) (k : nat),
        Forall2 (fun record tool =>
                   dict_get "tool_name" record = Some (VStr tool)
                   /\ dict_get "error_message" record = Some VNone)
                (_serialize_intermediate_results
                   (intermediate_results (state_of (run_config w query k))))
                (tools_used (state_of (run_config w query k)))).
Proof.
  split.
  - intros results. unfold _serialize_intermediate_results.
    split; [apply length_map|]. split.
    + apply Forall_forall. intros record I.
      apply in_map_iff in I as (result & <- & _). reflexivity.
    + rewrite map_map. apply map_ext. intros result. reflexivity.
  - intros w query k.
    pose proof (run_config_state w query k) as C.
    pose proof (run_config_records w query k _ _ C) as K.
    apply run_config_invariant in C as (A & _). unfold aligned in A.
    unfold _serialize_intermediate_results.
    induction A as [|record tool records used N A IH];
      [constructor|].
    inversion K as [|? ? Kr Ks]; subst. simpl. constructor; [|now apply IH].
    cbn [dict_get String.eqb Ascii.eqb Bool.eqb]. unfold dict_get_default.
    rewrite N. split; [reflexivity|].
    rewrite dict_get_absent; [reflexivity|].
    rewrite Kr. simpl. intuition discriminate.
Qed.

(* ------------------------------------------------------------------ *)
(** ** The tools                                                        *)
(* ------------------------------------------------------------------ *)

Lemma traverse_pure : forall (A B : Type) (g : A -> B) (f : A -> Result B)
  (l : list A),
  (forall x, In x l -> f x = Ok (g x)) ->
  traverse f l = Ok (map g l).
Proof.
  intros A B g f l. induction l as [|x l IH]; intros H; [reflexivity|].
  simpl. rewrite (H x) by now left. simpl.
  rewrite IH by (intros y I; apply H; now right). reflexivity.
Qed.

Lemma traverse_length : forall (A B : Type) (f : A -> Result B)
  (l : list A) (out : list B),
  traverse f l = Ok out -> List.length out = List.length l.
Proof.
  intros A B f l. induction l as [|x l IH]; intros out H; simpl in H.
  - unfold Ok in H. inversion H. reflexivity.
  - destruct (f x); simpl in H; [|discriminate].
    destruct (traverse f l) as [ys|] eqn:E; simpl in H; [|discriminate].
    unfold Ok in H. inversion H; subst. simpl. f_equal. now apply IH.
Qed.

Lemma split_on_length : forall sep s,
  List.length (split_on sep s)
  = S (count_occ ascii_dec (list_ascii_of_string s) sep).
Proof.
  intros sep s. induction s as [|c s IH]; [reflexivity|].
  simpl. destruct (Ascii.eqb_spec c sep) as [->|N].
  - destruct (ascii_dec sep sep); [|contradiction]. simpl. now rewrite IH.
  - destruct (ascii_dec c sep); [contradiction|].
    destruct (split_on sep s); simpl in *; [discriminate|exact IH].
Qed.

Lemma _normalize_symbols_str : forall s,
  _normalize_symbols (VStr s)
  = Ok (map (fun part => str_upper (strip (str_upper (strip part))))
            (split_on "," s)).
Proof.
  intros s. unfold _normalize_symbols. cbn [iterate bind Ok].
  rewrite (traverse_pure _ _
             (fun v => match v with
                       | VStr t => str_upper (strip t)
                       | _ => ""
                       end)).
  - now rewrite map_map.
  - intros x I. apply in_map_iff in I as (part & <- & _). reflexivity.
Qed.

Lemma _normalize_symbols_names : forall names,
  _normalize_symbols (VList (map VStr names))
  = Ok (map (fun t => str_upper (strip t)) names).
Proof.
  intros names. unfold _normalize_symbols. cbn [iterate bind Ok].
  rewrite (traverse_pure _ _
             (fun v => match v with
                       | VStr t => str_upper (strip t)
                       | _ => ""
                       end)).
  - now rewrite map_map.
  - intros x I. apply in_map_iff in I as (part & <- & _). reflexivity.
Qed.

(** X12.  What [_normalize_symbols] makes of its argument.  A [str] gives one
    symbol per comma-separated part, empty parts included, so one more
    symbol than the text has commas and never an empty list; each part is
    stripped and put in upper case (twice over).  A list of names gives
    one symbol per name.  The result is the empty list only for an empty
    list (or an empty mapping): the "symbols are required" check of
    [StockPriceTool] can fire on nothing else. *)
Theorem normalize_symbols_parts :
  forall (symbols : value),
    (forall s, symbols = VStr s ->
       _normalize_symbols symbols
       = Ok (map (fun part => str_upper (strip (str_upper (strip part))))
                 (split_on "," s))
       /\ List.length (split_on "," s)
          = S (count_occ ascii_dec (list_ascii_of_string s) ","%char))
    /\ (forall names, symbols = VList (map VStr names) ->
          _normalize_symbols symbols
          = Ok (map (fun t => str_upper (strip t)) names))
    /\ (_normalize_symbols symbols = Ok []
        <-> symbols = VList [] \/ symbols = VDict []).
Proof.
  intros symbols. split; [|split].
  - intros s ->. split; [apply _normalize_symbols_str|apply split_on_length].
  - intros names ->. apply _normalize_symbols_names.
  - split.
    + intros H. destruct symbols as [| | | | s | l | d];
        try (unfold _normalize_symbols in H; simpl in H; discriminate).
      * rewrite _normalize_symbols_str in H. unfold Ok in H. inversion H as [E].
        pose proof (split_on_length "," s) as L.
        destruct (split_on "," s); simpl in *; discriminate.
      * unfold _normalize_symbols in H. cbn [iterate bind Ok] in H.
        apply traverse_length in H. destruct l; [now left|discriminate].
      * unfold _normalize_symbols in H. cbn [iterate bind Ok] in H.
        apply traverse_length in H. destruct d; [now right|discriminate].
    + intros [-> | ->]; reflexivity.
Qed.

(** *** Tools that report no failure *)

Lemma dict_output_handler : forall field,
  dict_output field (VDict []) = Ok (VDict [(field, VDict [])]).
Proof. reflexivity. Qed.

(** The body of a tool ending in [dict_output], under its handler: the
    dumped payload, or the empty one. *)
Lemma masked_output : forall field (body : Result value),
  try_ (bind body (dict_output field))
       [(is_Exception, fun _ => dict_output field (VDict []))]
  = Ok (VDict [(field,
                match body with
                | inl (VDict d) => VDict d
                | _ => VDict []
                end)]).
Proof.
  intros field body. unfold try_, bind, dict_output.
  destruct body as [v|e]; [|reflexivity].
  destruct v; reflexivity.
Qed.

Lemma masked_payload : forall field (outcome : Result value),
  try_ (bind outcome (dict_output field))
       [(is_Exception, fun _ => dict_output field (VDict []))]
  = Ok (VDict [(field, payload_of outcome)]).
Proof. intros. apply masked_output. Qed.

Lemma eq_str_iff : forall v text, eq_str v text = true <-> v = VStr text.
Proof.
  intros v text. destruct v; simpl; split; intros H; try discriminate.
  - apply String.eqb_eq in H. now subst.
  - inversion H. apply String.eqb_refl.
Qed.

Ltac settle_dates :=
  repeat match goal with
         | |- context [str_truthy ?t] => destruct (str_truthy t); simpl
         | |- context [valid_date ?t] => destruct (valid_date t); simpl
         | |- context [Z.eqb ?t 0] => destruct (Z.eqb t 0); simpl
         | |- context [existsb ?f ?l] => destruct (existsb f l); simpl
         | |- context [match ?l with [] => _ | _ => _ end] =>
             destruct l; simpl
         | |- context [if ?b then _ else _] => destruct b; simpl
         end.

Lemma StockPriceTool_validate_parameters_accepts :
  forall data_type symbols start_date end_date,
    StockPriceTool_validate_parameters data_type symbols start_date end_date
    = Ok tt
    <-> accepts_request data_type symbols start_date end_date = true.
Proof.
  intros data_type symbols start_date end_date.
  unfold StockPriceTool_validate_parameters, accepts_request.
  destruct symbols as [|x symbols]; [split; discriminate|].
  destruct (eq_str data_type "realtime") eqn:R;
    destruct (eq_str data_type "historical") eqn:H; simpl.
  - apply eq_str_iff in R, H. rewrite R in H. discriminate.
  - split; reflexivity.
  - destruct start_date as [| | | | s | |], end_date as [| | | | e | |];
      simpl; unfold strptime, try_, bind, Raise, Ok; simpl;
      settle_dates; split; intros E; try reflexivity; try discriminate.
  - split; discriminate.
Qed.

(** [StockPriceTool._execute_impl] without its exceptions. *)
Lemma StockPriceTool_execute_impl_eval :
  forall p symbols data_type start_date end_date,
    StockPriceTool_execute_impl p symbols data_type start_date end_date
    = Ok (VDict
            [("results",
              match _normalize_symbols symbols with
              | inl normalized =>
                  if accepts_request data_type normalized start_date end_date
                  then payload_of
                         (if eq_str data_type "realtime"
                          then get_realtime_data p normalized
                          else get_historical_data p normalized
                                 start_date end_date)
                  else VDict []
              | inr _ => VDict []
              end)]).
Proof.
  intros p symbols data_type start_date end_date.
  unfold StockPriceTool_execute_impl.
  destruct (_normalize_symbols symbols) as [normalized|e]; [|reflexivity].
  cbn [bind].
  pose proof (StockPriceTool_validate_parameters_accepts
                data_type normalized start_date end_date) as V.
  destruct (StockPriceTool_validate_parameters
              data_type normalized start_date end_date) as [[]|e] eqn:E.
  - rewrite (proj1 V eq_refl). cbn [bind].
    destruct (eq_str data_type "realtime") eqn:R;
      [apply masked_payload|].
    destruct (eq_str data_type "historical") eqn:H;
      [apply masked_payload|].
    pose proof (proj1 V eq_refl) as A. unfold accepts_request in A.
    rewrite R, H in A. destruct normalized; discriminate.
  - destruct (accepts_request data_type normalized start_date end_date);
      [|reflexivity].
    destruct V as (_ & V). specialize (V eq_refl). discriminate.
Qed.

(** X13.  [StockPriceTool] reports no failure.  [_execute_impl] never raises:
    it returns an object with the single field [results].  The provider
    is consulted only for a request whose symbols normalize to a
    non-empty list and whose [data_type] is ["realtime"], or
    ["historical"] with a start and an end date that are non-empty texts
    [strptime] accepts; its data is the payload when it is an object.
    In every other case (symbols that do not normalize, no symbol, another
    [data_type], a missing or malformed date, a fault of the provider,
    data that is not an object) the payload is the empty object,
    whatever the provider would return.  So [_arun] reports ["success"]
    for every call with the arguments of the input model, and the
    observation is the rendering of that payload, never a failure. *)
Theorem stock_price_masks_failures :
  forall (p : Providers) (symbols data_type start_date end_date : value),
    (exists results,
       StockPriceTool_execute_impl p symbols data_type start_date end_date
       = Ok (VDict [("results", VDict results)]))
    /\ (forall normalized,
          StockPriceTool_validate_parameters
            data_type normalized start_date end_date = Ok tt
          <-> (normalized <> []
               /\ (data_type = VStr "realtime"
                   \/ (data_type = VStr "historical"
                       /\ exists s e,
                            start_date = VStr s /\ end_date = VStr e
                            /\ s <> "" /\ e <> ""
                            /\ valid_date s = true
                            /\ valid_date e = true))))
    /\ (forall normalized,
          _normalize_symbols symbols = Ok normalized ->
          StockPriceTool_validate_parameters
            data_type normalized start_date end_date = Ok tt ->
          StockPriceTool_execute_impl p symbols data_type start_date end_date
          = Ok (VDict
                  [("results",
                    payload_of
                      (if eq_str data_type "realtime"
                       then get_realtime_data p normalized
                       else get_historical_data p normalized
                              start_date end_date))]))
    /\ ((forall normalized,
           _normalize_symbols symbols = Ok normalized ->
           StockPriceTool_validate_parameters
             data_type normalized start_date end_date <> Ok tt) ->
        StockPriceTool_execute_impl p symbols data_type start_date end_date
        = Ok (VDict [("results", VDict [])]))
    /\ (forall ev,
        exists r payload,
          _arun (with_tools p ev) {| name := "stock_price" |}
                [("symbols", symbols); ("data_type", data_type);
                 ("start_date", start_date); ("end_date", end_date)]
          = Ok r
          /\ status r = "success"
          /\ data r = VDict [("results", VDict payload)]
          /\ format_tool_result "stock_price" (ToolResult_model_dump r)
             = Ok ("Stock price data: "
                   ++ json_dumps (VDict [("results", VDict payload)]))).
Proof.
  intros p symbols data_type start_date end_date.
  assert (Shape : exists results,
            StockPriceTool_execute_impl p symbols data_type start_date end_date
            = Ok (VDict [("results", VDict results)])).
  { rewrite StockPriceTool_execute_impl_eval.
    destruct (_normalize_symbols symbols) as [normalized|]; [|now eexists].
    destruct (accepts_request _ _ _ _); [|now eexists].
    unfold payload_of.
    destruct (if eq_str data_type "realtime" then _ else _) as [[]|];
      now eexists. }
  split; [exact Shape|]. split; [|split; [|split]].
  - intros normalized.
    rewrite StockPriceTool_validate_parameters_accepts.
    unfold accepts_request, acceptable_date.
    destruct normalized as [|x normalized].
    { split; [discriminate|]. intros (N & _). contradiction. }
    split.
    + intros A. split; [discriminate|].
      apply Bool.orb_true_iff in A as [A | A].
      * left. destruct data_type; try discriminate.
        simpl in A. apply String.eqb_eq in A. now subst.
      * right. apply andb_prop in A as (A & Ae).
        apply andb_prop in A as (A & As).
        destruct data_type; try discriminate.
        simpl in A. apply String.eqb_eq in A. subst.
        split; [reflexivity|].
        destruct start_date as [| | | | s | |]; try discriminate.
        destruct end_date as [| | | | e | |]; try discriminate.
        apply andb_prop in As as (Ts & Vs).
        apply andb_prop in Ae as (Te & Ve).
        exists s, e. repeat split; auto; now apply str_truthy_iff.
    + intros (_ & [-> | (-> & s & e & -> & -> & Ns & Ne & Vs & Ve)]).
      * reflexivity.
      * apply str_truthy_iff in Ns, Ne. simpl. now rewrite Ns, Ne, Vs, Ve.
  - intros normalized N V. rewrite StockPriceTool_execute_impl_eval, N.
    apply StockPriceTool_validate_parameters_accepts in V.
    unfold Ok. cbv beta iota. now rewrite V.
  - intros No. rewrite StockPriceTool_execute_impl_eval.
    destruct (_normalize_symbols symbols) as [normalized|]; [|reflexivity].
    destruct (accepts_request data_type normalized start_date end_date)
      eqn:A; [|reflexivity].
    apply StockPriceTool_validate_parameters_accepts in A.
    now destruct (No normalized eq_refl).
  - intros ev. destruct Shape as (results & E).
    exists {| status := "success";
              data := VDict [("results", VDict results)];
              metadata :=
                ToolState_model_dump
                  {| tool_name := "stock_price";
                     execution_time := ev_elapsed ev;
                     context := [("market", VStr "VN")] |} |}.
    exists results.
    assert (X : ev_execute (with_tools p ev) {| name := "stock_price" |}
                  [("symbols", symbols); ("data_type", data_type);
                   ("start_date", start_date); ("end_date", end_date)]
                = Ok (VDict [("results", VDict results)])).
    { rewrite <- E. reflexivity. }
    unfold _arun. rewrite X. repeat split.
Qed.

(** *** The analysis tools *)

Lemma split_on_two : forall s,
  (exists a b rest, split_on "," s = a :: b :: rest) <-> 1 <= commas s.
Proof.
  intros s. pose proof (split_on_length "," s) as L. fold (commas s) in L.
  destruct (split_on "," s) as [|a [|b rest]]; simpl in L.
  - discriminate.
  - split; [intros (? & ? & ? & E); discriminate|lia].
  - split; [lia|intros _; now eexists _, _, _].
Qed.

(** X14.  [PeersComparisonTool] needs two symbols.  Its validation passes
    exactly for a text with at least one comma (two comma-separated
    parts, empty ones counted) and for a list of at least two elements.
    [_execute_impl] never raises and returns an object with the single
    field [data]: the provider's data for a request that passes
    validation and normalizes, when that data is an object; the empty
    object in every other case, whatever the provider would return. *)
Theorem peers_comparison_needs_two_symbols :
  forall (p : Providers) (symbols : value),
    (PeersComparisonTool_validate_parameters symbols = Ok tt
     <-> ((exists s, symbols = VStr s /\ 1 <= commas s)
          \/ exists x y others, symbols = VList (x :: y :: others)))
    /\ (exists payload,
          PeersComparisonTool_execute_impl p symbols
          = Ok (VDict [("data", VDict payload)]))
    /\ (PeersComparisonTool_validate_parameters symbols <> Ok tt ->
        PeersComparisonTool_execute_impl p symbols
        = Ok (VDict [("data", VDict [])]))
    /\ (forall s,
          symbols = VStr s ->
          1 <= commas s ->
          PeersComparisonTool_execute_impl p symbols
          = Ok (VDict
                  [("data",
                    payload_of
                      (get_peers_comparison p
                         (map (fun part =>
                                 str_upper (strip (str_upper (strip part))))
                              (split_on "," s))))]))
    /\ (forall names x y,
          symbols = VList (map VStr (x :: y :: names)) ->
          PeersComparisonTool_execute_impl p symbols
          = Ok (VDict
                  [("data",
                    payload_of
                      (get_peers_comparison p
                         (map (fun t => str_upper (strip t))
                              (x :: y :: names))))])).
Proof.
  intros p symbols.
  assert (V : PeersComparisonTool_validate_parameters symbols = Ok tt
              <-> ((exists s, symbols = VStr s /\ 1 <= commas s)
                   \/ exists x y others, symbols = VList (x :: y :: others))).
  { unfold PeersComparisonTool_validate_parameters.
    destruct symbols as [| | | | s | l | d];
      try (split; [discriminate
                  |intros [(? & E & _) | (? & ? & ? & E)]; discriminate]).
    - pose proof (split_on_two s) as T.
      destruct (split_on "," s) as [|a [|b rest]]; simpl; split;
        try discriminate;
        try (intros [(s' & E & C) | (? & ? & ? & E)]; [|discriminate];
             inversion E; subst s'; apply T in C as (? & ? & ? & C);
             discriminate).
      + intros _. left. exists s. split; [reflexivity|].
        apply T. now eexists _, _, _.
      + reflexivity.
    - destruct l as [|x [|y others]]; split; try discriminate;
        try (intros [(? & E & _) | (? & ? & ? & E)]; discriminate).
      + intros _. right. now exists x, y, others.
      + reflexivity. }
  assert (E : PeersComparisonTool_execute_impl p symbols
              = Ok (VDict
                      [("data",
                        match PeersComparisonTool_validate_parameters symbols,
                              _normalize_symbols symbols with
                        | inl _, inl normalized =>
                            payload_of (get_peers_comparison p normalized)
                        | _, _ => VDict []
                        end)])).
  { unfold PeersComparisonTool_execute_impl.
    destruct (PeersComparisonTool_validate_parameters symbols) as [[]|];
      [|reflexivity].
    cbn [bind].
    destruct (_normalize_symbols symbols) as [normalized|]; [|reflexivity].
    cbn [bind]. apply masked_payload. }
  split; [exact V|]. split; [|split; [|split]].
  - rewrite E.
    destruct (PeersComparisonTool_validate_parameters symbols);
      [|now eexists].
    destruct (_normalize_symbols symbols) as [normalized|]; [|now eexists].
    unfold payload_of.
    destruct (get_peers_comparison p normalized) as [[]|]; now eexists.
  - intros No. rewrite E.
    destruct (PeersComparisonTool_validate_parameters symbols) as [[]|];
      [now destruct No|reflexivity].
  - intros s -> C. rewrite E.
    rewrite (proj2 V) by (left; now exists s).
    now rewrite _normalize_symbols_str.
  - intros names x y ->. rewrite E.
    rewrite (proj2 V) by (right; now eexists _, _, _).
    now rewrite _normalize_symbols_names.
Qed.

(** X15.  [FundamentalAnalysisTool] and [IndustryAnalysisTool].  The
    validation of the first passes for every text, the empty one
    included, and for every non-empty list; the validation of the second
    passes for a non-empty text only.  Neither [_execute_impl] raises:
    each returns an object with the single field [data], which is the
    provider's data (asked about the normalized symbols) when validation
    passes and that data is an object, and the empty object in every
    other case. *)
Theorem analysis_tools_mask_failures :
  forall (p : Providers) (argument : value),
    (FundamentalAnalysisTool_validate_parameters argument = Ok tt
     <-> ((exists s, argument = VStr s)
          \/ exists x others, argument = VList (x :: others)))
    /\ (IndustryAnalysisTool_validate_parameters argument = Ok tt
        <-> exists s, argument = VStr s /\ s <> "")
    /\ (exists payload,
          FundamentalAnalysisTool_execute_impl p argument
          = Ok (VDict [("data", VDict payload)]))
    /\ (exists payload,
          IndustryAnalysisTool_execute_impl p argument
          = Ok (VDict [("data", VDict payload)]))
    /\ (forall s,
          argument = VStr s ->
          FundamentalAnalysisTool_execute_impl p argument
          = Ok (VDict
                  [("data",
                    payload_of
                      (get_fundamental_ratios p
                         (map (fun part =>
                                 str_upper (strip (str_upper (strip part))))
                              (split_on "," s))))])
          /\ IndustryAnalysisTool_execute_impl p argument
             = Ok (VDict
                     [("data",
                       if str_truthy s
                       then payload_of
                              (get_industry_analysis p (strip (str_upper s)))
                       else VDict [])]))
    /\ (FundamentalAnalysisTool_validate_parameters argument <> Ok tt ->
        FundamentalAnalysisTool_execute_impl p argument
        = Ok (VDict [("data", VDict [])]))
    /\ (IndustryAnalysisTool_validate_parameters argument <> Ok tt ->
        IndustryAnalysisTool_execute_impl p argument
        = Ok (VDict [("data", VDict [])])).
Proof.
  intros p argument.
  assert (F : FundamentalAnalysisTool_execute_impl p argument
              = Ok (VDict
                      [("data",
                        match FundamentalAnalysisTool_validate_parameters
                                argument,
                              _normalize_symbols argument with
                        | inl _, inl normalized =>
                            payload_of (get_fundamental_ratios p normalized)
                        | _, _ => VDict []
                        end)])).
  { unfold FundamentalAnalysisTool_execute_impl.
    destruct (FundamentalAnalysisTool_validate_parameters argument) as [[]|];
      [|reflexivity].
    cbn [bind].
    destruct (_normalize_symbols argument) as [normalized|]; [|reflexivity].
    cbn [bind]. apply masked_payload. }
  assert (I : IndustryAnalysisTool_execute_impl p argument
              = Ok (VDict
                      [("data",
                        match argument with
                        | VStr s =>
                            if str_truthy s
                            then payload_of
                                   (get_industry_analysis p
                                      (strip (str_upper s)))
                            else VDict []
                        | _ => VDict []
                        end)])).
  { unfold IndustryAnalysisTool_execute_impl,
      IndustryAnalysisTool_validate_parameters.
    destruct argument as [| | | | s | |]; try reflexivity.
    destruct (str_truthy s); [|reflexivity].
    cbn [bind]. apply masked_payload. }
  split; [|split; [|split; [|split; [|split; [|split]]]]].
  - unfold FundamentalAnalysisTool_validate_parameters.
    destruct argument as [| | | | s | [|x others] |]; split;
      try discriminate; try reflexivity;
      try (intros [(? & E) | (? & ? & E)]; discriminate).
    + intros _. left. now exists s.
    + intros _. right. now exists x, others.
  - unfold IndustryAnalysisTool_validate_parameters.
    destruct argument as [| | | | s | |]; split;
      try discriminate; try (intros (? & E & _); discriminate).
    + destruct (str_truthy s) eqn:T; [|discriminate].
      intros _. exists s. split; [reflexivity|]. now apply str_truthy_iff.
    + intros (s' & E & N). inversion E; subst s'.
      apply str_truthy_iff in N. now rewrite N.
  - rewrite F.
    destruct (FundamentalAnalysisTool_validate_parameters argument);
      [|now eexists].
    destruct (_normalize_symbols argument) as [normalized|]; [|now eexists].
    unfold payload_of.
    destruct (get_fundamental_ratios p normalized) as [[]|]; now eexists.
  - rewrite I. destruct argument as [| | | | s | |]; try (now eexists).
    destruct (str_truthy s); [|now eexists].
    unfold payload_of.
    destruct (get_industry_analysis p _) as [[]|]; now eexists.
  - intros s ->. split.
    + rewrite F. simpl FundamentalAnalysisTool_validate_parameters.
      now rewrite _normalize_symbols_str.
    + exact I.
  - intros No. rewrite F.
    destruct (FundamentalAnalysisTool_validate_parameters argument) as [[]|];
      [now destruct No|reflexivity].
  - intros No. rewrite I.
    unfold IndustryAnalysisTool_validate_parameters in No.
    destruct argument as [| | | | s | |]; try reflexivity.
    destruct (str_truthy s); [now destruct No|reflexivity].
Qed.

(** *** The search tool *)

Lemma enhance_query_eval : forall q,
  enhance_query (VStr q) = Ok ("Original query: " ++ q ++ market_suffix q).
Proof.
  intros q. unfold enhance_query, market_suffix, try_.
  destruct (existsb _ vietnamese_market_terms); cbn [negb].
  - now rewrite append_empty_r.
  - destruct (has_ticker q);
      change ("Original query: " ++ q) with (String.append "Original query: " q);
      now rewrite append_assoc.
Qed.

Lemma formatted_hits : forall hits,
  forallb is_object hits = true ->
  _format_search_results (VList hits) = Ok (map formatted_hit hits)
  /\ TavilySearchTool_extract_sources (VList hits)
     = Ok (map source_of_hit hits).
Proof.
  intros hits O. rewrite forallb_forall in O.
  unfold _format_search_results, TavilySearchTool_extract_sources.
  cbn [iterate bind Ok]. split; apply traverse_pure; intros hit I;
    specialize (O hit I); destruct hit; try discriminate; reflexivity.
Qed.

Lemma search_lines_hits : forall hits,
  forallb is_object hits = true ->
  search_lines (combine (map formatted_hit hits) (map source_of_hit hits))
  = Ok (map hit_line hits).
Proof.
  induction hits as [|hit hits IH]; intros O; [reflexivity|].
  simpl in O. apply andb_prop in O as (Oh & O).
  destruct hit as [| | | | | |d]; try discriminate.
  cbn [map combine search_lines formatted_hit source_of_hit].
  cbn [subscript dict_get String.eqb Ascii.eqb Bool.eqb bind Ok].
  rewrite (IH O). reflexivity.
Qed.

(** X16.  [TavilySearchTool] and the rendering of its results.  The query that
    reaches the search provider is never the user's text as it stands:
    it is ["Original query: "] followed by the text and, unless the text
    names the Vietnamese market, by one of two market suffixes.  When the
    provider returns a list of objects, the tool reports ["success"] and
    the observation is ["Search results: "] followed by one line per
    hit, in order, a missing [title], [content] or [url] rendered as the
    empty text: the formatter never fails on what the tool returns.  When
    the provider faults, the tool still reports ["success"], with no
    hits, and the observation is the bare ["Search results: "].  Only a
    query that is not a text makes the tool report an error, since the
    query is enhanced outside the tool's [try]. *)
Theorem tavily_search_observation :
  forall (p : Providers) (ev : Event) (q : string),
    (enhance_query (VStr q) = Ok ("Original query: " ++ q ++ market_suffix q)
     /\ In (market_suffix q)
           [""; " Vietnam stock HOSE HNX"; " Vietnamese stock market"])
    /\ (forall hits,
          search p ("Original query: " ++ q ++ market_suffix q)
          = Ok (VList hits) ->
          forallb is_object hits = true ->
          exists r,
            _arun (with_tools p ev) {| name := "tavily_search" |}
                  [("query", VStr q)] = Ok r
            /\ status r = "success"
            /\ data r
               = VDict [("search_results", VList (map formatted_hit hits));
                        ("sources", VList (map source_of_hit hits))]
            /\ format_tool_result "tavily_search" (ToolResult_model_dump r)
               = Ok ("Search results: " ++ join nl (map hit_line hits)))
    /\ (forall e,
          search p ("Original query: " ++ q ++ market_suffix q) = inr e ->
          exists r,
            _arun (with_tools p ev) {| name := "tavily_search" |}
                  [("query", VStr q)] = Ok r
            /\ status r = "success"
            /\ data r = TAVILY_FAULT_OUTPUT
            /\ format_tool_result "tavily_search" (ToolResult_model_dump r)
               = Ok "Search results: ")
    /\ (forall query,
          (forall text, query <> VStr text) ->
          exists r,
            _arun (with_tools p ev) {| name := "tavily_search" |}
                  [("query", query)] = Ok r
            /\ status r = "error").
Proof.
  intros p ev q.
  assert (X : forall query,
            ev_execute (with_tools p ev) {| name := "tavily_search" |}
                       [("query", query)]
            = TavilySearchTool_execute_impl p query) by reflexivity.
  split; [|split; [|split]].
  - split; [apply enhance_query_eval|].
    unfold market_suffix.
    destruct (existsb _ vietnamese_market_terms); [simpl; auto|].
    destruct (has_ticker q); simpl; auto.
  - intros hits S O. destruct (formatted_hits hits O) as (Fh & Fs).
    eexists. unfold _arun. rewrite X.
    unfold TavilySearchTool_execute_impl.
    rewrite enhance_query_eval. cbn [bind Ok]. rewrite S.
    cbn [bind Ok]. rewrite Fh, Fs. cbn [bind Ok try_].
    split; [reflexivity|]. split; [reflexivity|]. split; [reflexivity|].
    unfold format_tool_result, format_tool_result_body,
      ToolResult_model_dump, dict_get_default.
    cbn [dict_get String.eqb Ascii.eqb Bool.eqb status data eq_str get_or
         bind Ok iterate].
    unfold dict_get_default.
    cbn [dict_get String.eqb Ascii.eqb Bool.eqb bind Ok iterate].
    rewrite (search_lines_hits hits O). reflexivity.
  - intros e S. eexists. unfold _arun. rewrite X.
    unfold TavilySearchTool_execute_impl.
    rewrite enhance_query_eval. cbn [bind Ok]. rewrite S.
    split; [reflexivity|]. split; [reflexivity|]. split; reflexivity.
  - intros query N. eexists. unfold _arun. rewrite X.
    unfold TavilySearchTool_execute_impl, enhance_query.
    destruct query; try (now destruct (N s));
      split; reflexivity.
Qed.

(** *** The knowledge tool *)

(** [RAGTool._execute_impl] returns its three fields, or the fault
    output. *)
Lemma RAGTool_execute_impl_cases : forall p query,
  RAGTool_execute_impl p query = Ok RAG_FAULT_OUTPUT
  \/ exists search_results items knowledge_context sources scores,
       retrieve p query = Ok search_results
       /\ iterate search_results = Ok items
       /\ _format_knowledge_context search_results = Ok knowledge_context
       /\ List.length sources = List.length items
       /\ List.length scores = List.length items
       /\ RAGTool_execute_impl p query
          = Ok (VDict [("knowledge_context", VStr knowledge_context);
                       ("sources", VList sources);
                       ("scores", VList scores)]).
Proof.
  intros p query. unfold RAGTool_execute_impl.
  destruct (retrieve p query) as [search_results|] eqn:R; [|now left].
  cbn [bind].
  destruct (_format_knowledge_context search_results) as [kc|] eqn:K;
    [|now left].
  cbn [bind]. unfold RAGTool_extract_sources.
  destruct (iterate search_results) as [items|] eqn:I; [|now left].
  cbn [bind].
  destruct (traverse (fun result => get_or result "metadata" (VDict [])) items)
    as [sources|] eqn:S; [|now left].
  cbn [bind].
  destruct (traverse (fun result => get_or result "score" (VInt 0)) items)
    as [scores|] eqn:C; [|now left].
  cbn [bind].
  destruct (match scores with [] => Ok (VFloat "0.0") | _ => py_mean scores end);
    [|now left].
  cbn [bind].
  destruct (traverse as_dict sources) as [sources'|] eqn:S'; [|now left].
  cbn [bind].
  destruct (traverse as_float scores) as [scores'|] eqn:C'; [|now left].
  right. exists search_results, items, kc, sources', scores'.
  apply traverse_length in S, C, S', C'.
  split; [reflexivity|]. split; [exact I|]. split; [exact K|].
  split; [congruence|]. split; [congruence|]. reflexivity.
Qed.

(** X17.  [RAGTool].  [_execute_impl] never raises and always returns the three
    fields [knowledge_context], [sources] and [scores], with as many
    sources as scores: one of each per retrieved document, or none at all
    together with an empty context when anything faulted on the way (the
    retriever, a document that is not an object, a score that is no
    number).  A retrieval that finds nothing is told apart from a fault:
    it gives the "not found" sentence as context.  The tool reports
    ["success"] either way, and the observation is the context followed
    by the sources. *)
Theorem rag_knowledge_context :
  forall (p : Providers) (query : value),
    (exists knowledge_context sources scores,
       RAGTool_execute_impl p query
       = Ok (VDict [("knowledge_context", VStr knowledge_context);
                    ("sources", VList sources);
                    ("scores", VList scores)])
       /\ List.length sources = List.length scores
       /\ (forall documents,
             retrieve p query = Ok (VList documents) ->
             (knowledge_context = "" /\ sources = [] /\ scores = [])
             \/ List.length sources = List.length documents)
       /\ (forall ev,
           exists r,
             _arun (with_tools p ev) {| name := "rag_knowledge" |}
                   [("query", query)] = Ok r
             /\ status r = "success"
             /\ format_tool_result "rag_knowledge" (ToolResult_model_dump r)
                = Ok ("Knowledge context: " ++ knowledge_context ++ " " ++ nl
                      ++ "Sources: " ++ py_str (VList sources))))
    /\ (retrieve p query = Ok (VList []) ->
        RAGTool_execute_impl p query
        = Ok (VDict [("knowledge_context", VStr NOT_FOUND_CONTEXT);
                     ("sources", VList []);
                     ("scores", VList [])]))
    /\ (forall e,
          retrieve p query = inr e ->
          RAGTool_execute_impl p query = Ok RAG_FAULT_OUTPUT).
Proof.
  intros p query.
  assert (X : forall ev,
            ev_execute (with_tools p ev) {| name := "rag_knowledge" |}
                       [("query", query)]
            = RAGTool_execute_impl p query) by reflexivity.
  split; [|split].
  - destruct (RAGTool_execute_impl_cases p query)
      as [E | (search_results & items & kc & sources & scores
               & R & I & K & Ls & Lc & E)].
    + exists "", [], []. split; [exact E|]. split; [reflexivity|].
      split; [intros documents _; now left|].
      intros ev. eexists. unfold _arun. rewrite X, E.
      split; [reflexivity|]. split; reflexivity.
    + exists kc, sources, scores. split; [exact E|].
      split; [congruence|]. split.
      * intros documents R'. right. rewrite R in R'. unfold Ok in R'.
        inversion R'; subst. simpl in I. unfold Ok in I. inversion I; subst.
        exact Ls.
      * intros ev. eexists. unfold _arun. rewrite X, E.
        split; [reflexivity|]. split; reflexivity.
  - intros R. unfold RAGTool_execute_impl. rewrite R. reflexivity.
  - intros e R. unfold RAGTool_execute_impl. now rewrite R.
Qed.

(** *** The chat tool *)

(** X18.  [ChatTool].  [_execute_impl] never raises and always returns the
    single field [response], a text.  It is the reply of the chat
    provider when that is an object whose [response] is a text free of
    the three sensitive terms (compared in lower case), the filter's
    notice when the text holds one of them, and the empty text in every
    other case: a fault of the provider, a reply that is no object, a
    [response] that is no text.  The tool reports ["success"] in all of
    them, and the observation is ["LLM response: "] followed by that
    text. *)
Theorem chat_tool_reply :
  forall (p : Providers) (ev : Event) (chat_messages : value),
  exists response,
    ChatTool_execute_impl p chat_messages
    = Ok (VDict [("response", VStr response)])
    /\ (forall reply text,
          chat p chat_messages = Ok (VDict reply) ->
          dict_get_default "response" (VStr "") reply = VStr text ->
          response
          = if existsb (fun term => contains (str_lower term) (str_lower text))
                       SENSITIVE_TERMS
            then FILTERED_NOTICE else text)
    /\ ((forall reply, chat p chat_messages <> Ok (VDict reply))
        \/ (exists reply,
              chat p chat_messages = Ok (VDict reply)
              /\ forall text,
                   dict_get_default "response" (VStr "") reply <> VStr text) ->
        response = "")
    /\ (exists r,
          _arun (with_tools p ev) {| name := "chat_llm" |}
                [("messages", chat_messages)] = Ok r
          /\ status r = "success"
          /\ format_tool_result "chat_llm" (ToolResult_model_dump r)
             = Ok ("LLM response: " ++ response)).
Proof.
  intros p ev chat_messages.
  assert (X : ev_execute (with_tools p ev) {| name := "chat_llm" |}
                         [("messages", chat_messages)]
              = ChatTool_execute_impl p chat_messages) by reflexivity.
  assert (Obs : forall response,
            ChatTool_execute_impl p chat_messages
            = Ok (VDict [("response", VStr response)]) ->
            exists r,
              _arun (with_tools p ev) {| name := "chat_llm" |}
                    [("messages", chat_messages)] = Ok r
              /\ status r = "success"
              /\ format_tool_result "chat_llm" (ToolResult_model_dump r)
                 = Ok ("LLM response: " ++ response)).
  { intros response E. eexists. unfold _arun. rewrite X, E.
    split; [reflexivity|]. split; reflexivity. }
  unfold ChatTool_execute_impl in *.
  destruct (chat p chat_messages) as [reply|e] eqn:C.
  - destruct reply as [| | | | | |reply];
      try (exists ""; split; [reflexivity|];
           split; [intros ? ? H; discriminate H|];
           split; [reflexivity | now apply Obs]).
    cbn [bind get_or Ok] in *.
    destruct (dict_get_default "response" (VStr "") reply) as [| | | |text| |]
      eqn:G;
      try (exists ""; split; [reflexivity|];
           split; [intros ? ? H; inversion H; subst; congruence|];
           split; [reflexivity | now apply Obs]).
    eexists. split; [reflexivity|].
    split.
    { intros reply' text' H G'. inversion H; subst reply'.
      rewrite G in G'. inversion G'. reflexivity. }
    split; [|now apply Obs].
    intros [N | (reply' & H & N)].
    + now destruct (N reply).
    + inversion H; subst reply'. now destruct (N text).
  - exists "". split; [reflexivity|].
    split; [intros ? ? H; discriminate H|].
    split; [reflexivity | now apply Obs].
Qed.

(** *** Every tool of the registry *)

Lemma StockPriceTool_execute_impl_shape :
  forall p symbols data_type start_date end_date,
  exists results,
    StockPriceTool_execute_impl p symbols data_type start_date end_date
    = Ok (VDict [("results", VDict results)]).
Proof.
  intros p symbols data_type start_date end_date.
  rewrite StockPriceTool_execute_impl_eval.
  destruct (_normalize_symbols symbols) as [normalized|]; [|now eexists].
  destruct (accepts_request _ _ _ _); [|now eexists].
  unfold payload_of.
  destruct (if eq_str data_type "realtime" then _ else _) as [[]|];
    now eexists.
Qed.

Lemma tool_returns_payload : forall p tool_name run_tool kwargs,
  execute_impl p tool_name = Some run_tool ->
  dict_keys kwargs = parameters_of tool_name ->
  (tool_name = "tavily_search" ->
   exists q, dict_get "query" kwargs = Some (VStr q)) ->
  exists payload, run_tool kwargs = Ok payload.
Proof.
  intros p tool_name run_tool kwargs E K Q.
  unfold execute_impl in E. unfold parameters_of in K.
  repeat match type of E with
         | context [String.eqb tool_name ?k] =>
             destruct (String.eqb_spec tool_name k) as [->|]
         end; try discriminate;
    inversion E; subst run_tool; clear E;
    cbn [existsb String.eqb Ascii.eqb Bool.eqb orb] in K.
  - destruct kwargs as [|[k1 v1] [|[k2 v2] [|[k3 v3] [|[k4 v4] [|]]]]];
      try discriminate.
    simpl in K. inversion K; subst.
    destruct (StockPriceTool_execute_impl_shape p v1 v2 v3 v4)
      as (results & R).
    exists (VDict [("results", VDict results)]). rewrite <- R. reflexivity.
  - destruct kwargs as [|[k1 v1] [|]]; try discriminate.
    simpl in K. inversion K; subst.
    cbn [only_keywords keyword dict_keys map fst filter existsb negb orb
         String.eqb Ascii.eqb Bool.eqb dict_get bind Ok].
    unfold FundamentalAnalysisTool_execute_impl, try_, bind, dict_output.
    repeat match goal with
           | |- context [match ?x with _ => _ end] =>
               lazymatch x with
               | context [match _ with _ => _ end] => fail
               | _ => destruct x
               end
           end; now eexists.
  - destruct kwargs as [|[k1 v1] [|]]; try discriminate.
    simpl in K. inversion K; subst.
    cbn [only_keywords keyword dict_keys map fst filter existsb negb orb
         String.eqb Ascii.eqb Bool.eqb dict_get bind Ok].
    unfold IndustryAnalysisTool_execute_impl, try_, bind, dict_output.
    repeat match goal with
           | |- context [match ?x with _ => _ end] =>
               lazymatch x with
               | context [match _ with _ => _ end] => fail
               | _ => destruct x
               end
           end; now eexists.
  - destruct kwargs as [|[k1 v1] [|]]; try discriminate.
    simpl in K. inversion K; subst.
    cbn [only_keywords keyword dict_keys map fst filter existsb negb orb
         String.eqb Ascii.eqb Bool.eqb dict_get bind Ok].
    unfold PeersComparisonTool_execute_impl, try_, bind, dict_output.
    repeat match goal with
           | |- context [match ?x with _ => _ end] =>
               lazymatch x with
               | context [match _ with _ => _ end] => fail
               | _ => destruct x
               end
           end; now eexists.
  - destruct kwargs as [|[k1 v1] [|]]; try discriminate.
    simpl in K. inversion K; subst.
    cbn [only_keywords keyword dict_keys map fst filter existsb negb orb
         String.eqb Ascii.eqb Bool.eqb dict_get bind Ok].
    destruct (RAGTool_execute_impl_cases p v1)
      as [-> | (? & ? & ? & ? & ? & _ & _ & _ & _ & _ & ->)]; now eexists.
  - destruct kwargs as [|[k1 v1] [|]]; try discriminate.
    simpl in K. inversion K; subst.
    destruct (Q eq_refl) as (q & Eq). simpl in Eq. inversion Eq; subst.
    cbn [only_keywords keyword dict_keys map fst filter existsb negb orb
         String.eqb Ascii.eqb Bool.eqb dict_get bind Ok].
    unfold TavilySearchTool_execute_impl. rewrite enhance_query_eval.
    cbn [bind Ok]. unfold try_.
    repeat match goal with
           | |- context [match ?x with _ => _ end] =>
               lazymatch x with
               | context [match _ with _ => _ end] => fail
               | _ => destruct x
               end
           end; now eexists.
  - destruct kwargs as [|[k1 v1] [|]]; try discriminate.
    simpl in K. inversion K; subst.
    cbn [only_keywords keyword dict_keys map fst filter existsb negb orb
         String.eqb Ascii.eqb Bool.eqb dict_get bind Ok].
    unfold ChatTool_execute_impl, try_.
    repeat match goal with
           | |- context [match ?x with _ => _ end] =>
               lazymatch x with
               | context [match _ with _ => _ end] => fail
               | _ => destruct x
               end
           end; now eexists.
Qed.

(** X19.  No tool of the registry reports a failure of its own.  For each of
    the seven tools of [get_tools], called through [_arun] with the
    keywords its [_execute_impl] declares (a text for the query of
    [tavily_search]), the result has status ["success"], whatever the
    values of the arguments and whatever the provider behind the tool
    does: a rejected argument or a fault of the provider shows as an
    empty payload, never as an error.  A call with a keyword the tool
    does not declare fails before the tool's own [try] and is the one
    case reported as ["error"]. *)
Theorem tools_report_success :
  forall (p : Providers) (ev : Event) (key : string) (tool : Tool)
         (kwargs : dict),
    lookup key get_tools = Some tool ->
    (dict_keys kwargs = parameters_of (name tool) ->
     (name tool = "tavily_search" ->
      exists q, dict_get "query" kwargs = Some (VStr q)) ->
     exists r,
       _arun (with_tools p ev) tool kwargs = Ok r
       /\ status r = "success"
       /\ dict_get "tool_name" (metadata r) = Some (VStr key))
    /\ (forall k v,
          ~ In k (parameters_of (name tool)) ->
          exists r,
            _arun (with_tools p ev) tool ((k, v) :: kwargs) = Ok r
            /\ status r = "error"
            /\ data r = VDict []).
Proof.
  intros p ev key tool kwargs L.
  assert (K : name tool = key
              /\ exists run_tool, execute_impl p key = Some run_tool).
  { unfold get_tools in L. cbn [lookup] in L.
    repeat match type of L with
           | context [String.eqb key ?k] =>
               destruct (String.eqb_spec key k) as [->|];
               [inversion L; split; [reflexivity | now eexists]|]
           end.
    discriminate. }
  destruct K as (K & I). rewrite <- K in I.
  destruct I as (run_tool & E). split.
  - intros Keys Q.
    destruct (tool_returns_payload p _ run_tool kwargs E Keys Q)
      as (payload & R).
    eexists. unfold _arun, with_tools. cbn [ev_execute]. rewrite E, R.
    split; [reflexivity|]. split; [reflexivity|]. simpl. now rewrite K.
  - intros k v N.
    assert (R : exists e, run_tool ((k, v) :: kwargs) = inr e).
    { rewrite K in *. unfold execute_impl in E. unfold parameters_of in N.
      repeat match type of E with
             | context [String.eqb key ?c] =>
                 destruct (String.eqb_spec key c) as [->|]
             end; try discriminate;
        inversion E; subst run_tool; clear E;
        cbn [existsb String.eqb Ascii.eqb Bool.eqb orb] in N;
        unfold only_keywords; cbn [dict_keys map fst filter];
        match goal with
        | |- context [existsb (String.eqb k) ?declared] =>
            destruct (existsb (String.eqb k) declared) eqn:D
        end;
        try (apply existsb_exists in D as (x & Ix & Ex);
             apply String.eqb_eq in Ex; subst x; contradiction);
        cbn [negb bind]; now eexists. }
    destruct R as (e & R).
    eexists. unfold _arun, with_tools. cbn [ev_execute]. rewrite E, R.
    split; [reflexivity|]. split; reflexivity.
Qed.

(** ** The session store and the service *)

Lemma try_io_returns : forall (A : Type) (body : IO A) (fallback : A) o,
  exists a o', try_io body (fun _ => ret fallback) o = (Ok a, o').
Proof.
  intros A body fallback o. unfold try_io, ret.
  destruct (body o) as [[a|e] o']; now eexists; eexists.
Qed.

Lemma get_session_returns : forall session_id o,
  exists session o', get_session session_id o = (Ok session, o').
Proof. intros. apply try_io_returns. Qed.

Lemma try_io_done : forall (body : IO unit) o,
  exists o', try_io body (fun _ => ret tt) o = (Ok tt, o').
Proof.
  intros body o. unfold try_io, ret.
  destruct (body o) as [[[]|e] o']; now eexists.
Qed.

Lemma update_conversation_returns : forall session_id message o,
  exists o', update_conversation session_id message o = (Ok tt, o').
Proof. intros. apply try_io_done. Qed.

Lemma get_cached_analysis_returns : forall session_id query_hash ttl o,
  exists cached o',
    get_cached_analysis session_id query_hash ttl o = (Ok cached, o').
Proof.
  intros. unfold get_cached_analysis.
  destruct (blank session_id); [now exists VNone, o|].
  apply try_io_returns.
Qed.

Lemma cache_analysis_returns : forall session_id query_hash result o,
  exists o', cache_analysis session_id query_hash result o = (Ok tt, o').
Proof.
  intros. unfold cache_analysis.
  destruct (blank session_id); [now exists o|].
  apply try_io_done.
Qed.

(** X20.  The session manager absorbs the faults of Redis where it reads and
    where it caches.  [get_session], [update_conversation],
    [get_cached_analysis] and [cache_analysis] return whatever Redis, the
    chat history and the decoder do.  A session that cannot be fetched
    (a fault of Redis, no record, a record that is no JSON) is reported
    as no session; so is a cache entry.  With a blank session id the
    cache is neither read nor written: nothing outside is touched. *)
Theorem session_manager_absorbs_faults :
  forall (session_id : string) (o : Outside),
    (exists session o', get_session session_id o = (Ok session, o'))
    /\ (forall message,
        exists o', update_conversation session_id message o = (Ok tt, o'))
    /\ (forall query_hash ttl,
        exists cached o',
          get_cached_analysis session_id query_hash ttl o = (Ok cached, o'))
    /\ (forall query_hash result,
        exists o',
          cache_analysis session_id query_hash result o = (Ok tt, o'))
    /\ (forall o',
          (exists e,
             redis_get (_get_session_key session_id) o = (inr e, o'))
          \/ redis_get (_get_session_key session_id) o = (Ok None, o')
          \/ (exists text e,
                redis_get (_get_session_key session_id) o
                = (Ok (Some text), o')
                /\ json_loads text = inr e) ->
          get_session session_id o = (Ok None, o'))
    /\ (forall query_hash ttl o',
          blank session_id = false ->
          (exists e,
             redis_get (cache_key session_id query_hash) o = (inr e, o'))
          \/ redis_get (cache_key session_id query_hash) o = (Ok None, o')
          \/ (exists text e,
                redis_get (cache_key session_id query_hash) o
                = (Ok (Some text), o')
                /\ json_loads text = inr e) ->
          get_cached_analysis session_id query_hash ttl o = (Ok VNone, o'))
    /\ (blank session_id = true ->
        forall query_hash,
          (forall ttl,
             get_cached_analysis session_id query_hash ttl o = (Ok VNone, o))
          /\ (forall result,
                cache_analysis session_id query_hash result o = (Ok tt, o))).
Proof.
  intros session_id o.
  split; [apply get_session_returns|].
  split; [intros; apply update_conversation_returns|].
  split; [intros; apply get_cached_analysis_returns|].
  split; [intros; apply cache_analysis_returns|].
  split; [|split].
  - intros o' [(e & R) | [R | (text & e & R & J)]];
      unfold get_session, try_io, bind_io, lift, ret; cbv zeta; rewrite R;
      try reflexivity.
    unfold Ok. cbv beta iota.
    destruct (str_truthy text); [|reflexivity]. now rewrite J.
  - intros query_hash ttl o' B H. unfold get_cached_analysis. rewrite B.
    destruct H as [(e & R) | [R | (text & e & R & J)]];
      unfold try_io, bind_io, lift, ret; rewrite R; try reflexivity.
    unfold Ok. cbv beta iota.
    destruct (str_truthy text); [|reflexivity]. now rewrite J.
  - intros B query_hash. unfold get_cached_analysis, cache_analysis.
    rewrite B. split; reflexivity.
Qed.

Lemma or_else_idempotent : forall v default,
  truthy default = false ->
  or_else (or_else v default) default = or_else v default.
Proof.
  intros v default D. unfold or_else.
  destruct (truthy v) eqn:T; [now rewrite T | now rewrite D].
Qed.

Lemma _deserialize_session_data_object : forall d o,
  _deserialize_session_data (VDict d) o
  = (Ok {| sd_session_id := dict_get_default "session_id" (VStr "") d;
           created_at :=
             dict_get_default "created_at" (fst (time_time o)) d;
           last_accessed :=
             dict_get_default "last_accessed"
               (fst (time_time (clock_read 1 o))) d;
           analysis_cache := dict_get_default "analysis_cache" (VDict []) d;
           sd_metadata := dict_get_default "metadata" (VDict []) d;
           conversation_history :=
             dict_get_default "conversation_history" (VList []) d |},
     clock_read 2 o).
Proof. reflexivity. Qed.

(** X21.  A session survives its record.  Decoding the record
    [_serialize_session_data] writes gives the session back, with an
    empty object or list where [analysis_cache], [metadata] or
    [conversation_history] held nothing, after two readings of the clock;
    writing that session again gives the same record.  What is not an
    object cannot be decoded: [_deserialize_session_data] raises, as its
    own [except] clause does.  So [get_session] returns the stored
    session, accessed now, when Redis holds its record and takes the
    refreshed one; it reports no session when the refreshed record
    cannot be written. *)
Theorem session_data_round_trip :
  forall (session : SessionData) (o : Outside),
    _deserialize_session_data (_serialize_session_data session) o
    = (Ok (stored session), clock_read 2 o)
    /\ _serialize_session_data (stored session)
       = _serialize_session_data session
    /\ (forall data,
          (forall d, data <> VDict d) ->
          exists e, _deserialize_session_data data o = (inr e, o))
    /\ (forall session_id text o1,
          redis_get (_get_session_key session_id) o = (Ok (Some text), o1) ->
          text <> "" ->
          json_loads text = Ok (_serialize_session_data session) ->
          let now := fst (time_time (clock_read 2 o1)) in
          let refreshed := touched now (stored session) in
          let written :=
            redis_setex (_get_session_key session_id) default_ttl
              (json_dumps_ascii (_serialize_session_data refreshed))
              (clock_read 3 o1) in
          get_session session_id o
          = (match fst written with
             | inl _ => Ok (Some refreshed)
             | inr _ => Ok None
             end, snd written)).
Proof.
  intros session o. split; [reflexivity|]. split; [|split].
  - unfold _serialize_session_data, stored. cbn [analysis_cache sd_metadata
      conversation_history sd_session_id created_at last_accessed].
    now rewrite !or_else_idempotent.
  - intros data N. unfold _deserialize_session_data, try_io, bind_io, lift.
    destruct data; try (now eexists). now destruct (N entries).
  - intros session_id text o1 R T J now refreshed written.
    unfold get_session, try_io, bind_io. cbv zeta. rewrite R.
    unfold Ok at 1. cbv beta iota.
    apply str_truthy_iff in T. rewrite T. unfold lift at 1. rewrite J.
    unfold Ok at 1. cbv beta iota.
    unfold _serialize_session_data at 1.
    rewrite _deserialize_session_data_object.
    unfold Ok at 1. cbv beta iota. unfold call at 1.
    unfold Ok at 1. cbv beta iota.
    change (redis_setex _ _ _ _) with written.
    destruct written as [[[]|e] o']; reflexivity.
Qed.

(** [create_session_with_id] on a blank id. *)
Lemma create_session_with_id_blank : forall session_id session_metadata o,
  blank session_id = true ->
  create_session_with_id session_id session_metadata o
  = (Raise ValueError "Session ID cannot be empty", o).
Proof.
  intros session_id session_metadata o B.
  unfold create_session_with_id. now rewrite B.
Qed.

(** [create_session_with_id] on an id Redis knows. *)
Lemma create_session_with_id_exists :
  forall session_id session_metadata o found o',
    blank session_id = false ->
    redis_exists (_get_session_key session_id) o = (Ok found, o') ->
    found <> 0%Z ->
    create_session_with_id session_id session_metadata o
    = (Raise ValueError
         ("Session with ID " ++ session_id ++ " already exists"), o').
Proof.
  intros session_id session_metadata o found o' B E N.
  unfold create_session_with_id, bind_io. rewrite B, E.
  unfold Ok. cbv beta iota.
  destruct (Z.eqb_spec found 0); [contradiction | reflexivity].
Qed.

(** X22.  The session a request runs in.  A request without a session id, or
    with an empty one, gets a fresh session under a new id.  A request
    with an id runs under that id when [_ensure_session] returns at all:
    the session found is used as it is, and no session is created.  An
    id of white space only is rejected with a [ValueError] unless Redis
    holds a session under it.  When the record of the session cannot be
    read (it is no JSON) while Redis still has its key, the session can
    be neither used nor created: the request fails with "already
    exists".  A fault of Redis while a session is created is not
    absorbed: it is raised. *)
Theorem ensure_session_outcomes :
  forall (session_id : option string) (o : Outside),
    (opt_truthy session_id = false ->
     _ensure_session session_id o = create_session (VDict []) o
     /\ forall effective_session_id o',
          _ensure_session session_id o = (Ok effective_session_id, o') ->
          effective_session_id = fst (uuid4 o))
    /\ (forall given,
          session_id = Some given -> given <> "" ->
          (forall effective_session_id o',
             _ensure_session session_id o = (Ok effective_session_id, o') ->
             effective_session_id = given)
          /\ (forall session o',
                get_session given o = (Ok (Some session), o') ->
                _ensure_session session_id o = (Ok given, o'))
          /\ (forall o',
                strip given = "" ->
                get_session given o = (Ok None, o') ->
                _ensure_session session_id o
                = (Raise ValueError "Session ID cannot be empty", o'))
          /\ (forall text e o1 found o2,
                strip given <> "" ->
                redis_get (_get_session_key given) o = (Ok (Some text), o1) ->
                json_loads text = inr e ->
                redis_exists (_get_session_key given) o1 = (Ok found, o2) ->
                found <> 0%Z ->
                _ensure_session session_id o
                = (Raise ValueError
                     ("Session with ID " ++ given ++ " already exists"),
                   o2))
          /\ (forall o1 e o2,
                strip given <> "" ->
                get_session given o = (Ok None, o1) ->
                redis_exists (_get_session_key given) o1 = (inr e, o2) ->
                _ensure_session session_id o = (inr e, o2)))
    /\ (forall e o',
          redis_setex (_get_session_key (fst (uuid4 o))) default_ttl
            (json_dumps_ascii
               (_serialize_session_data
                  {| sd_session_id := VStr (fst (uuid4 o));
                     created_at := fst (time_time (snd (uuid4 o)));
                     last_accessed :=
                       fst (time_time (clock_read 1 (snd (uuid4 o))));
                     analysis_cache := VDict [];
                     sd_metadata := VDict [];
                     conversation_history := VList [] |}))
            (clock_read 2 (snd (uuid4 o)))
          = (inr e, o') ->
          create_session (VDict []) o = (inr e, o')).
Proof.
  intros session_id o. split; [|split].
  - intros T.
    assert (E : _ensure_session session_id o = create_session (VDict []) o).
    { unfold _ensure_session. destruct session_id as [given|]; [|reflexivity].
      simpl in T. now rewrite T. }
    split; [exact E|]. intros sid o'. rewrite E.
    unfold create_session, bind_io, call, ret. unfold Ok at 1.
    cbv beta iota.
    destruct (store_new_session _ _ _) as [[[]|e] o2]; intros H;
      inversion H. reflexivity.
  - intros given -> N. apply str_truthy_iff in N.
    assert (B : strip given <> "" -> blank given = false).
    { intros S. unfold blank. rewrite N.
      apply str_truthy_iff in S. now rewrite S. }
    unfold _ensure_session. rewrite N. unfold bind_io.
    split; [|split; [|split; [|split]]].
    + intros sid o'.
      destruct (get_session given o) as [[[session|]|e] o1];
        unfold ret; try (intros H; now inversion H).
      destruct (create_session_with_id given (VDict []) o1) as [[[]|e] o2];
        intros H; now inversion H.
    + intros session o' ->. reflexivity.
    + intros o' S ->. unfold Ok. cbv beta iota.
      rewrite create_session_with_id_blank; [reflexivity|].
      unfold blank. rewrite S. now rewrite orb_true_r.
    + intros text e o1 found o2 S R J E F.
      assert (G : get_session given o = (Ok None, o1)).
      { unfold get_session, try_io, bind_io, lift, ret. cbv zeta. rewrite R.
        unfold Ok. cbv beta iota.
        destruct (str_truthy text); [|reflexivity]. now rewrite J. }
      rewrite G. unfold Ok. cbv beta iota.
      erewrite create_session_with_id_exists;
        [reflexivity | exact (B S) | exact E | exact F].
    + intros o1 e o2 S -> E. unfold Ok. cbv beta iota.
      unfold create_session_with_id, bind_io. rewrite (B S), E.
      reflexivity.
  - intros e o' W. unfold create_session, bind_io, call. unfold Ok at 1.
    cbv beta iota. unfold store_new_session, bind_io, call.
    unfold Ok at 1 2. cbv beta iota. simpl clock_read in W.
    rewrite W. reflexivity.
Qed.

(** What an assignment leaves in an object. *)
Lemma setitem_object : forall d k v,
  exists d',
    setitem (VDict d) k v = Ok (VDict d')
    /\ dict_get k d' = Some v
    /\ (forall k', k' <> k -> dict_get k' d' = dict_get k' d).
Proof.
  intros d k v. unfold setitem. eexists. split; [reflexivity|].
  unfold dict_has, append.
  induction d as [|[k0 v0] d IH].
  - simpl. rewrite String.eqb_refl. split; [reflexivity|].
    intros k' N. apply String.eqb_neq in N. now rewrite N.
  - cbn [dict_get]. destruct (String.eqb_spec k k0) as [->|N0].
    + cbn [map fst dict_get]. rewrite String.eqb_refl.
      cbn [dict_get]. rewrite String.eqb_refl. split; [reflexivity|].
      intros k' N. apply String.eqb_neq in N. rewrite N.
      clear IH. induction d as [|[k1 v1] d IHd]; [reflexivity|].
      cbn [map fst dict_get].
      destruct (String.eqb_spec k0 k1) as [->|N1].
      * cbn [dict_get fst]. now rewrite N.
      * cbn [dict_get]. now rewrite IHd.
    + destruct (dict_get k d) eqn:G.
      * cbn [map fst]. apply String.eqb_neq in N0. rewrite N0.
        cbn [dict_get]. rewrite N0. destruct IH as (IH1 & IH2).
        split; [exact IH1|]. intros k' N.
        destruct (String.eqb k' k0); [reflexivity | now apply IH2].
      * cbn [app dict_get]. apply String.eqb_neq in N0. rewrite N0.
        destruct IH as (IH1 & IH2). split; [exact IH1|]. intros k' N.
        destruct (String.eqb k' k0); [reflexivity | now apply IH2].
Qed.

Lemma setitem_other : forall target k v,
  (forall d, target <> VDict d) -> exists e, setitem target k v = inr e.
Proof.
  intros target k v N. destruct target; try (now eexists).
  now destruct (N entries).
Qed.

(** What the two assignments of a cache hit do. *)
Lemma mark_cached_object : forall d md effective_session_id,
  dict_get "metadata" d = Some (VDict md) ->
  exists d' md',
    mark_cached (VDict d) effective_session_id = Ok (VDict d')
    /\ dict_get "metadata" d' = Some (VDict md')
    /\ dict_get "session_id" md' = Some (VStr effective_session_id)
    /\ dict_get "cached" md' = Some (VBool true)
    /\ (forall k, k <> "metadata" -> dict_get k d' = dict_get k d)
    /\ (forall k, k <> "session_id" -> k <> "cached" ->
                  dict_get k md' = dict_get k md).
Proof.
  intros d md sid M. unfold mark_cached, subscript. rewrite M.
  cbn [bind Ok].
  destruct (setitem_object md "session_id" (VStr sid)) as (md1 & E1 & G1 & F1).
  rewrite E1. cbn [bind Ok].
  destruct (setitem_object md1 "cached" (VBool true)) as (md2 & E2 & G2 & F2).
  rewrite E2. cbn [bind Ok].
  destruct (setitem_object d "metadata" (VDict md2)) as (d' & E3 & G3 & F3).
  exists d', md2. split; [exact E3|]. split; [exact G3|].
  split; [rewrite F2 by discriminate; exact G1|].
  split; [exact G2|]. split; [exact F3|].
  intros k N1 N2. rewrite F2 by exact N2. now apply F1.
Qed.

Lemma mark_cached_inv : forall cached_result effective_session_id marked,
  mark_cached cached_result effective_session_id = Ok marked ->
  exists d md,
    marked = VDict d
    /\ dict_get "metadata" d = Some (VDict md)
    /\ dict_get "cached" md = Some (VBool true).
Proof.
  intros cached sid marked H.
  destruct cached as [| | | | |l|d]; try discriminate.
  unfold mark_cached, subscript in H.
  destruct (dict_get "metadata" d) as [entry|] eqn:M; [|discriminate].
  destruct entry as [| | | | |l|md]; try discriminate.
  destruct (@mark_cached_object d md sid M)
    as (d' & md' & E & G & _ & C & _).
  unfold mark_cached, subscript in E. rewrite M in E. rewrite E in H.
  inversion H. now exists d', md'.
Qed.

(** X23.  A request served from the cache.  When the session has a cached
    answer to the query, [analyze] returns it without running the
    workflow and without touching anything else outside; the answer
    carries the session id of the request and [cached = True], and is
    otherwise what the cache holds.  What [analyze] caches after a run
    comes back with [cached] turned to [True] and nothing else changed.
    A cache entry that is no object, or has no [metadata], makes the
    request fail: the assignment is outside the [try]. *)
Theorem analyze_cache_hit :
  forall (checkpoint : option AgentState) (w : World) (query : string)
         (session_id : option string) (o : Outside)
         (effective_session_id : string) (o1 : Outside)
         (cached_result : value) (o2 : Outside),
    _ensure_session session_id o = (Ok effective_session_id, o1) ->
    get_cached_analysis effective_session_id (_generate_query_hash query) 300
                        o1
    = (Ok cached_result, o2) ->
    truthy cached_result = true ->
    analyze checkpoint w query session_id o
    = (mark_cached cached_result effective_session_id, o2)
    /\ (forall d md,
          cached_result = VDict d ->
          dict_get "metadata" d = Some (VDict md) ->
          exists d' md',
            mark_cached cached_result effective_session_id = Ok (VDict d')
            /\ dict_get "metadata" d' = Some (VDict md')
            /\ dict_get "session_id" md' = Some (VStr effective_session_id)
            /\ dict_get "cached" md' = Some (VBool true)
            /\ (forall k, k <> "metadata" -> dict_get k d' = dict_get k d)
            /\ (forall k, k <> "session_id" -> k <> "cached" ->
                          dict_get k md' = dict_get k md))
    /\ (forall final_result execution_time,
          cached_result
          = analysis_result final_result effective_session_id
                            (_generate_query_hash query) execution_time ->
          exists entries,
            analysis_result final_result effective_session_id
                            (_generate_query_hash query) execution_time
            = VDict [("answer", VStr (answer final_result));
                     ("metadata", VDict entries)]
            /\ mark_cached cached_result effective_session_id
               = Ok (VDict [("answer", VStr (answer final_result));
                            ("metadata",
                             VDict (map (fun kv =>
                                           if String.eqb (fst kv) "cached"
                                           then ("cached", VBool true)
                                           else kv) entries))]))
    /\ ((forall d, cached_result <> VDict d)
        \/ (exists d, cached_result = VDict d
                      /\ forall md, dict_get "metadata" d <> Some (VDict md)) ->
        exists e, mark_cached cached_result effective_session_id = inr e).
Proof.
  intros checkpoint w query session_id o sid o1 cached o2 S G T.
  split; [|split; [|split]].
  - unfold analyze, bind_io. rewrite S. unfold Ok at 1. cbv beta iota zeta.
    rewrite G. unfold Ok at 1. cbv beta iota. now rewrite T.
  - intros d md -> M. now apply mark_cached_object.
  - intros final_result execution_time ->. eexists. split; reflexivity.
  - intros [N | (d & -> & N)].
    + unfold mark_cached, subscript.
      destruct cached; try (now eexists). now destruct (N entries).
    + unfold mark_cached, subscript.
      destruct (dict_get "metadata" d) as [entry|]; [|now eexists].
      cbn [bind Ok].
      destruct entry; try (now eexists). now destruct (N entries).
Qed.

(** The readings of the clock add up. *)
Lemma clock_read_add : forall a b o,
  clock_read a (clock_read b o) = clock_read (a + b) o.
Proof.
  induction a as [|a IH]; intros b o; simpl; [reflexivity|].
  now rewrite IH.
Qed.

(** The reasoning node reads the clock. *)
Lemma supersteps_clock_reasoning : forall k w t s goal,
  plan s = VStr goal ->
  1 <= supersteps_clock (S k) w t reasoning s.
Proof.
  intros k w t s goal P. cbn [supersteps_clock].
  rewrite (@validate_text _ goal) by exact P.
  unfold Ok. cbn [clock_readings]. lia.
Qed.

(** The reasoning node always runs. *)
Lemma run_clock_positive : forall checkpoint w query,
  1 <= run_clock checkpoint w query.
Proof.
  intros checkpoint w query.
  unfold run_clock, ainvoke_clock, DEFAULT_RECURSION_LIMIT.
  apply (@supersteps_clock_reasoning 24 w 0 _ "").
  now destruct checkpoint.
Qed.

(** X24.  A request that runs the workflow.  On a cache miss [analyze] returns
    the record of [run], with the records of the steps serialized, under
    the session id of the request and with [cached = False]: the
    conversation is updated, the workflow runs on the thread of the
    session, and the result is cached when the run succeeded, and only
    then (a run that failed is answered with the apology of [run] and is
    not cached).  The execution time is the difference of the last and
    the first reading of the clock by [run]; in between the nodes and the
    tools read the clock [run_clock] times, at least once.  Nothing in
    the [try] can raise, so the [except] clause of [analyze] is never
    entered: its apology is never the answer of a request, whatever
    Redis, the chat model, the tools and the checkpointer do.  A request
    fails only where the session is established or a cached answer is
    marked. *)
Theorem analyze_fresh_result :
  forall (checkpoint : option AgentState) (w : World) (query : string)
         (session_id : option string) (o : Outside),
    (forall e effective_session_id query_hash,
       fst (analyze checkpoint w query session_id o)
       <> Ok (analysis_error_result e effective_session_id query_hash))
    /\ (forall effective_session_id o1 cached_result o2,
          _ensure_session session_id o = (Ok effective_session_id, o1) ->
          get_cached_analysis effective_session_id
                              (_generate_query_hash query) 300 o1
          = (Ok cached_result, o2) ->
          truthy cached_result = false ->
          exists final_result o3,
            update_conversation effective_session_id (HumanMessage query) o2
            = (Ok tt, o3)
            /\ run checkpoint w query (Some effective_session_id)
               = Ok final_result
            /\ 1 <= run_clock checkpoint w query
            /\ let readings := run_clock checkpoint w query in
               let result :=
                 analysis_result final_result effective_session_id
                   (_generate_query_hash query)
                   (float_sub
                      (fst (time_time (clock_read (readings + 1) o3)))
                      (fst (time_time o3))) in
               analyze checkpoint w query session_id o
               = (Ok result,
                  if md_success (run_metadata final_result)
                  then snd (cache_analysis effective_session_id
                              (_generate_query_hash query) result
                              (clock_read (readings + 2) o3))
                  else clock_read (readings + 2) o3))
    /\ (forall e o1,
          _ensure_session session_id o = (inr e, o1) ->
          analyze checkpoint w query session_id o = (inr e, o1)).
Proof.
  intros checkpoint w query session_id o.
  assert (Miss : forall sid o1 cached o2,
            _ensure_session session_id o = (Ok sid, o1) ->
            get_cached_analysis sid (_generate_query_hash query) 300 o1
            = (Ok cached, o2) ->
            truthy cached = false ->
            exists final_result o3,
              update_conversation sid (HumanMessage query) o2 = (Ok tt, o3)
              /\ run checkpoint w query (Some sid) = Ok final_result
              /\ 1 <= run_clock checkpoint w query
              /\ analyze checkpoint w query session_id o
                 = (Ok (analysis_result final_result sid
                          (_generate_query_hash query)
                          (float_sub
                             (fst (time_time
                                     (clock_read
                                        (run_clock checkpoint w query + 1)
                                        o3)))
                             (fst (time_time o3)))),
                    if md_success (run_metadata final_result)
                    then snd (cache_analysis sid
                                (_generate_query_hash query)
                                (analysis_result final_result sid
                                   (_generate_query_hash query)
                                   (float_sub
                                      (fst (time_time
                                              (clock_read
                                                 (run_clock checkpoint w
                                                    query + 1) o3)))
                                      (fst (time_time o3))))
                                (clock_read
                                   (run_clock checkpoint w query + 2) o3))
                    else clock_read (run_clock checkpoint w query + 2) o3)).
  { intros sid o1 cached o2 Es G T.
    destruct (update_conversation_returns sid (HumanMessage query) o2)
      as (o3 & U).
    destruct (run_returns checkpoint w query (Some sid)) as (r & R & _).
    exists r, o3. split; [exact U|]. split; [exact R|].
    split; [apply run_clock_positive|].
    unfold analyze, bind_io. rewrite Es. unfold Ok at 1. cbv beta iota zeta.
    rewrite G. unfold Ok at 1. cbv beta iota. rewrite T.
    unfold try_io. rewrite U. unfold Ok at 1. cbv beta iota.
    unfold call at 1. unfold Ok at 1. cbv beta iota.
    unfold call at 1. unfold Ok at 1. cbv beta iota.
    unfold lift at 1. rewrite R. unfold Ok at 1. cbv beta iota.
    unfold call at 1. unfold Ok at 1. cbv beta iota.
    cbn [fst snd].
    generalize (run_clock checkpoint w query). intros readings.
    change (snd (time_time o3)) with (clock_read 1 o3).
    rewrite clock_read_add.
    change (snd (time_time (clock_read (readings + 1) o3)))
      with (clock_read (S (readings + 1)) o3).
    replace (S (readings + 1)) with (readings + 2) by lia.
    destruct (md_success (run_metadata r)); [|reflexivity].
    destruct (cache_analysis_returns sid (_generate_query_hash query)
                (analysis_result r sid (_generate_query_hash query)
                   (float_sub
                      (fst (time_time (clock_read (readings + 1) o3)))
                      (fst (time_time o3))))
                (clock_read (readings + 2) o3))
      as (o4 & C).
    rewrite C. reflexivity. }
  split; [|split].
  - intros e sid' h'.
    destruct (_ensure_session session_id o) as [[sid|e0] o1] eqn:S.
    2:{ unfold analyze, bind_io. rewrite S. discriminate. }
    destruct (get_cached_analysis_returns sid (_generate_query_hash query)
                300%Z o1) as (cached & o2 & G).
    destruct (truthy cached) eqn:T.
    + unfold analyze, bind_io. rewrite S. unfold Ok at 1.
      cbv beta iota zeta. rewrite G. unfold Ok at 1. cbv beta iota.
      rewrite T. unfold lift. cbn [fst]. intros H.
      apply mark_cached_inv in H as (d & md & E & M & C).
      unfold analysis_error_result in E. inversion E; subst d.
      cbn in M. inversion M; subst md. cbn in C. discriminate.
    + destruct (Miss sid o1 cached o2 eq_refl G T)
        as (r & o3 & _ & _ & _ & A).
      rewrite A. cbn [fst]. unfold analysis_result, analysis_error_result.
      intros H. inversion H.
  - exact Miss.
  - intros e o1 S. unfold analyze, bind_io. now rewrite S.
Qed.

End ReAct.

(* ================================================================== *)
(** * The model at work                                                 *)
(* ================================================================== *)

Import Scenario.

Local Abbreviation lite_run_config :=
  (run_config Lite.loads Lite.dumps LiteModels.str_of LiteModels.error_text
              LiteModels.construct_input get_tools).
Local Abbreviation lite_ainvoke :=
  (ainvoke Lite.loads Lite.dumps LiteModels.str_of LiteModels.error_text
           LiteModels.construct_input get_tools).
Local Abbreviation lite_run_visited :=
  (run_visited Lite.loads Lite.dumps LiteModels.str_of LiteModels.error_text
               LiteModels.construct_input get_tools).
Local Abbreviation lite_action_node :=
  (_action_node Lite.loads Lite.dumps LiteModels.str_of LiteModels.error_text
                LiteModels.construct_input get_tools).
Local Abbreviation lite_reflection_node :=
  (_reflection_node Lite.loads LiteModels.str_of LiteModels.error_text).
Local Abbreviation lite_parse_tool_usage :=
  (parse_tool_usage Lite.loads Lite.dumps LiteModels.error_text get_tools).
Local Abbreviation lite_execute_tool_safely :=
  (_execute_tool_safely Lite.loads LiteModels.error_text
                        LiteModels.construct_input get_tools).
Local Abbreviation lite_format_tool_result :=
  (format_tool_result Lite.dumps LiteModels.str_of LiteModels.error_text).

(** ** The patterns on sample texts *)

Example search_final_answer_first_line :
  search_final_answer
    ("x **FINAL ANSWER**:  " ++ nl ++ " hello you " ++ nl ++ "more")
  = Some "hello you ".
Proof. reflexivity. Qed.

Example search_final_answer_nothing_after :
  search_final_answer ("**FINAL ANSWER**:  " ++ nl ++ nl) = Some "".
Proof. reflexivity. Qed.

Example search_json_block_leftmost :
  search_json_block
    ("```json" ++ nl ++ "```json" ++ nl ++ "x" ++ nl ++ "```" ++ nl ++ "```")
  = Some ("```json" ++ nl ++ "x").
Proof. reflexivity. Qed.

Example search_json_block_unclosed :
  search_json_block ("```json" ++ nl ++ "```") = None.
Proof. reflexivity. Qed.

Example clean_evaluation_fenced :
  clean_evaluation
    ("  ```json" ++ nl ++ (requote "{'a':") ++ nl ++ "  1}   ```" ++ nl ++ " x ```" ++ nl)
  = (requote "{'a': 1} x").
Proof. reflexivity. Qed.

Example any_fence_removed :
  sub_empty any_fence_len true 0
    ("```" ++ nl ++ "abc" ++ nl ++ "```" ++ nl ++ "```x")
  = "abc" ++ nl ++ "```x".
Proof. reflexivity. Qed.

(** ** The claims on the scenarios *)

(** C1 at the price scenario: a recursion limit of 32 lets the graph
    reach [END] with an answer unless a validation stops it, and the edge
    ends a run at the ceiling. *)
Lemma run_terminates_witness :
  (exists visited outcome,
     lite_ainvoke 32 None world_price (initial_state price_query)
     = (visited, outcome)
     /\ match outcome with
        | inl final_state => opt_truthy (final_answer final_state) = true
        | inr e => exn_cls e = ValidationError
        end)
  /\ _should_continue (set_current_step 10 (initial_state price_query))
     = "end".
Proof.
  destruct (run_terminates_within_max_steps
              Lite.loads Lite.dumps LiteModels.str_of LiteModels.error_text
              LiteModels.construct_input get_tools
              32 None world_price price_query None)
    as (_ & _ & Completes & Ceiling).
  split.
  - apply Completes. vm_compute. apply le_n.
  - apply Ceiling. vm_compute. discriminate.
Defined.

(** C2 at the greeting scenario: the answer the reasoning node sets at the
    first superstep is still there two supersteps later. *)
Lemma final_answer_precedence_witness :
  final_answer (state_of (lite_run_config world_greeting "Xin chào" 3))
  = Some "Xin chào! Tôi là Milano Agent."
  /\ node_of (lite_run_config world_greeting "Xin chào" 3) <> reasoning
  /\ _should_continue (state_of (lite_run_config world_greeting "Xin chào" 3))
     = "end".
Proof.
  destruct (final_answer_precedence
              Lite.loads Lite.dumps LiteModels.str_of LiteModels.error_text
              LiteModels.construct_input get_tools
              world_greeting "Xin chào" 1 3
              (node_of (lite_run_config world_greeting "Xin chào" 1))
              (node_of (lite_run_config world_greeting "Xin chào" 3))
              (state_of (lite_run_config world_greeting "Xin chào" 1))
              (state_of (lite_run_config world_greeting "Xin chào" 3))
              "Xin chào! Tôi là Milano Agent.")
    as (Kept & Away & Ends & _).
  - vm_compute. reflexivity.
  - vm_compute. reflexivity.
  - apply le_S, le_S, le_n.
  - vm_compute. reflexivity.
  - discriminate.
  - repeat split; assumption.
Defined.

(** C2 as stated fails on an empty answer: the reasoning node sets
    [final_answer] to the empty text (non-null), the conditional edge then
    routes back to the reasoning node, and that node replaces the answer. *)
Lemma empty_final_answer_counterexample :
  observe (lite_run_config world_empty_answer "Xin chào" 1)
  = Some (action, Some "")
  /\ observe (lite_run_config world_empty_answer "Xin chào" 3)
     = Some (reasoning, Some "")
  /\ observe (lite_run_config world_empty_answer "Xin chào" 4)
     = Some (action, Some "Xin chào").
Proof. vm_compute. repeat split. Qed.

(** The registry of the repository files every tool under its name. *)
Lemma get_tools_keyed_by_name : keyed_by_name get_tools.
Proof.
  intros key tool H. unfold get_tools in H. simpl in H.
  repeat match type of H with
         | context [String.eqb key ?k] =>
             destruct (String.eqb_spec key k) as [->|];
             [inversion H; reflexivity|]
         end.
  discriminate.
Qed.

(** C3 at the tool call of the price scenario. *)
Lemma dispatcher_returns_record_witness :
  exists record,
    lite_execute_tool_safely (world_price 1) "stock_price"
      (requote "{'symbols': ['FPT'], 'data_type': 'realtime'}") = Ok record
    /\ dict_get "status" record = Some (VStr "success")
    /\ carried_tool_name record = Some (VStr "stock_price").
Proof.
  destruct (dispatcher_returns_record
              Lite.loads LiteModels.error_text LiteModels.construct_input
              get_tools (world_price 1) "stock_price"
              (requote "{'symbols': ['FPT'], 'data_type': 'realtime'}"))
    as (record & Returned & _ & _ & Carried & _).
  exists record. split; [exact Returned|]. split.
  - vm_compute in Returned. inversion Returned. reflexivity.
  - apply Carried. exact get_tools_keyed_by_name.
Defined.

(** C4 at the price scenario, after the action node has run. *)
Lemma results_aligned_witness :
  List.length
    (intermediate_results (state_of (lite_run_config world_price price_query 2)))
  = List.length
      (tools_used (state_of (lite_run_config world_price price_query 2))).
Proof.
  destruct (results_aligned_with_tools
              Lite.loads Lite.dumps LiteModels.str_of LiteModels.error_text
              LiteModels.construct_input get_tools
              world_price price_query 2
              (node_of (lite_run_config world_price price_query 2))
              (state_of (lite_run_config world_price price_query 2)))
    as (Same & _).
  - vm_compute. reflexivity.
  - exact Same.
Defined.

(** C5 at the action of the price scenario. *)
Lemma parse_tool_usage_witness :
  carries_action Lite.loads Lite.dumps get_tools price_action "stock_price"
    (requote "{'symbols': ['FPT'], 'data_type': 'realtime'}").
Proof.
  destruct (parse_tool_usage_carries_action
              Lite.loads Lite.dumps LiteModels.error_text get_tools
              price_action)
    as (_ & Carries & _).
  apply Carries. vm_compute. reflexivity.
Defined.

(** C5 as stated fails on an action object with a third field: the
    parser returns the tool and the payload, not [(None, None)]. *)
Lemma parse_three_fields_counterexample :
  lite_parse_tool_usage three_field_action = Ok (Some ("stock_price", "{}"))
  /\ exists block d,
       search_json_block three_field_action = Some block
       /\ Lite.loads block = Ok (VDict d)
       /\ dict_keys d = ["action"; "input"; "note"].
Proof.
  split; [vm_compute; reflexivity|].
  eexists _, _. split; [reflexivity|]. split; reflexivity.
Qed.

(** C6 at a verdict whose decision is not one of the three. *)
Lemma reflection_fail_safe_witness :
  exists state' msg,
    lite_reflection_node (chat_says bogus_verdict) (initial_state price_query)
    = Ok state'
    /\ reflection_decision state' = "end"
    /\ (reflection_notes state'
        = append (reflection_notes (initial_state price_query))
            ("LLM Evaluation: Failed to parse LLM evaluation: " ++ msg)
        \/ reflection_notes state'
           = append (reflection_notes (initial_state price_query))
               ("Error during reflection: " ++ msg)).
Proof.
  destruct (reflection_fail_safe
              Lite.loads LiteModels.str_of LiteModels.error_text)
    as (Safe & _).
  apply (Safe (chat_says bogus_verdict) (initial_state price_query)
              bogus_verdict).
  - reflexivity.
  - reflexivity.
  - intros v Decoded. vm_compute in Decoded. inversion Decoded. reflexivity.
Defined.

(** C7 at the greeting: the formatted marker sets the answer. *)
Lemma reasoning_final_answer_marker_witness :
  decided (_reasoning_node (chat_says greeting_reply) (initial_state "Xin chào"))
  = Some (Some "Xin chào! Tôi là Milano Agent.", "end").
Proof.
  destruct (reasoning_final_answer_marker
              (chat_says greeting_reply) (initial_state "Xin chào")
              greeting_reply eq_refl)
    as (Formatted & _).
  destruct (Formatted eq_refl)
    as (before & rest & state' & Cut & _ & Node & Answer & Decision).
  rewrite Node. simpl. rewrite Answer, Decision.
  vm_compute in Cut. inversion Cut. reflexivity.
Defined.

(** C7 as stated fails on the bare marker: the text contains
    ["FINAL ANSWER"], yet the node sets neither the answer nor the
    decision. *)
Lemma bare_marker_counterexample :
  contains "FINAL ANSWER" "FINAL ANSWER: Xin chào" = true
  /\ decided (_reasoning_node (chat_says "FINAL ANSWER: Xin chào")
                              (initial_state "Xin chào"))
     = Some (None, "continue").
Proof. vm_compute. split; reflexivity. Qed.

(** C8 at the price scenario: the action node appends one record of four
    fields. *)
Lemma action_step_appends_record_witness :
  exists state',
    lite_action_node (world_price 1)
      (state_of (lite_run_config world_price price_query 1)) = Ok state'
    /\ map dict_keys (intermediate_results state')
       = [["llm_output"; "observation"; "tool_name"; "success"]].
Proof.
  destruct (action_step_appends_record
              Lite.loads Lite.dumps LiteModels.str_of LiteModels.error_text
              LiteModels.construct_input get_tools)
    as (Appends & _).
  destruct (Appends (world_price 1)
              (state_of (lite_run_config world_price price_query 1))
              "stock_price"
              (requote "{'symbols': ['FPT'], 'data_type': 'realtime'}"))
    as (tool_result & observation & state' & _ & _ & Node & Records & _).
  - vm_compute. reflexivity.
  - vm_compute. reflexivity.
  - discriminate.
  - discriminate.
  - exists state'. split; [exact Node|]. rewrite Records. reflexivity.
Defined.

(** C8 as stated fails on the record of the price scenario: it has no
    [error_message] field. *)
Lemma record_without_error_message_counterexample :
  map dict_keys
      (intermediate_results
         (state_of (lite_run_config world_price price_query 2)))
  = [["llm_output"; "observation"; "tool_name"; "success"]]
  /\ map (dict_has "error_message")
         (intermediate_results
            (state_of (lite_run_config world_price price_query 2)))
     = [false].
Proof. vm_compute. split; reflexivity. Qed.



(** C10 at a result with neither [status] nor [error]. *)
Lemma format_tool_result_witness :
  lite_format_tool_result "stock_price" [("data", VDict [])]
  = Ok "Tool stock_price failed: Unknown error".
Proof.
  destruct (format_tool_result_unknown_error
              Lite.dumps LiteModels.str_of LiteModels.error_text
              "stock_price" [("data", VDict [])])
    as (_ & Unknown & _).
  apply Unknown; [left|]; reflexivity.
Defined.

(** ** Further properties on the scenarios *)

Local Abbreviation lite_run :=
  (run Lite.loads Lite.dumps LiteModels.str_of LiteModels.error_text
       LiteModels.construct_input get_tools).
Local Abbreviation lite_with_tools :=
  (with_tools LiteModels.str_of LiteModels.error_text
              LiteModels.str_upper LiteModels.str_lower
              LiteModels.valid_date LiteModels.has_ticker
              LiteModels.py_mean LiteModels.as_float).
Local Abbreviation memory_ensure_session :=
  (@_ensure_session Lite.loads LiteModels.error_text Memory.Outside
     Lite.dumps Memory.redis_get Memory.redis_setex Memory.redis_exists
     Memory.time_time Memory.uuid4 Memory.default_ttl).
Local Abbreviation memory_get_cached_analysis :=
  (@get_cached_analysis Lite.loads Memory.Outside Memory.redis_get).
Local Abbreviation lite_run_clock :=
  (run_clock Lite.loads Lite.dumps LiteModels.str_of LiteModels.error_text
             LiteModels.construct_input get_tools).
Local Abbreviation memory_analyze :=
  (@analyze Lite.loads Lite.dumps LiteModels.str_of LiteModels.error_text
     LiteModels.construct_input get_tools Memory.Outside
     Lite.dumps Memory.redis_get Memory.redis_setex Memory.redis_exists
     Memory.history_add Memory.history_messages Memory.time_time
     Memory.uuid4 Memory.default_ttl Memory.float_sub Memory.md5_hexdigest).

(** X3 at a run that fails in the reflection of its tenth cycle, under a
    recursion limit of 40: the step counter ends one past the ceiling. *)
Lemma step_counter_witness :
  exists visited final_state,
    lite_ainvoke 40 None world_ceiling (initial_state greeting)
    = (visited, Ok final_state)
    /\ current_step final_state = 11%Z
    /\ List.length (tools_used final_state) <= 10.
Proof.
  destruct (@step_counter_bounds
              Lite.loads Lite.dumps LiteModels.str_of LiteModels.error_text
              LiteModels.construct_input get_tools)
    as (_ & _ & Graph).
  destruct (lite_ainvoke 40 None world_ceiling (initial_state greeting))
    as [visited [final_state|e]] eqn:A.
  - exists visited, final_state. split; [reflexivity|].
    destruct (Graph 40 None world_ceiling greeting visited final_state A)
      as (_ & Tools & _).
    split; [|exact Tools].
    vm_compute in A. inversion A. reflexivity.
  - vm_compute in A. discriminate A.
Defined.

(** The same run under the limit [run] leaves in place: the graph is
    stopped at its 25th node, in the ninth cycle, and [run] answers with
    its apology. *)
Example default_limit_stops_long_run :
  List.length (lite_run_visited 25 world_ceiling greeting) = 25
  /\ cycles (lite_run_visited 25 world_ceiling greeting) = 9
  /\ exists r,
       lite_run None world_ceiling greeting None = Ok r
       /\ md_success (run_metadata r) = false
       /\ md_steps (run_metadata r) = 0%Z.
Proof.
  split; [vm_compute; reflexivity|]. split; [vm_compute; reflexivity|].
  eexists. split; [vm_compute; reflexivity|]. split; reflexivity.
Qed.

(** X5 at the greeting scenario: the run ends at the first turn, and the
    graph needs a recursion limit of five for its four nodes. *)
Lemma answer_at_first_turn_witness :
  (exists r,
     lite_run None world_greeting greeting None = Ok r
     /\ answer r = "Xin chào! Tôi là Milano Agent."
     /\ md_steps (run_metadata r) = 0%Z
     /\ md_tools_used (run_metadata r) = [])
  /\ fst (lite_ainvoke 5 None world_greeting (initial_state greeting))
     = [reasoning; action; reflection; final_output]
  /\ match snd (lite_ainvoke 4 None world_greeting (initial_state greeting))
     with
     | inl _ => False
     | inr e => exn_cls e = GraphRecursionError
     end.
Proof.
  destruct (answer_at_first_turn_run
              Lite.loads Lite.dumps LiteModels.str_of LiteModels.error_text
              LiteModels.construct_input get_tools
              None world_greeting greeting None
              greeting_reply "Xin chào! Tôi là Milano Agent.")
    as (Run & Visited & _).
  - reflexivity.
  - vm_compute. reflexivity.
  - vm_compute. discriminate.
  - split; [|split].
    + eexists. split; [exact Run|]. repeat split.
    + apply Visited. apply le_n.
    + vm_compute. reflexivity.
Defined.

(** X6 with the chat collaborator down: the run reports success and
    answers with the fault. *)
Lemma chat_outage_witness :
  (exists r,
     lite_run None world_outage greeting None = Ok r
     /\ md_success (run_metadata r) = true
     /\ answer r = "Error: connection refused")
  /\ (exists r,
        lite_run (Some answered_thread) world_outage greeting None = Ok r
        /\ md_steps (run_metadata r) = 0%Z
        /\ answer r = "VNM đóng cửa ở mức 68.5")
  /\ fst (lite_ainvoke 5 None world_outage (initial_state greeting))
     = [reasoning; action; reflection; final_output].
Proof.
  destruct (chat_outage_run
              Lite.loads Lite.dumps LiteModels.str_of LiteModels.error_text
              LiteModels.construct_input get_tools
              None world_outage greeting None
              (Raise_ RuntimeError "connection refused"))
    as (Fresh & _).
  - reflexivity.
  - vm_compute. reflexivity.
  - vm_compute. reflexivity.
  - destruct (chat_outage_run
                Lite.loads Lite.dumps LiteModels.str_of
                LiteModels.error_text LiteModels.construct_input get_tools
                (Some answered_thread) world_outage greeting None
                (Raise_ RuntimeError "connection refused"))
      as (_ & Reused).
    + reflexivity.
    + vm_compute. reflexivity.
    + vm_compute. reflexivity.
    + destruct (Fresh (Raise_ RuntimeError "connection refused"))
        as (Run & Visited & _); [reflexivity|reflexivity|].
      destruct (Reused "VNM đóng cửa ở mức 68.5")
        as (Again & _); [reflexivity|vm_compute; discriminate|].
      split; [|split].
      * eexists. split; [exact Run|]. split; reflexivity.
      * eexists. split; [exact Again|]. split; reflexivity.
      * apply Visited. apply le_n.
Defined.

(** X7 at a fenced reply of the finalizer. *)
Lemma synthesis_unwraps_fence_witness :
  _generate_final_answer (chat_says (fence "FPT: 115000"))
                         (initial_state price_query)
  = Ok "FPT: 115000".
Proof.
  destruct (@synthesis_unwraps_fence
              (chat_says (fence "FPT: 115000")) (initial_state price_query)
              (HumanMessage price_query) [] (fence "FPT: 115000"))
    as (_ & Fenced).
  - reflexivity.
  - vm_compute. discriminate.
  - reflexivity.
  - apply (Fenced "json" "FPT: 115000"); vm_compute; reflexivity.
Defined.

(** X9 at a dispatch whose tool is unavailable. *)
Lemma observation_reports_failure_witness :
  exists record,
    lite_execute_tool_safely (chat_says "") "stock_price"
      (requote "{'symbols': ['FPT']}") = Ok record
    /\ lite_format_tool_result "stock_price" record
       = Ok "Tool stock_price failed: Unknown error"
    /\ dict_get "status" record = Some (VStr "error")
    /\ dict_get "success"
         (step_record "" "Tool stock_price failed: Unknown error"
                      "stock_price" record)
       = Some (VBool false).
Proof.
  destruct (lite_execute_tool_safely (chat_says "") "stock_price"
              (requote "{'symbols': ['FPT']}")) as [record|e] eqn:X;
    [|vm_compute in X; discriminate X].
  exists record.
  assert (F : lite_format_tool_result "stock_price" record
              = Ok "Tool stock_price failed: Unknown error").
  { vm_compute in X. inversion X. vm_compute. reflexivity. }
  destruct (@observation_reports_failure
              Lite.loads Lite.dumps LiteModels.str_of LiteModels.error_text
              LiteModels.construct_input get_tools
              (chat_says "") "stock_price" (requote "{'symbols': ['FPT']}")
              "" "Tool stock_price failed: Unknown error" record X F)
    as (Failed & _ & Flag).
  split; [reflexivity|]. split; [exact F|].
  assert (St : dict_get "status" record = Some (VStr "error")).
  { apply Failed. now exists "Unknown error". }
  split; [exact St|]. rewrite Flag, St. reflexivity.
Defined.

(** X10 at two hits with the source of the first only: one line. *)
Lemma search_results_rendering_witness :
  exists lines,
    lite_format_tool_result "tavily_search" search_result
    = Ok ("Search results: " ++ join nl lines)
    /\ List.length lines = 1.
Proof.
  destruct (@search_results_rendering
              Lite.dumps LiteModels.str_of LiteModels.error_text
              search_result
              [("search_results", VList two_hits);
               ("sources", VList one_source)]
              (VStr "success") two_hits one_source)
    as (Rendered & _); try reflexivity.
  destruct Rendered as (lines & F & L & _).
  - repeat constructor. vm_compute. discriminate.
  - exists lines. split; [exact F | exact L].
Defined.

(** X19 at [stock_price] on the price feed. *)
Lemma tools_report_success_witness :
  exists r,
    _arun (lite_with_tools price_feed (chat_says ""))
          {| name := "stock_price" |}
          [("symbols", VList [VStr "FPT"]); ("data_type", VStr "realtime");
           ("start_date", VNone); ("end_date", VNone)]
    = Ok r
    /\ status r = "success"
    /\ dict_get "tool_name" (metadata r) = Some (VStr "stock_price").
Proof.
  destruct (@tools_report_success
              LiteModels.str_of LiteModels.error_text
              LiteModels.str_upper LiteModels.str_lower
              LiteModels.valid_date LiteModels.has_ticker
              LiteModels.py_mean LiteModels.as_float
              price_feed (chat_says "") "stock_price"
              {| name := "stock_price" |}
              [("symbols", VList [VStr "FPT"]); ("data_type", VStr "realtime");
               ("start_date", VNone); ("end_date", VNone)])
    as (Declared & _).
  - reflexivity.
  - apply Declared; [reflexivity | discriminate].
Defined.

(** X23 at a Redis that holds the session and a cached answer: the
    answer comes back marked, though the chat collaborator is down. *)
Lemma analyze_cache_hit_witness :
  fst (memory_analyze None world_outage greeting (Some "s1")
         store_with_answer)
  = Ok (VDict [("answer", VStr "Xin chào!");
               ("metadata",
                VDict [("success", VBool true); ("session_id", VStr "s1");
                       ("steps", VInt 0); ("cached", VBool true)])]).
Proof.
  destruct (@analyze_cache_hit
              Lite.loads Lite.dumps LiteModels.str_of LiteModels.error_text
              LiteModels.construct_input get_tools Memory.Outside
              Lite.dumps Memory.redis_get Memory.redis_setex
              Memory.redis_exists Memory.history_add Memory.history_messages
              Memory.time_time Memory.uuid4 Memory.default_ttl
              Memory.float_sub Memory.md5_hexdigest
              None world_outage greeting (Some "s1") store_with_answer
              "s1"
              (snd (memory_ensure_session (Some "s1") store_with_answer))
              (VDict [("answer", VStr "Xin chào!");
                      ("metadata",
                       VDict [("success", VBool true);
                              ("session_id", VStr "s0");
                              ("steps", VInt 0); ("cached", VBool false)])])
              (snd (memory_ensure_session (Some "s1") store_with_answer)))
    as (Hit & _).
  - vm_compute. reflexivity.
  - vm_compute. reflexivity.
  - reflexivity.
  - rewrite Hit. vm_compute. reflexivity.
Defined.

(** X13 at two symbols written in one text: the feed is asked about the
    normalized symbols. *)
Lemma stock_price_witness :
  StockPriceTool_execute_impl
    LiteModels.str_of LiteModels.error_text LiteModels.str_upper
    LiteModels.valid_date price_feed
    (VStr "fpt, vnm") (VStr "realtime") VNone VNone
  = Ok (VDict [("results",
                VDict [("FPT", VDict [("price", VInt 115000)]);
                       ("VNM", VDict [("price", VInt 115000)])])]).
Proof.
  destruct (@stock_price_masks_failures
              Lite.dumps LiteModels.str_of LiteModels.error_text
              LiteModels.str_upper LiteModels.str_lower
              LiteModels.valid_date LiteModels.has_ticker
              LiteModels.py_mean LiteModels.as_float
              price_feed (VStr "fpt, vnm") (VStr "realtime") VNone VNone)
    as (_ & _ & Accepted & _).
  rewrite (Accepted ["FPT"; "VNM"]); reflexivity.
Defined.

(** X16 at a search that finds one hit. *)
Lemma tavily_search_witness :
  exists r,
    _arun (lite_with_tools research_desk (chat_says ""))
          {| name := "tavily_search" |} [("query", VStr "FPT")]
    = Ok r
    /\ status r = "success"
    /\ lite_format_tool_result "tavily_search" (ToolResult_model_dump r)
       = Ok "Search results: Title: FPT. Content: up. URL: https://cafef.vn".
Proof.
  destruct (@tavily_search_observation
              Lite.dumps LiteModels.str_of LiteModels.error_text
              LiteModels.str_upper LiteModels.str_lower
              LiteModels.valid_date LiteModels.has_ticker
              LiteModels.py_mean LiteModels.as_float
              research_desk (chat_says "") "FPT")
    as (_ & Found & _).
  destruct (Found [VDict [("title", VStr "FPT"); ("content", VStr "up");
                          ("url", VStr "https://cafef.vn");
                          ("score", VInt 1)]])
    as (r & Run & St & _ & Obs); try reflexivity.
  exists r. split; [exact Run|]. split; [exact St | exact Obs].
Defined.

(** X17 at a retrieval that finds one document. *)
Lemma rag_knowledge_witness :
  RAGTool_execute_impl LiteModels.str_of LiteModels.error_text
                       LiteModels.py_mean LiteModels.as_float
                       research_desk (VStr "HOSE")
  = Ok (VDict [("knowledge_context",
                VStr ("Nguồn 1: Rules" ++ nl ++ "HOSE opens at 9:00" ++ nl));
               ("sources", VList [VDict [("title", VStr "Rules")]]);
               ("scores", VList [VFloat "1.0"])]).
Proof.
  destruct (@rag_knowledge_context
              Lite.dumps LiteModels.str_of LiteModels.error_text
              LiteModels.str_upper LiteModels.str_lower
              LiteModels.valid_date LiteModels.has_ticker
              LiteModels.py_mean LiteModels.as_float
              research_desk (VStr "HOSE"))
    as ((knowledge_context & sources & scores & Run & _) & _).
  rewrite Run. vm_compute in Run. inversion Run. reflexivity.
Defined.

(** X21 at the session of the store: it is read back, accessed now. *)
Lemma session_data_round_trip_witness :
  fst (@get_session Lite.loads LiteModels.error_text Memory.Outside
         Lite.dumps Memory.redis_get Memory.redis_setex Memory.time_time
         Memory.default_ttl "s1" store_with_answer)
  = Ok (Some {| sd_session_id := VStr "s1";
                created_at := VInt 1;
                last_accessed := VInt 12;
                analysis_cache := VDict [];
                sd_metadata := VDict [];
                conversation_history := VList [] |}).
Proof.
  destruct (@session_data_round_trip
              Lite.loads LiteModels.error_text Memory.Outside
              Lite.dumps Memory.redis_get Memory.redis_setex
              Memory.time_time Memory.default_ttl
              {| sd_session_id := VStr "s1";
                 created_at := VInt 1;
                 last_accessed := VInt 2;
                 analysis_cache := VDict [];
                 sd_metadata := VDict [];
                 conversation_history := VList [] |}
              store_with_answer)
    as (_ & _ & _ & Read).
  rewrite (Read "s1" stored_session store_with_answer);
    [reflexivity | reflexivity | vm_compute; discriminate
     | vm_compute; reflexivity].
Defined.

(** X22 at a session whose record is broken: its id can no longer be
    used. *)
Lemma ensure_session_witness :
  memory_ensure_session (Some "s1") store_with_broken_session
  = (Raise ValueError "Session with ID s1 already exists",
     store_with_broken_session).
Proof.
  destruct (@ensure_session_outcomes
              Lite.loads LiteModels.error_text Memory.Outside
              Lite.dumps Memory.redis_get Memory.redis_setex
              Memory.redis_exists Memory.time_time Memory.uuid4
              Memory.default_ttl (Some "s1") store_with_broken_session)
    as (_ & Given & _).
  destruct (Given "s1" eq_refl) as (_ & _ & _ & Locked & _);
    [discriminate|].
  destruct (Lite.loads "{") as [v|e] eqn:Decoded;
    [vm_compute in Decoded; discriminate Decoded|].
  apply (Locked "{" e store_with_broken_session 1%Z
                store_with_broken_session).
  - vm_compute. discriminate.
  - reflexivity.
  - exact Decoded.
  - reflexivity.
  - discriminate.
Defined.

(** X24 at the first request of a greeting: a session is created, the
    workflow runs, and its record is the answer.  The three nodes that
    precede the final output read the clock once each, between the two
    readings of [run]: on a clock that advances by one at each reading
    the execution time is 4. *)
Lemma analyze_fresh_witness :
  exists r,
    lite_run None world_greeting greeting (Some "session-0") = Ok r
    /\ lite_run_clock None world_greeting greeting = 3
    /\ fst (memory_analyze None world_greeting greeting None Memory.start)
       = Ok (analysis_result r "session-0" (Memory.md5_hexdigest greeting)
                             (VInt 4)).
Proof.
  destruct (@analyze_fresh_result
              Lite.loads Lite.dumps LiteModels.str_of LiteModels.error_text
              LiteModels.construct_input get_tools Memory.Outside
              Lite.dumps Memory.redis_get Memory.redis_setex
              Memory.redis_exists Memory.history_add Memory.history_messages
              Memory.time_time Memory.uuid4 Memory.default_ttl
              Memory.float_sub Memory.md5_hexdigest
              None world_greeting greeting None Memory.start)
    as (_ & Miss & _).
  destruct (Miss "session-0"
                 (snd (memory_ensure_session None Memory.start))
                 VNone
                 (snd (memory_ensure_session None Memory.start)))
    as (r & o3 & Updated & Run & _ & Result).
  - vm_compute. reflexivity.
  - vm_compute. reflexivity.
  - reflexivity.
  - exists r. split; [exact Run|]. split; [vm_compute; reflexivity|].
    rewrite Result. cbn [fst].
    vm_compute in Updated. inversion Updated. vm_compute. reflexivity.
Defined.
